(** * The LXC driver of the Nomad client: a shallow embedding

    The development follows the two versions of the driver that the
    repository carries:

    - [src/client/driver/lxc.go], the driver as first written
      (module [LxcGo] below);
    - [src/unnamed/part_000], the later rewrite with rollback closures,
      volume support, [extractVgName] and [cleanupContainer]
      (module [Part000] below).

    Code that both versions share word for word ([Stats], [keysToVal],
    the select loop of [run]) is embedded once.

    Conventions.  A Go [string] is a sequence of bytes: Rocq's [string],
    whose characters are 8-bit [ascii]; where Go reads a string as
    UTF-8 (the regular expression of [extractVgName]) the bytes are
    decoded as Go decodes them.  A Go [error] is the call site
    that built it; [nil] is [None].  A function that can abort with a
    run-time panic, or park its goroutine on a channel, returns in the
    [go] type.  Calls into the container runtime
    (gopkg.in/lxc/go-lxc.v2), into the operating system and the clock are
    inputs of the model: the runtime is an interface ([Runtime]), command
    and file-system outcomes are fields of an environment record, and
    every such call is logged as an [event]. *)

From stdpp Require Import base strings list gmap.
From Stdlib Require Import ZArith Lia Ascii DecimalString DecimalZ DecimalPos.

Local Open Scope Z_scope.

(** ** Go results *)

(** The outcome of a Go function call: it returns a value, the
    goroutine panics, or the goroutine is parked on a channel operation
    that is not ready. *)
Inductive go (A : Type) : Type :=
| Return (a : A)
| Panic (msg : string)
| Block.
Arguments Return {A} a.
Arguments Panic {A} msg.
Arguments Block {A}.

Definition go_bind {A B} (m : go A) (k : A -> go B) : go B :=
  match m with
  | Return a => k a
  | Panic msg => Panic msg
  | Block => Block
  end.

(** ** Errors

    Every [fmt.Errorf] call site of the driver is a constructor that
    carries the arguments of the format; the message is in the comment. *)
Inductive ErrorValue : Type :=
| ErrInvalidVolume (volStr : string)
    (* "invalid volume bind mount entry: '%s'" *)
| ErrAbsoluteMount (path : string)
    (* "unsupported absolute container mount point: '%s'" *)
| ErrComponents (baseLvName : string) (n : nat)
    (* "unexpected number of components in baseLvName '%s': %d" *)
| ErrNoVgName
    (* "could not parse volume group name from '%v':, baseLvName" *)
| ErrDecode
    (* the error of mapstructure.WeakDecode *)
| ErrMkdir (containerPath : string)
    (* "unable to create container directory at %s" *)
| ErrOnlyLVM
    (* "only LVM is supported as a base to clone from" *)
| ErrLvCreate (args : list string) (stderr : string)
    (* "could not create thin pool snapshot with cmd '%v': %v: %s" *)
| ErrLvRemove (args : list string) (stderr : string)
    (* "could not remove thin pool snapshot with cmd '%v': %v: %s" *)
| ErrParseVg (baseLvName : string)
    (* "Could not parse LVM Volume Group name from '%s'" *)
| ErrCreateConfig (path : string)
    (* "unable to create new config file '%s': %v" *)
| ErrChmod
    (* "unable to change permissions on config file" *)
| ErrParseTemplate (path : string)
    (* "unable to parse config template in '%v': %v" *)
| ErrExecTemplate
    (* "Error executing config file template: %v" *)
| ErrLoadConfig
    (* "unable to read config file for container: %v" *)
| ErrNetworkType
    (* "error setting network type configuration: %v" *)
| ErrBindMount (mnt : string)
    (* "error setting bind mount %q error: %v" *)
| ErrAbsoluteVolume
    (* "absolute bind-mount volume in config but '%v' is false" *)
| ErrEnvironment (envVar : string)
    (* "error setting environment variable '%s': %v" *)
| ErrStartExecute (args : list string)
    (* "unable to execute with args '%v': %v" *)
| ErrMemoryLimit
    (* "unable to set memory limits: %v" *)
| ErrCpuShares
    (* "unable to set cpu shares: %v" *)
| ErrRemoveFile (path : string)
    (* the error of os.Remove *)
| ErrStop
    (* the error of Container.Stop, and
       "could not stop container: %v" *)
| ErrShutdown
    (* the error of Container.Shutdown *)
| ErrDestroy
    (* "could not destroy container" *)
| ErrFindProcess
    (* the error of os.FindProcess *)
| ErrSignal
    (* the error of Process.Signal *)
| ErrInitContainer
    (* "unable to initialize container: %v" *)
| ErrVerbosity
    (* "lxc driver config 'verbosity' can only be either quiet or verbose" *)
| ErrLogLevel
    (* "lxc driver config 'log_level' can only be trace, debug, info,
       warn or error" *)
| ErrCreate
    (* "unable to create container: %v" *)
| ErrStart
    (* "unable to start container: %v" *)
| ErrNotKV
    (* "line isn't a k/v pair" *)
| ErrSyntax
    (* strconv.ErrSyntax, wrapped in a *NumError *)
| ErrRange
    (* strconv.ErrRange, wrapped in a *NumError *).

(** A Go [error]: [None] is [nil]. *)
Abbreviation error := (option ErrorValue).

(** ** Package [strings] and string slicing *)

Module strings.

(** [len(s)] *)
Definition len (s : string) : Z := Z.of_nat (String.length s).

(** [strings.HasPrefix(s, prefix)] *)
Fixpoint HasPrefix (s prefix : string) {struct prefix} : bool :=
  match prefix, s with
  | EmptyString, _ => true
  | String p prefix', String c s' =>
      if Ascii.eqb c p then HasPrefix s' prefix' else false
  | String _ _, EmptyString => false
  end.

(** [strings.Split(s, sep)] for a separator of one byte: the
    components between the separators, at least one. *)
Fixpoint Split (s : string) (sep : ascii) : list string :=
  match s with
  | EmptyString => [EmptyString]
  | String c s' =>
      if Ascii.eqb c sep then EmptyString :: Split s' sep
      else match Split s' sep with
           | x :: xs => String c x :: xs
           | [] => [String c EmptyString]
           end
  end.

(** [strings.Replace(s, old, new, -1)] for [old] of one byte. *)
Fixpoint Replace (s : string) (old : ascii) (new : string) : string :=
  match s with
  | EmptyString => EmptyString
  | String c s' =>
      if Ascii.eqb c old then new +:+ Replace s' old new
      else String c (Replace s' old new)
  end.

(** [strings.Index(s, sep)] for [sep] of one byte; -1 when absent. *)
Fixpoint Index (s : string) (sep : ascii) : Z :=
  match s with
  | EmptyString => -1
  | String c s' =>
      if Ascii.eqb c sep then 0
      else let i := Index s' sep in if i <? 0 then -1 else 1 + i
  end.

(** [strings.LastIndex(s, sep)] for [sep] of one byte; -1 when absent. *)
Fixpoint LastIndex (s : string) (sep : ascii) : Z :=
  match s with
  | EmptyString => -1
  | String c s' =>
      let i := LastIndex s' sep in
      if 0 <=? i then 1 + i
      else if Ascii.eqb c sep then 0 else -1
  end.

Fixpoint drop (n : nat) (s : string) : string :=
  match n, s with
  | O, _ => s
  | S n', String _ s' => drop n' s'
  | S _, EmptyString => EmptyString
  end.

Fixpoint take (n : nat) (s : string) : string :=
  match n, s with
  | O, _ => EmptyString
  | S n', String c s' => String c (take n' s')
  | S _, EmptyString => EmptyString
  end.

(** The slice expression [s[lo:hi]]: a run-time panic unless
    [0 <= lo <= hi <= len(s)]. *)
Definition slice (s : string) (lo hi : Z) : go string :=
  if (0 <=? lo) && (lo <=? hi) && (hi <=? len s)
  then Return (take (Z.to_nat (hi - lo)) (drop (Z.to_nat lo) s))
  else Panic "slice bounds out of range".

(** [s[:hi]] and [s[lo:]] *)
Definition slice_to (s : string) (hi : Z) : go string := slice s 0 hi.
Definition slice_from (s : string) (lo : Z) : go string := slice s lo (len s).

(** The bytes of [s] all satisfy [p]. *)
Fixpoint all (p : ascii -> bool) (s : string) : bool :=
  match s with
  | EmptyString => true
  | String c s' => p c && all p s'
  end.

(** The first byte of [s], if any. *)
Definition head (s : string) : option ascii :=
  match s with
  | EmptyString => None
  | String c _ => Some c
  end.

(** The last byte of [s], if any. *)
Fixpoint last (s : string) : option ascii :=
  match s with
  | EmptyString => None
  | String c EmptyString => Some c
  | String _ s' => last s'
  end.

End strings.

(** ** Volume policy: [validateVolumesConfig] *)

(** A value of type [interface{}] as [Validate] hands it over: the
    elements of the decoded [volumes] array are strings when the job file
    is well-typed; any other dynamic type makes the type assertion
    [volDesc.(string)] panic. *)
Inductive iface : Type :=
| IString (s : string)
| IOther.

(** [LxcDriver.validateVolumesConfig] (part_000, lines 237-252). *)
Fixpoint validateVolumesConfig (volumes : list iface) : go error :=
  match volumes with
  | [] => Return None
  | IOther :: _ => Panic "interface conversion: interface {} is not string"
  | IString volStr :: rest =>
      match strings.Split volStr ":" with
      | [p0; p1] =>
          if (strings.len p0 =? 0) || (strings.len p1 =? 0)
          then Return (Some (ErrInvalidVolume volStr))
          else match p1 with
               | String "/" _ => Return (Some (ErrAbsoluteMount p1))
               | _ => validateVolumesConfig rest
               end
      | _ => Return (Some (ErrInvalidVolume volStr))
      end
  end.

(** ** Package [unicode/utf8]: [DecodeRuneInString]

    Go's [regexp] reads its input one UTF-8 character (rune) at a time.
    A byte sequence that is no valid encoding counts as the rune U+FFFD
    of width 1. *)
Module utf8.

Definition RuneError : Z := 65533.
Definition RuneSelf : Z := 128.

Definition byte (c : ascii) : Z := Z.of_nat (nat_of_ascii c).

Definition within (lo hi : Z) (c : ascii) : bool :=
  (lo <=? byte c) && (byte c <=? hi).

(** The tables [first] and [acceptRanges]: for a leading byte, the size
    of the encoding and the range of its second byte; [None] for a byte
    that starts no encoding of more than one byte. *)
Definition first (s0 : Z) : option (nat * (Z * Z)) :=
  if (194 <=? s0) && (s0 <=? 223) then Some (2%nat, (128, 191))
  else if s0 =? 224 then Some (3%nat, (160, 191))
  else if (225 <=? s0) && (s0 <=? 236) then Some (3%nat, (128, 191))
  else if s0 =? 237 then Some (3%nat, (128, 159))
  else if (238 <=? s0) && (s0 <=? 239) then Some (3%nat, (128, 191))
  else if s0 =? 240 then Some (4%nat, (144, 191))
  else if (241 <=? s0) && (s0 <=? 243) then Some (4%nat, (128, 191))
  else if s0 =? 244 then Some (4%nat, (128, 143))
  else None.

(** The rune at the start of [s] and its width in bytes. *)
Definition DecodeRuneInString (s : string) : Z * nat :=
  match s with
  | EmptyString => (RuneError, 0%nat)
  | String c0 s1 =>
      let s0 := byte c0 in
      if s0 <? RuneSelf then (s0, 1%nat)
      else
        match first s0 with
        | None => (RuneError, 1%nat)
        | Some (sz, (lo, hi)) =>
            if (String.length s <? sz)%nat then (RuneError, 1%nat)
            else
            match s1 with
            | EmptyString => (RuneError, 1%nat)
            | String c1 s2 =>
                if negb (within lo hi c1) then (RuneError, 1%nat)
                else if (sz <=? 2)%nat
                then (Z.lor (Z.shiftl (Z.land s0 31) 6) (Z.land (byte c1) 63),
                      2%nat)
                else
                  match s2 with
                  | EmptyString => (RuneError, 1%nat)
                  | String c2 s3 =>
                      if negb (within 128 191 c2) then (RuneError, 1%nat)
                      else if (sz <=? 3)%nat
                      then (Z.lor
                              (Z.lor (Z.shiftl (Z.land s0 15) 12)
                                 (Z.shiftl (Z.land (byte c1) 63) 6))
                              (Z.land (byte c2) 63),
                            3%nat)
                      else
                        match s3 with
                        | EmptyString => (RuneError, 1%nat)
                        | String c3 _ =>
                            if negb (within 128 191 c3)
                            then (RuneError, 1%nat)
                            else
                              (Z.lor
                                 (Z.lor
                                    (Z.lor (Z.shiftl (Z.land s0 7) 18)
                                       (Z.shiftl (Z.land (byte c1) 63) 12))
                                    (Z.shiftl (Z.land (byte c2) 63) 6))
                                 (Z.land (byte c3) 63),
                               4%nat)
                        end
                  end
            end
        end
  end.

End utf8.

(** ** Package [regexp], as far as [devMapperRE] needs it

    Go's [regexp] finds the leftmost match and, among the matches that
    start there, the one a backtracking matcher explores first: a starred
    item takes as many characters as it can and gives them back one at a
    time.  [match_k] is that matcher, written with a continuation for
    "the rest of the pattern".  A literal is matched byte by byte; a
    character class is tested on the rune that [DecodeRuneInString]
    reads, and the match moves on by the width of that rune. *)
Module regexp.

Inductive re : Type :=
| Lit (l : string)            (* literal text *)
| Class (p : Z -> bool)       (* one rune of a class *)
| Star (p : Z -> bool)        (* [class]*, greedy *)
| Cat (r1 r2 : re).

Fixpoint lit_k {A} (l s : string) (k : string -> option A) {struct l}
    : option A :=
  match l, s with
  | EmptyString, _ => k s
  | String a l', String c s' =>
      if Ascii.eqb c a then lit_k l' s' k else None
  | String _ _, EmptyString => None
  end.

(** [skip] is the number of bytes of the rune just taken that are still
    to be passed over before the next rune starts. *)
Fixpoint star_k {A} (p : Z -> bool) (skip : nat) (s : string)
    (k : string -> option A) {struct s} : option A :=
  match s with
  | EmptyString => k s
  | String _ s' =>
      match skip with
      | S j => star_k p j s' k
      | O =>
          let '(r, w) := utf8.DecodeRuneInString s in
          if p r
          then match star_k p (Nat.pred w) s' k with
               | Some a => Some a
               | None => k s
               end
          else k s
      end
  end.

Fixpoint match_k {A} (r : re) (s : string)
    (k : string -> option A) : option A :=
  match r with
  | Lit l => lit_k l s k
  | Class p =>
      match s with
      | String _ _ =>
          let '(r, w) := utf8.DecodeRuneInString s in
          if p r then k (strings.drop w s) else None
      | EmptyString => None
      end
  | Star p => star_k p 0 s k
  | Cat r1 r2 => match_k r1 s (fun s' => match_k r2 s' k)
  end.

(** A pattern [pre(grp)post] with one capture group. *)
Record re1 : Type := { pre : re; grp : re; post : re }.

(** The text of group 1 when the pattern matches at the start of [s]. *)
Definition match_here (r : re1) (s : string) : option string :=
  match_k (pre r) s (fun s1 =>
    match_k (grp r) s1 (fun s2 =>
      match_k (post r) s2 (fun _ =>
        Some (strings.take (String.length s1 - String.length s2) s1)))).

(** The search for the leftmost match: the pattern is tried at the
    start of [s] and then after each rune of [s]. *)
Fixpoint findFrom (r : re1) (skip : nat) (s : string) {struct s}
    : option string :=
  match skip with
  | S j =>
      match s with
      | String _ s' => findFrom r j s'
      | EmptyString => None
      end
  | O =>
      match match_here r s with
      | Some g => Some g
      | None =>
          match s with
          | String _ s' =>
              findFrom r (Nat.pred (utf8.DecodeRuneInString s).2) s'
          | EmptyString => None
          end
      end
  end.

(** [re.FindAllStringSubmatch(s, 1)]: [None] is the [nil] result,
    [Some g] is [[][]string{{whole, g}}] (the driver reads only
    [matches[0][1]]). *)
Definition FindAllStringSubmatch (r : re1) (s : string) : option string :=
  findFrom r 0 s.

End regexp.

(** ** [extractVgName] (part_000, lines 556-582) *)

Definition in_range (lo hi c : ascii) : bool :=
  (nat_of_ascii lo <=? nat_of_ascii c)%nat
  && (nat_of_ascii c <=? nat_of_ascii hi)%nat.

(** The bytes of the class [[a-zA-Z0-9_+.-]]. *)
Definition vgClass (c : ascii) : bool :=
  in_range "a" "z" c || in_range "A" "Z" c || in_range "0" "9" c
  || Ascii.eqb c "_" || Ascii.eqb c "+" || Ascii.eqb c "." || Ascii.eqb c "-".

(** The bytes of the class [[^-]]. *)
Definition notDash (c : ascii) : bool := negb (Ascii.eqb c "-").

(** A class of ASCII characters, as a set of runes. *)
Definition asciiClass (p : ascii -> bool) (r : Z) : bool :=
  (0 <=? r) && (r <? utf8.RuneSelf) && p (ascii_of_nat (Z.to_nat r)).

(** The class [[^c]] for an ASCII character [c], as a set of runes. *)
Definition notRune (c : ascii) (r : Z) : bool := negb (r =? utf8.byte c).

(** ["/dev/mapper/([a-zA-Z0-9_+.-]*[^-])-{1}[^-]"] *)
Definition devMapperRE : regexp.re1 :=
  {| regexp.pre := regexp.Lit "/dev/mapper/";
     regexp.grp :=
       regexp.Cat (regexp.Star (asciiClass vgClass))
         (regexp.Class (notRune "-"));
     regexp.post :=
       regexp.Cat (regexp.Lit "-") (regexp.Class (notRune "-")) |}.

(** The tail of [extractVgName]: the check [len(vgName) == 0]. *)
Definition checkVgName (vgName : string) : string * error :=
  if strings.len vgName =? 0 then (EmptyString, Some ErrNoVgName)
  else (vgName, None).

Definition extractVgName (baseLvName : string) : go (string * error) :=
  if negb (strings.HasPrefix baseLvName "/") then
    (* vgname/lvname *)
    let c := strings.Split baseLvName "/" in
    match c with
    | [c0; _] => Return (checkVgName c0)
    | _ => Return (EmptyString, Some (ErrComponents baseLvName (length c)))
    end
  else
    (* /dev/mapper/vg--name-lv--name *)
    match regexp.FindAllStringSubmatch devMapperRE baseLvName with
    | Some g => Return (checkVgName g)
    | None =>
        if strings.HasPrefix baseLvName "/dev/" then
          (* /dev/vg/lv *)
          go_bind
            (strings.slice baseLvName (strings.len "/dev/")
               (strings.LastIndex baseLvName "/"))
            (fun vgName => Return (checkVgName vgName))
        else Return (checkVgName EmptyString)
    end.

(** The closure [tr] of [executeContainer]:
    [strings.Replace(s, "-", "--", -1)]. *)
Definition tr (s : string) : string := strings.Replace s "-" "--".


(** ** Channels

    A buffered channel: the queued values, the capacity given to [make],
    and whether [close] was called. *)
Record chan (A : Type) : Type :=
  { buf : list A; cap : nat; closed : bool }.
Arguments buf {A} c.
Arguments cap {A} c.
Arguments closed {A} c.

(** [make(chan A, n)] *)
Definition make {A} (n : nat) : chan A :=
  {| buf := []; cap := n; closed := false |}.

(** [ch <- v]: panics on a closed channel, blocks on a full buffer. *)
Definition chan_send {A} (ch : chan A) (v : A) : go (chan A) :=
  if closed ch then Panic "send on closed channel"
  else if (length (buf ch) <? cap ch)%nat
       then Return {| buf := buf ch ++ [v]; cap := cap ch; closed := false |}
       else Block.

(** [close(ch)]: panics when the channel is closed already. *)
Definition chan_close {A} (ch : chan A) : go (chan A) :=
  if closed ch then Panic "close of closed channel"
  else Return {| buf := buf ch; cap := cap ch; closed := true |}.

(** A receive [<-ch] is ready when a value is queued or the channel is
    closed. *)
Definition chan_ready {A} (ch : chan A) : bool :=
  match buf ch with
  | [] => closed ch
  | _ :: _ => true
  end.

(** ** The container runtime and the handle *)

(** [dstructs.WaitResult]; [&dstructs.WaitResult{}] is [emptyWaitResult]. *)
Record WaitResult : Type :=
  { ExitCode : Z; Signal : Z; Err : error }.

Definition emptyWaitResult : WaitResult :=
  {| ExitCode := 0; Signal := 0; Err := None |}.

(** What the driver does to the world outside the goroutine that runs
    it. *)
Inductive event : Type :=
| CallRunning
| CallShutdown (timeout : Z)
| CallStop
| CallWait
| CallDestroy
| CloseDoneCh
| SendWaitCh (r : WaitResult)
| CloseWaitCh
(* provisioning: the file system, external commands, the container *)
| OsMkdirAll (path : string)
| ExecCommand (name : string) (args : list string)
| OsCreate (path : string)
| OsChmod (path : string)
| OsRemove (path : string)
| TemplateParseFiles (path : string)
| TemplateExecute (rootFSPath containerName : string)
| CallLoadConfigFile (path : string)
| CallSetCommonContainerConfig
| CallStartExecute (args : list string)
| CallSetLimits
| CallCreate
| CallStart
| GoRun.

(** The methods of [*lxc.Container] that a handle calls.  [C] is the
    state of the container behind the pointer; a method that changes the
    container returns its new state.  [Wait] is
    [Wait(lxc.STOPPED, 15*time.Second)]; [CPUStats] and [CPUTime] give
    [None] for a non-nil error; [CgroupItem] gives the lines of a cgroup
    file, none when it cannot be read. *)
Class Runtime (C : Type) : Type :=
  { Name : C -> string;
    Running : C -> bool;
    Shutdown : Z -> C -> error * C;
    Stop : C -> error * C;
    Wait : C -> bool * C;
    Destroy : C -> error * C;
    CPUStats : C -> option (gmap string Z);
    CPUTime : C -> option Z;
    CgroupItem : C -> string -> list string }.

(** [stats.CpuStats] of the Nomad client (client/stats, not part of the
    sources at hand) enters as an interface: [CS] is the state of one
    accumulator, [F] stands for [float64], [Percent] reads the clock
    (its second argument) and the sample and returns the percentage with
    the updated accumulator. *)
Class CpuAccumulator (CS F : Type) : Type :=
  { NewCpuStats : CS;
    Percent : CS -> Z -> F -> F * CS;
    float64 : Z -> F }.

(** [lxcDriverHandle] (the logger left out). *)
Record lxcDriverHandle (C CS : Type) : Type :=
  { container : C;
    initPid : Z;
    lxcPath : string;
    killTimeout : Z;
    maxKillTimeout : Z;
    totalCpuStats : CS;
    userCpuStats : CS;
    systemCpuStats : CS;
    waitCh : chan WaitResult;
    doneCh : chan bool }.
Arguments container {C CS} l.
Arguments initPid {C CS} l.
Arguments lxcPath {C CS} l.
Arguments killTimeout {C CS} l.
Arguments maxKillTimeout {C CS} l.
Arguments totalCpuStats {C CS} l.
Arguments userCpuStats {C CS} l.
Arguments systemCpuStats {C CS} l.
Arguments waitCh {C CS} l.
Arguments doneCh {C CS} l.

(** ** A monad for handle methods

    A method runs on the handle (the receiver [h], shared with the other
    goroutines through the pointer), ends as a [go] outcome, leaves the
    handle in a new state and emits events. *)
Definition M (S A : Type) : Type := S -> go A * S * list event.

Definition ret {S A} (a : A) : M S A := fun h => (Return a, h, []).

Definition bind {S A B} (m : M S A) (k : A -> M S B) : M S B :=
  fun h =>
    match m h with
    | (Return a, h', t) =>
        let '(r, h'', t') := k a h' in (r, h'', t ++ t')
    | (Panic msg, h', t) => (Panic msg, h', t)
    | (Block, h', t) => (Block, h', t)
    end.

Declare Scope go_scope.
Delimit Scope go_scope with go.
Notation "x <- m ;; k" := (bind m (fun x => k))
  (at level 100, m at level 99, right associativity) : go_scope.
Notation "m ;;; k" := (bind m (fun _ => k))
  (at level 100, right associativity) : go_scope.
Local Open Scope go_scope.

(** [defer d] in front of [body]: [d] runs when [body] returns and when
    it panics; a goroutine parked inside [body] has not reached it.  A
    panic of [d] replaces a normal return. *)
Definition defer {S A} (d : M S unit) (body : M S A) : M S A :=
  fun h =>
    match body h with
    | (Return a, h', t) =>
        match d h' with
        | (Return _, h'', t') => (Return a, h'', t ++ t')
        | (Panic msg, h'', t') => (Panic msg, h'', t ++ t')
        | (Block, h'', t') => (Block, h'', t ++ t')
        end
    | (Panic msg, h', t) =>
        match d h' with
        | (Block, h'', t') => (Block, h'', t ++ t')
        | (_, h'', t') => (Panic msg, h'', t ++ t')
        end
    | (Block, h', t) => (Block, h', t)
    end.

Definition result {S A} (x : go A * S * list event) : go A := x.1.1.
Definition state {S A} (x : go A * S * list event) : S := x.1.2.
Definition trace {S A} (x : go A * S * list event) : list event := x.2.

(** ** The structures of a usage snapshot ([client/structs]) *)
Module cstructs.

Record CpuStats (F : Type) : Type :=
  { SystemMode : F;
    UserMode : F;
    Percent : F;
    TotalTicks : F;
    Measured : list string }.
Arguments SystemMode {F} c.
Arguments UserMode {F} c.
Arguments Percent {F} c.
Arguments TotalTicks {F} c.
Arguments Measured {F} c.

Record MemoryStats : Type :=
  { RSS : Z;
    Cache : Z;
    Swap : Z;
    MaxUsage : Z;
    KernelUsage : Z;
    KernelMaxUsage : Z;
    MemMeasured : list string }.

(** [TaskResourceUsage] with its [ResourceUsage] inlined. *)
Record TaskResourceUsage (F : Type) : Type :=
  { ResourceCpuStats : CpuStats F;
    ResourceMemoryStats : MemoryStats;
    Timestamp : Z }.
Arguments ResourceCpuStats {F} t.
Arguments ResourceMemoryStats {F} t.
Arguments Timestamp {F} t.

End cstructs.

Definition LXCMeasuredCpuStats : list string :=
  ["System Mode"; "User Mode"; "Percent"].

Definition LXCMeasuredMemStats : list string :=
  ["RSS"; "Cache"; "Swap"; "Max Usage"; "Kernel Usage"; "Kernel Max Usage"].

(** ** Package [strconv]: [ParseUint(s, 10, 64)] *)
Module strconv.

Definition maxUint64 : Z := 2 ^ 64 - 1.

(** The cutoff of the loop: the smallest number [n] with [n * 10]
    above [maxUint64]. *)
Definition cutoff : Z := maxUint64 / 10 + 1.

Definition digit (c : ascii) : option Z :=
  if in_range "0" "9" c then Some (Z.of_nat (nat_of_ascii c) - 48)
  else None.

(** The loop of [ParseUint] over the bytes of [s], with [n] the number
    read so far.  A byte that is no digit ends it with a syntax error
    and value 0; a number that leaves the 64 bits ends it with a range
    error and value [maxUint64], at the digit where that happens and
    before the bytes after it are looked at. *)
Fixpoint parseDigits (n : Z) (s : string) : Z * error :=
  match s with
  | EmptyString => (n, None)
  | String c s' =>
      match digit c with
      | None => (0, Some ErrSyntax)
      | Some v =>
          if cutoff <=? n then (maxUint64, Some ErrRange)
          else
            let n1 := n * 10 + v in
            if maxUint64 <? n1 then (maxUint64, Some ErrRange)
            else parseDigits n1 s'
      end
  end.

(** No sign and no underscore in base 10; the empty string is a syntax
    error with value 0. *)
Definition ParseUint (s : string) : Z * error :=
  match s with
  | EmptyString => (0, Some ErrSyntax)
  | String _ _ => parseDigits 0 s
  end.

End strconv.

(** [keysToVal] (part_000, lines 904-912; lxc.go, lines 730-738). *)
Definition keysToVal (line : string) : string * Z * error :=
  match strings.Split line " " with
  | [key; tok] =>
      let '(val, err) := strconv.ParseUint tok in (key, val, err)
  | _ => (EmptyString, 0, Some ErrNotKV)
  end.

(** [int64] addition. *)
Definition wrap64 (x : Z) : Z := (x + 2 ^ 63) mod 2 ^ 64 - 2 ^ 63.

(** The readings of [time.Now()] during one call of [Stats], in program
    order: the one of [Stats] itself and the one inside each call of
    [Percent]. *)
Record clock : Type :=
  { now_stats : Z; now_system : Z; now_user : Z; now_total : Z }.

(** The schedule of a monitor: what its [select] statement picks, round
    after round.  [TimerC findErr sigErr] is the timer case with the
    errors of [os.FindProcess] and of [process.Signal(syscall.Signal(0))];
    [DoneC] is the case [<-h.doneCh], ready once another goroutine has
    closed the channel. *)
Inductive wakeup : Type :=
| TimerC (findErr sigErr : error)
| DoneC.

Section Handle.

Context {C CS F : Type} `{Runtime C} `{CpuAccumulator CS F}.

Definition set_container (c : C) (h : lxcDriverHandle C CS)
    : lxcDriverHandle C CS :=
  {| container := c; initPid := initPid h; lxcPath := lxcPath h;
     killTimeout := killTimeout h; maxKillTimeout := maxKillTimeout h;
     totalCpuStats := totalCpuStats h; userCpuStats := userCpuStats h;
     systemCpuStats := systemCpuStats h;
     waitCh := waitCh h; doneCh := doneCh h |}.

Definition set_waitCh (ch : chan WaitResult) (h : lxcDriverHandle C CS)
    : lxcDriverHandle C CS :=
  {| container := container h; initPid := initPid h; lxcPath := lxcPath h;
     killTimeout := killTimeout h; maxKillTimeout := maxKillTimeout h;
     totalCpuStats := totalCpuStats h; userCpuStats := userCpuStats h;
     systemCpuStats := systemCpuStats h;
     waitCh := ch; doneCh := doneCh h |}.

Definition set_doneCh (ch : chan bool) (h : lxcDriverHandle C CS)
    : lxcDriverHandle C CS :=
  {| container := container h; initPid := initPid h; lxcPath := lxcPath h;
     killTimeout := killTimeout h; maxKillTimeout := maxKillTimeout h;
     totalCpuStats := totalCpuStats h; userCpuStats := userCpuStats h;
     systemCpuStats := systemCpuStats h;
     waitCh := waitCh h; doneCh := ch |}.

Definition set_cpuStats (total system : CS) (h : lxcDriverHandle C CS)
    : lxcDriverHandle C CS :=
  {| container := container h; initPid := initPid h; lxcPath := lxcPath h;
     killTimeout := killTimeout h; maxKillTimeout := maxKillTimeout h;
     totalCpuStats := total; userCpuStats := userCpuStats h;
     systemCpuStats := system;
     waitCh := waitCh h; doneCh := doneCh h |}.

(** The handle literal that [startContainer], [executeContainer] and
    [Open] build: fresh accumulators and fresh channels of capacity 1. *)
Definition newHandle (c : C) (pid : Z) (path : string)
    (timeout maxTimeout : Z) : lxcDriverHandle C CS :=
  {| container := c; initPid := pid; lxcPath := path;
     killTimeout := timeout; maxKillTimeout := maxTimeout;
     totalCpuStats := NewCpuStats; userCpuStats := NewCpuStats;
     systemCpuStats := NewCpuStats;
     waitCh := make 1; doneCh := make 1 |}.

(** *** Calls on [h.container] and on the channels *)

Definition callRunning : M (lxcDriverHandle C CS) bool :=
  fun h => (Return (Running (container h)), h, [CallRunning]).

Definition callShutdown : M (lxcDriverHandle C CS) error :=
  fun h =>
    let '(err, c) := Shutdown (killTimeout h) (container h) in
    (Return err, set_container c h, [CallShutdown (killTimeout h)]).

Definition callStop : M (lxcDriverHandle C CS) error :=
  fun h =>
    let '(err, c) := Stop (container h) in
    (Return err, set_container c h, [CallStop]).

Definition callWait : M (lxcDriverHandle C CS) bool :=
  fun h =>
    let '(stopped, c) := Wait (container h) in
    (Return stopped, set_container c h, [CallWait]).

Definition callDestroy : M (lxcDriverHandle C CS) error :=
  fun h =>
    let '(err, c) := Destroy (container h) in
    (Return err, set_container c h, [CallDestroy]).

Definition closeDoneCh : M (lxcDriverHandle C CS) unit :=
  fun h =>
    match chan_close (doneCh h) with
    | Return ch => (Return tt, set_doneCh ch h, [CloseDoneCh])
    | Panic msg => (Panic msg, h, [])
    | Block => (Block, h, [])
    end.

Definition sendWaitCh (r : WaitResult) : M (lxcDriverHandle C CS) unit :=
  fun h =>
    match chan_send (waitCh h) r with
    | Return ch => (Return tt, set_waitCh ch h, [SendWaitCh r])
    | Panic msg => (Panic msg, h, [])
    | Block => (Block, h, [])
    end.

Definition closeWaitCh : M (lxcDriverHandle C CS) unit :=
  fun h =>
    match chan_close (waitCh h) with
    | Return ch => (Return tt, set_waitCh ch h, [CloseWaitCh])
    | Panic msg => (Panic msg, h, [])
    | Block => (Block, h, [])
    end.

(** *** The select loop of [run], the same in both versions

    The loop leaves through a [return] after one send on [waitCh]; a
    schedule that ends while the process is alive leaves the goroutine
    parked in [select]. *)
Fixpoint monitor (sched : list wakeup) : M (lxcDriverHandle C CS) unit :=
  match sched with
  | [] => fun h => (Block, h, [])
  | TimerC (Some err) _ :: _ =>
      sendWaitCh {| ExitCode := 0; Signal := 0; Err := Some err |}
  | TimerC None (Some _) :: _ => sendWaitCh emptyWaitResult
  | TimerC None None :: rest => monitor rest
  | DoneC :: _ => sendWaitCh emptyWaitResult
  end.

(** *** [Stats] (part_000, lines 786-872; lxc.go, lines 619-705) *)

(** One round of the loop over the lines of [memory.stat]. *)
Definition memDataStep (memData : gmap string Z) (rawMemStat : string)
    : gmap string Z :=
  match keysToVal rawMemStat with
  | (_, _, Some _) => memData
  | (key, val, None) =>
      match memData !! key with
      | Some _ => <[key := val]> memData
      | None => memData
      end
  end.

(** One round of the three loops over a single-value cgroup file: the
    field is assigned when the line parses, the line is skipped
    otherwise. *)
Definition uintStep (field : Z) (raw : string) : Z :=
  match strconv.ParseUint raw with
  | (val, None) => val
  | (_, Some _) => field
  end.

Definition Stats (clk : clock) (h : lxcDriverHandle C CS)
    : (option (cstructs.TaskResourceUsage F) * error)
      * lxcDriverHandle C CS :=
  match CPUStats (container h) with
  | None => ((None, None), h)
  | Some cpuStats =>
      match CPUTime (container h) with
      | None => ((None, None), h)
      | Some total =>
          let t := now_stats clk in
          let system := default 0 (cpuStats !! "system") in
          let user := default 0 (cpuStats !! "user") in
          let '(systemMode, systemAcc) :=
            Percent (systemCpuStats h) (now_system clk) (float64 system) in
          let '(userMode, systemAcc') :=
            Percent systemAcc (now_user clk) (float64 user) in
          let '(percent, totalAcc) :=
            Percent (totalCpuStats h) (now_total clk) (float64 total) in
          let cs :=
            {| cstructs.SystemMode := systemMode;
               cstructs.UserMode := userMode;
               cstructs.Percent := percent;
               cstructs.TotalTicks := float64 (wrap64 (user + system));
               cstructs.Measured := LXCMeasuredCpuStats |} in
          let memData0 : gmap string Z :=
            <["rss" := 0]> (<["cache" := 0]> (<["swap" := 0]> ∅)) in
          let memData :=
            foldl memDataStep memData0
              (CgroupItem (container h) "memory.stat") in
          let ms :=
            {| cstructs.RSS := default 0 (memData !! "rss");
               cstructs.Cache := default 0 (memData !! "cache");
               cstructs.Swap := default 0 (memData !! "swap");
               cstructs.MaxUsage :=
                 foldl uintStep 0
                   (CgroupItem (container h) "memory.max_usage_in_bytes");
               cstructs.KernelUsage :=
                 foldl uintStep 0
                   (CgroupItem (container h) "memory.kmem.usage_in_bytes");
               cstructs.KernelMaxUsage :=
                 foldl uintStep 0
                   (CgroupItem (container h)
                      "memory.kmem.max_usage_in_bytes");
               cstructs.MemMeasured := LXCMeasuredMemStats |} in
          ((Some {| cstructs.ResourceCpuStats := cs;
                    cstructs.ResourceMemoryStats := ms;
                    cstructs.Timestamp := t |}, None),
           set_cpuStats totalAcc systemAcc' h)
      end
  end.

End Handle.

(** ** Naming, configuration and identity

    Naming, fingerprinting, the configuration items and limits set on a
    container, [Validate], and the handle methods [ID], [Open] and
    [Update].  [Start] below calls [setCommonContainerConfig] and
    [setLimitsOnContainer]. *)

(** [LxcDriver.getContainerName] (part_000, lines 292-294; lxc.go, lines
    251-253): [fmt.Sprintf("%s-%s", task.Name, allocID)]. *)
Definition getContainerName (taskName allocID : string) : string :=
  taskName +:+ "-" +:+ allocID.

(** [strconv.Itoa]: decimal digits, a minus sign for a negative number. *)
Definition Itoa (i : Z) : string :=
  DecimalString.NilZero.string_of_int (Z.to_int i).

(** What [Fingerprint] reads: [cfg.ReadBoolDefault(lxcConfigOption,
    true)], [cfg.DevMode], [lxc.Version()], and the driver's own
    [config.ReadBoolDefault(lxcVolumesConfigOption,
    lxcVolumesConfigDefault)]. *)
Record FingerprintEnv : Type :=
  { fpEnabled : bool;
    fpDevMode : bool;
    fpVersion : string;
    fpVolumesEnabled : bool }.

(** [filepath.IsAbs] on Linux (the build tag of both files). *)
Definition IsAbs (path : string) : bool := strings.HasPrefix path "/".

(** The directories of [ctx.TaskDir] that the driver mounts. *)
Record TaskDir : Type :=
  { Dir : string;
    LocalDir : string;
    SharedAllocDir : string;
    SecretsDir : string }.

(** The configuration methods of [*lxc.Container]; each returns whether
    it succeeded and the container after the call.  [SetMemoryLimit]
    takes the number of megabytes: the driver passes
    [lxc.ByteSize(MemoryMB) * lxc.MB]. *)
Class ContainerConfig (C : Type) : Type :=
  { SetConfigItem : string -> string -> C -> bool * C;
    SetMemoryLimit : Z -> C -> bool * C;
    SetCgroupItem : string -> string -> C -> bool * C }.

(** A call that [setCommonContainerConfig] or [setLimitsOnContainer]
    makes on the container. *)
Inductive configCall : Type :=
| ConfigItem (key value : string)
| MemoryLimit (megabytes : Z)
| CgroupItemSet (key value : string).

(** The mount entry [fmt.Sprintf("%s %s none rw,bind,create=dir", src,
    dst)]. *)
Definition mountEntry (src dst : string) : string :=
  src +:+ " " +:+ dst +:+ " none rw,bind,create=dir".

(** The three mounts that every container gets. *)
Definition standardMounts (td : TaskDir) : list string :=
  [mountEntry (LocalDir td) "local";
   mountEntry (SharedAllocDir td) "alloc";
   mountEntry (SecretsDir td) "secrets"].

Section ContainerSetup.

Context {C : Type} `{ContainerConfig C}.

(** The loop [for _, v := range values { if err :=
    c.SetConfigItem(key, v); err != nil { return mkErr(v) } }]: the
    error of the first call that fails, the container, the calls made. *)
Fixpoint setItems (key : string) (mkErr : string -> ErrorValue)
    (values : list string) (c : C)
    : error * C * list configCall :=
  match values with
  | [] => (None, c, [])
  | v :: rest =>
      let '(ok, c') := SetConfigItem key v c in
      if ok then
        let '(err, c'', calls) := setItems key mkErr rest c' in
        (err, c'', ConfigItem key v :: calls)
      else (Some (mkErr v), c', [ConfigItem key v])
  end.

(** The loop over [commonConfig.Volumes] of part_000 (lines 604-618):
    it extends [mounts]; an absolute host path is refused when
    [volumesEnabled] is false; a relative one is joined to the task
    directory with [join] ([filepath.Join]).  The index expressions
    [paths[0]] and [paths[1]] panic out of range. *)
Fixpoint volumeMounts (volumesEnabled : bool)
    (join : string -> string -> string) (td : TaskDir)
    (volumes : list string) (mounts : list string)
    : go (error * list string) :=
  match volumes with
  | [] => Return (None, mounts)
  | volDesc :: rest =>
      match strings.Split volDesc ":" with
      | [] => Panic "index out of range"
      | p0 :: tl =>
          if IsAbs p0 && negb volumesEnabled
          then Return (Some ErrAbsoluteVolume, mounts)
          else
            let p0' := if IsAbs p0 then p0 else join (Dir td) p0 in
            match tl with
            | [] => Panic "index out of range"
            | p1 :: _ =>
                volumeMounts volumesEnabled join td rest
                  (mounts ++ [mountEntry p0' p1])
            end
      end
  end.

End ContainerSetup.

Module Limits.
Section Limits.

Context {C : Type} `{ContainerConfig C}.

(** [setLimitsOnContainer] (part_000, lines 636-645; lxc.go, lines
    483-492); the arguments are [task.Resources.MemoryMB] and
    [task.Resources.CPU]. *)
Definition setLimitsOnContainer (memoryMB cpu : Z) (c : C)
    : error * C * list configCall :=
  let '(ok, c') := SetMemoryLimit memoryMB c in
  if negb ok then (Some ErrMemoryLimit, c', [MemoryLimit memoryMB])
  else
    let '(ok', c'') := SetCgroupItem "cpu.shares" (Itoa cpu) c' in
    if negb ok'
    then (Some ErrCpuShares, c'',
          [MemoryLimit memoryMB; CgroupItemSet "cpu.shares" (Itoa cpu)])
    else (None, c'',
          [MemoryLimit memoryMB; CgroupItemSet "cpu.shares" (Itoa cpu)]).

End Limits.
End Limits.

(** [lxcPID], the handle identity that [ID] serialises. *)
Record lxcPID : Type :=
  { ContainerName : string;
    InitPid : Z;
    LxcPath : string;
    KillTimeout : Z }.

(** The errors of [Open]. *)
Inductive OpenError : Type :=
| ErrParseHandle (handleID : string)
    (* "Failed to parse handle '%s': %v" *)
| ErrContainerNotFound (name : string)
    (* "container %v not found" *).

Section Identity.

(** [json.Marshal] and [json.Unmarshal] on [lxcPID] ([None] is an
    error), [lxc.Containers], [Container.InitPid], the driver's
    [config.MaxKillTimeout] and [GetKillTimeout] (client/driver, not
    among the sources) are inputs. *)
Context {C CS F : Type} `{Runtime C} `{CpuAccumulator CS F}.
Variable Marshal : lxcPID -> option string.
Variable Unmarshal : string -> option lxcPID.
Variable Containers : string -> list C.
Variable InitPidOf : C -> Z.
Variable MaxKillTimeout : Z.
Variable GetKillTimeout : Z -> Z -> Z.

(** [lxcDriverHandle.ID] (part_000, lines 716-728; lxc.go, lines
    563-575): a marshalling error is logged and the empty string
    returned. *)
Definition ID (h : lxcDriverHandle C CS) : string :=
  let pid :=
    {| ContainerName := Name (container h);
       InitPid := initPid h;
       LxcPath := lxcPath h;
       KillTimeout := killTimeout h |} in
  match Marshal pid with
  | Some data => data
  | None => EmptyString
  end.

(** [LxcDriver.Open] (part_000, lines 653-688; lxc.go, lines 500-535);
    the new handle is the one that the monitor is started on. *)
Definition Open (handleID : string)
    : option (lxcDriverHandle C CS) * option OpenError :=
  match Unmarshal handleID with
  | None => (None, Some (ErrParseHandle handleID))
  | Some pid =>
      match
        List.find (fun c => String.eqb (Name c) (ContainerName pid))
          (Containers (LxcPath pid))
      with
      | None => (None, Some (ErrContainerNotFound (ContainerName pid)))
      | Some c =>
          (Some (newHandle c (InitPidOf c) (LxcPath pid) (KillTimeout pid)
                   MaxKillTimeout),
           None)
      end
  end.

(** [lxcDriverHandle.Update] (part_000, lines 734-737; lxc.go, lines
    581-584); the argument is [task.KillTimeout]. *)
Definition Update (taskKillTimeout : Z) (h : lxcDriverHandle C CS)
    : lxcDriverHandle C CS :=
  {| container := container h; initPid := initPid h; lxcPath := lxcPath h;
     killTimeout := GetKillTimeout taskKillTimeout (killTimeout h);
     maxKillTimeout := maxKillTimeout h;
     totalCpuStats := totalCpuStats h; userCpuStats := userCpuStats h;
     systemCpuStats := systemCpuStats h;
     waitCh := waitCh h; doneCh := doneCh h |}.

End Identity.

(** The value under ["use_execute"] in the task configuration. *)
Inductive useExecuteValue : Type :=
| UseExecuteBool (b : bool)
| UseExecuteOther.

(** The errors of [Validate]. *)
Inductive ValidateError : Type :=
| ErrUseExecute
    (* "invalid value for use_execute config: %v" *)
| ErrSchema
    (* the error of fields.FieldData.Validate *)
| ErrVolumes (e : ErrorValue)
    (* the error of validateVolumesConfig *).

(** What [Validate] of part_000 reads from the configuration map
    through the package [fields] (not among the sources): the entry
    ["use_execute"], whether each of the two schemas validates, and what
    [GetOk("volumes")] gives ([None] when it reports no value). *)
Record ValidateEnv : Type :=
  { useExecuteEntry : option useExecuteValue;
    fdValidates : bool;
    execFdValidates : bool;
    fdVolumes : option (list iface);
    execFdVolumes : option (list iface) }.

Module Part000Ext.

(** [LxcDriver.Fingerprint] (part_000, lines 266-286) on the map
    [node.Attributes]; the error is always nil. *)
Definition Fingerprint (env : FingerprintEnv)
    (attributes : gmap string string) : bool * gmap string string :=
  if negb (fpEnabled env) && negb (fpDevMode env) then (false, attributes)
  else if String.eqb (fpVersion env) "" then (false, attributes)
  else
    let a1 := <["driver.lxc.version" := fpVersion env]> attributes in
    let a2 := <["driver.lxc" := "1"]> a1 in
    let a3 :=
      if fpVolumesEnabled env
      then <["driver.lxc.volumes.enabled" := "1"]> a2
      else a2 in
    (true, <["driver.lxc.execute" := "true"]> a3).

(** [LxcDriver.Validate] (part_000, lines 110-235). *)
Definition Validate (env : ValidateEnv) : go (option ValidateError) :=
  let continue (useExecute : bool) : go (option ValidateError) :=
    let schemaOk :=
      if useExecute then execFdValidates env else fdValidates env in
    if negb schemaOk then Return (Some ErrSchema)
    else
      match (if useExecute then execFdVolumes env else fdVolumes env) with
      | Some volumes =>
          go_bind (validateVolumesConfig volumes) (fun err =>
            match err with
            | Some e => Return (Some (ErrVolumes e))
            | None => Return None
            end)
      | None => Return None
      end in
  match useExecuteEntry env with
  | None => continue false
  | Some (UseExecuteBool b) => continue b
  | Some UseExecuteOther => Return (Some ErrUseExecute)
  end.

Section Config.

Context {C : Type} `{ContainerConfig C}.

(** [LxcDriver.setCommonContainerConfig] (part_000, lines 584-634);
    [envList] is [ctx.TaskEnv.List()]. *)
Definition setCommonContainerConfig (volumesEnabled : bool)
    (join : string -> string -> string) (td : TaskDir)
    (envList : list string) (volumes : list string) (c : C)
    : go (error) * C * list configCall :=
  let '(ok, c0) := SetConfigItem "lxc.network.type" "none" c in
  let net := ConfigItem "lxc.network.type" "none" in
  if negb ok then (Return (Some ErrNetworkType), c0, [net])
  else
    let mounts := standardMounts td in
    match setItems "lxc.mount.entry" ErrBindMount mounts c0 with
    | (Some e, c1, t1) => (Return (Some e), c1, net :: t1)
    | (None, c1, t1) =>
        match volumeMounts volumesEnabled join td volumes mounts with
        | Panic msg => (Panic msg, c1, net :: t1)
        | Block => (Block, c1, net :: t1)
        | Return (Some e, _) => (Return (Some e), c1, net :: t1)
        | Return (None, mounts') =>
            match setItems "lxc.mount.entry" ErrBindMount mounts' c1 with
            | (Some e, c2, t2) => (Return (Some e), c2, net :: t1 ++ t2)
            | (None, c2, t2) =>
                match setItems "lxc.environment" ErrEnvironment envList c2 with
                | (Some e, c3, t3) =>
                    (Return (Some e), c3, net :: t1 ++ t2 ++ t3)
                | (None, c3, t3) =>
                    (Return None, c3, net :: t1 ++ t2 ++ t3)
                end
            end
        end
    end.

End Config.

End Part000Ext.

Module LxcGoExt.

(** [LxcDriver.Fingerprint] (lxc.go, lines 232-245). *)
Definition Fingerprint (env : FingerprintEnv)
    (attributes : gmap string string) : bool * gmap string string :=
  if negb (fpEnabled env) && negb (fpDevMode env) then (false, attributes)
  else if String.eqb (fpVersion env) "" then (false, attributes)
  else
    (true,
     <["driver.lxc.execute" := "true"]>
       (<["driver.lxc" := "1"]>
          (<["driver.lxc.version" := fpVersion env]> attributes))).

Section Config.

Context {C : Type} `{ContainerConfig C}.

(** [setCommonContainerConfig] (lxc.go, lines 462-481). *)
Definition setCommonContainerConfig (td : TaskDir) (c : C)
    : error * C * list configCall :=
  let '(ok, c0) := SetConfigItem "lxc.network.type" "none" c in
  let net := ConfigItem "lxc.network.type" "none" in
  if negb ok then (Some ErrNetworkType, c0, [net])
  else
    let '(err, c1, t1) :=
      setItems "lxc.mount.entry" ErrBindMount (standardMounts td) c0 in
    (err, c1, net :: t1).

End Config.

End LxcGoExt.

(** ** Provisioning: [Start] *)

Record LxcCommonDriverConfig : Type :=
  { LogLevel : string;
    Verbosity : string;
    UseExecute : bool;
    Volumes : list string }.

Record LxcExecuteDriverConfig : Type :=
  { BaseRootFsPath : string;
    BaseConfigPath : string;
    CmdArgs : list string }.

(** The outcome of [exec.Cmd.Run]: success, an [*exec.ExitError] with
    its [Stderr], or an error of another type (the command could not be
    started). *)
Inductive cmd_result : Type :=
| CmdOk
| CmdExitError (stderr : string)
| CmdOtherError.

(** The world around one call of [Start]: what the decoders, the file
    system, the external commands and the container runtime answer.
    [volumesEnabled] is [d.config.ReadBoolDefault(lxcVolumesConfigOption,
    lxcVolumesConfigDefault)], [taskDir] is [ctx.TaskDir], [taskEnv] is
    [ctx.TaskEnv.List()], [taskMemoryMB] and [taskCPU] are
    [task.Resources.MemoryMB] and [task.Resources.CPU].  [configAnswer]
    says, for the configuration calls made on the container so far,
    whether the last of them succeeded.  [theContainer] is the container
    as the new handle will see it. *)
Record Host (C : Type) : Type :=
  { decodeCommon : option LxcCommonDriverConfig;
    decodeExecute : option LxcExecuteDriverConfig;
    decodeStartOk : bool;
    lxcPathOf : string;
    containerName : string;
    newContainerOk : bool;
    filepathJoin : list string -> string;
    mkdirAll : string -> bool;
    runCommand : string -> list string -> cmd_result;
    osCreate : string -> bool;
    osChmod : string -> bool;
    osRemove : string -> bool;
    parseFiles : string -> bool;
    tmplExecute : string -> string -> bool;
    loadConfigFile : string -> bool;
    volumesEnabled : bool;
    taskDir : TaskDir;
    taskEnv : list string;
    taskMemoryMB : Z;
    taskCPU : Z;
    configAnswer : list configCall -> bool;
    parseAndReplace : list string -> list string;
    startExecute : list string -> bool;
    createOk : bool;
    startOk : bool;
    stopErr : error;
    destroyErr : error;
    theContainer : C;
    theInitPid : Z;
    theKillTimeout : Z;
    theMaxKillTimeout : Z }.
Arguments decodeCommon {C} h.
Arguments decodeExecute {C} h.
Arguments decodeStartOk {C} h.
Arguments lxcPathOf {C} h.
Arguments containerName {C} h.
Arguments newContainerOk {C} h.
Arguments filepathJoin {C} h.
Arguments mkdirAll {C} h.
Arguments runCommand {C} h.
Arguments osCreate {C} h.
Arguments osChmod {C} h.
Arguments osRemove {C} h.
Arguments parseFiles {C} h.
Arguments tmplExecute {C} h.
Arguments loadConfigFile {C} h.
Arguments volumesEnabled {C} h.
Arguments taskDir {C} h.
Arguments taskEnv {C} h.
Arguments taskMemoryMB {C} h.
Arguments taskCPU {C} h.
Arguments configAnswer {C} h.
Arguments parseAndReplace {C} h.
Arguments startExecute {C} h.
Arguments createOk {C} h.
Arguments startOk {C} h.
Arguments stopErr {C} h.
Arguments destroyErr {C} h.
Arguments theContainer {C} h.
Arguments theInitPid {C} h.
Arguments theKillTimeout {C} h.
Arguments theMaxKillTimeout {C} h.

(** Provisioning code has no receiver state of its own. *)
Abbreviation P := (M unit).

Definition emit (e : event) : P unit := fun u => (Return tt, u, [e]).

Definition lift {A} (g : go A) : P A := fun u => (g, u, []).

(** A rollback closure [func() error]. *)
Abbreviation cleanupFn := (P error).

Definition noCleanup : cleanupFn := ret None.

Section Provisioning.

Context {C CS F : Type} `{CpuAccumulator CS F} (host : Host C).

(** [exec.Command(name, args...).Run()] *)
Definition execRun (name : string) (args : list string) : P cmd_result :=
  emit (ExecCommand name args) ;;; ret (runCommand host name args).

(** [c.Stop] and [c.Destroy] as rollback closures. *)
Definition cStop : cleanupFn := emit CallStop ;;; ret (stopErr host).
Definition cDestroy : cleanupFn := emit CallDestroy ;;; ret (destroyErr host).

(** The container of this [Start] as its configuration methods see it:
    its state is the list of the configuration calls made on it so far,
    and a call succeeds when the host says so for the calls up to and
    including it. *)
Definition configLog : Type := list configCall.

Definition configure (call : configCall) (log : configLog)
    : bool * configLog :=
  (configAnswer host (log ++ [call]), log ++ [call]).

Definition hostConfig : ContainerConfig configLog :=
  {| SetConfigItem := fun key value => configure (ConfigItem key value);
     SetMemoryLimit := fun megabytes => configure (MemoryLimit megabytes);
     SetCgroupItem := fun key value => configure (CgroupItemSet key value) |}.

(** [setLimitsOnContainer(c, task)] on that container. *)
Definition callSetLimits (log : configLog) : P error :=
  emit CallSetLimits ;;;
  ret (@Limits.setLimitsOnContainer configLog hostConfig
         (taskMemoryMB host) (taskCPU host) log).1.1.

(** The verbosity switch of [Start]: [true] when the value is one of
    "verbose", "" and "quiet". *)
Definition verbosityOk (v : string) : bool :=
  String.eqb v "verbose" || String.eqb v "" || String.eqb v "quiet".

(** The log-level switch of [Start]. *)
Definition logLevelOk (l : string) : bool :=
  String.eqb l "trace" || String.eqb l "debug" || String.eqb l "info"
  || String.eqb l "warn" || String.eqb l "" || String.eqb l "error".

(** The handle literal and [go h.run()] at the end of [startContainer]
    and [executeContainer]. *)
Definition spawnHandle : P (lxcDriverHandle C CS) :=
  emit GoRun ;;;
  ret (newHandle (theContainer host) (theInitPid host) (lxcPathOf host)
         (theKillTimeout host) (theMaxKillTimeout host)).

End Provisioning.

(** ** The driver of [src/unnamed/part_000] *)
Module Part000.
Section Methods.

Context {C CS : Type} `{Runtime C}.

(** [lxcDriverHandle.Kill] (lines 743-763). *)
Definition Kill : M (lxcDriverHandle C CS) error :=
  defer closeDoneCh
    (running <- callRunning ;;
     if negb running then ret None
     else
       err <- callShutdown ;;
       match err with
       | Some _ =>
           err' <- callStop ;;
           match err' with
           | Some _ => ret (Some ErrStop)
           | None => ret None
           end
       | None => ret None
       end).

(** [lxcDriverHandle.cleanupContainer] (lines 765-780). *)
Definition cleanupContainer : M (lxcDriverHandle C CS) error :=
  _stopped <- callWait ;;
  err <- callDestroy ;;
  match err with
  | Some _ => ret (Some ErrDestroy)
  | None => ret None
  end.

(** [lxcDriverHandle.run] (lines 874-902): the deferred function calls
    [cleanupContainer], drops its error, and closes [waitCh]. *)
Definition run (sched : list wakeup) : M (lxcDriverHandle C CS) unit :=
  defer (_err <- cleanupContainer ;; closeWaitCh) (monitor sched).

End Methods.
Section Start.

Context {C CS F : Type} `{CpuAccumulator CS F} (host : Host C).

Abbreviation response :=
  (option (lxcDriverHandle C CS) * error * cleanupFn)%type.

(** The closure [removeLVCleanup] of [executeContainer]. *)
Definition removeLVCleanup (vgName : string) : cleanupFn :=
  let args := ["-f"; vgName +:+ "/" +:+ containerName host] in
  r <- execRun host "lvremove" args ;;
  match r with
  | CmdOk => ret None
  | CmdExitError stderr => ret (Some (ErrLvRemove ("lvremove" :: args) stderr))
  | CmdOtherError =>
      lift (Panic "interface conversion: error is not *exec.ExitError")
  end.

(** The closure [removeConfigCleanup]. *)
Definition removeConfigCleanup (vgName newConfigFilePath : string)
    : cleanupFn :=
  err <- removeLVCleanup vgName ;;
  match err with
  | Some e => ret (Some e)
  | None =>
      emit (OsRemove newConfigFilePath) ;;;
      ret (if osRemove host newConfigFilePath then None
           else Some (ErrRemoveFile newConfigFilePath))
  end.

(** The closure [stopAndRemoveConfigCleanup]. *)
Definition stopAndRemoveConfigCleanup (vgName newConfigFilePath : string)
    : cleanupFn :=
  _err <- removeConfigCleanup vgName newConfigFilePath ;;
  err <- cStop host ;;
  match err with
  | Some e => ret (Some e)
  | None => ret None
  end.

(** [d.setCommonContainerConfig(ctx, c, commonConfig)] on the container
    of this [Start]: the error and the container after the call.  A
    panic of the callee ends [Start] where it stands. *)
Definition callSetCommonContainerConfig
    (commonConfig : LxcCommonDriverConfig) : P (error * configLog) :=
  emit CallSetCommonContainerConfig ;;;
  let '(r, log, _) :=
    @Part000Ext.setCommonContainerConfig configLog (hostConfig host)
      (volumesEnabled host) (fun a b => filepathJoin host [a; b])
      (taskDir host) (taskEnv host) (Volumes commonConfig) [] in
  err <- lift r ;;
  ret (err, log).

(** [LxcDriver.executeContainer] (lines 427-554), from the creation of
    the configuration file on: [vgName] has been parsed.  The deferred
    [newConfigFile.Close()] has no part in what follows and is left
    out. *)
Definition renderAndExecute (commonConfig : LxcCommonDriverConfig)
    (executeConfig : LxcExecuteDriverConfig) (vgName : string)
    : P response :=
  let name := containerName host in
  let storageName := "lvm:/dev/mapper/" +:+ tr vgName +:+ "-" +:+ tr name in
  let newConfigFilePath := filepathJoin host [lxcPathOf host; name; "config"] in
  let removeLV := removeLVCleanup vgName in
  let removeConfig := removeConfigCleanup vgName newConfigFilePath in
  emit (OsCreate newConfigFilePath) ;;;
  if negb (osCreate host newConfigFilePath)
  then ret (None, Some (ErrCreateConfig newConfigFilePath), removeLV)
  else
  emit (OsChmod newConfigFilePath) ;;;
  if negb (osChmod host newConfigFilePath)
  then ret (None, Some ErrChmod, removeConfig)
  else
  emit (TemplateParseFiles (BaseConfigPath executeConfig)) ;;;
  if negb (parseFiles host (BaseConfigPath executeConfig))
  then ret (None, Some (ErrParseTemplate (BaseConfigPath executeConfig)),
            removeConfig)
  else
  emit (TemplateExecute storageName name) ;;;
  if negb (tmplExecute host storageName name)
  then ret (None, Some ErrExecTemplate, removeConfig)
  else
  emit (CallLoadConfigFile newConfigFilePath) ;;;
  if negb (loadConfigFile host newConfigFilePath)
  then ret (None, Some ErrLoadConfig, removeConfig)
  else
  configured <- callSetCommonContainerConfig commonConfig ;;
  match configured with
  | (Some e, _) => ret (None, Some e, removeConfig)
  | (None, log) =>
      let parsedArgs := parseAndReplace host (CmdArgs executeConfig) in
      emit (CallStartExecute parsedArgs) ;;;
      if negb (startExecute host parsedArgs)
      then ret (None, Some (ErrStartExecute parsedArgs), removeConfig)
      else
      err <- callSetLimits host log ;;
      match err with
      | Some e =>
          ret (None, Some e,
               stopAndRemoveConfigCleanup vgName newConfigFilePath)
      | None =>
          h <- spawnHandle host ;;
          ret (Some h, None, noCleanup)
      end
  end.

(** [LxcDriver.executeContainer] (lines 427-554). *)
Definition executeContainer (commonConfig : LxcCommonDriverConfig)
    : P response :=
  match decodeExecute host with
  | None => ret (None, Some ErrDecode, noCleanup)
  | Some executeConfig =>
      let name := containerName host in
      let containerPath := filepathJoin host [lxcPathOf host; name] in
      let containerRootfsPath := filepathJoin host [containerPath; "rootfs"] in
      emit (OsMkdirAll containerRootfsPath) ;;;
      if negb (mkdirAll host containerRootfsPath)
      then ret (None, Some (ErrMkdir containerPath), noCleanup)
      else
      tag <- lift (strings.slice_to (BaseRootFsPath executeConfig) 4) ;;
      if negb (String.eqb tag "lvm:")
      then ret (None, Some ErrOnlyLVM, noCleanup)
      else
      baseLvName <-
        lift (strings.slice_from (BaseRootFsPath executeConfig) 4) ;;
      let args := ["-kn"; "-n"; name; "-s"; baseLvName] in
      r <- execRun host "lvcreate" args ;;
      match r with
      | CmdExitError stderr =>
          ret (None, Some (ErrLvCreate ("lvcreate" :: args) stderr), noCleanup)
      | CmdOtherError =>
          lift (Panic "interface conversion: error is not *exec.ExitError")
      | CmdOk =>
          parsed <- lift (extractVgName baseLvName) ;;
          match parsed with
          | (_, Some _) => ret (None, Some (ErrParseVg baseLvName), noCleanup)
          | (vgName, None) =>
              renderAndExecute commonConfig executeConfig vgName
          end
      end
  end.

(** The closure [stopAndDestroyCleanup] of [startContainer]. *)
Definition stopAndDestroyCleanup : cleanupFn :=
  err <- cStop host ;;
  match err with
  | Some e => ret (Some e)
  | None => cDestroy host
  end.

(** [LxcDriver.startContainer] (lines 366-425). *)
Definition startContainer (commonConfig : LxcCommonDriverConfig)
    : P response :=
  if negb (decodeStartOk host) then ret (None, Some ErrDecode, noCleanup)
  else
  emit CallCreate ;;;
  if negb (createOk host) then ret (None, Some ErrCreate, noCleanup)
  else
  configured <- callSetCommonContainerConfig commonConfig ;;
  match configured with
  | (Some e, _) => ret (None, Some e, cDestroy host)
  | (None, log) =>
      emit CallStart ;;;
      if negb (startOk host) then ret (None, Some ErrStart, cDestroy host)
      else
      err <- callSetLimits host log ;;
      match err with
      | Some e => ret (None, Some e, stopAndDestroyCleanup)
      | None =>
          h <- spawnHandle host ;;
          ret (Some h, None, noCleanup)
      end
  end.

(** [LxcDriver.startWithCleanup] (lines 307-364). *)
Definition startWithCleanup : P response :=
  match decodeCommon host with
  | None => ret (None, Some ErrDecode, noCleanup)
  | Some commonConfig =>
      if negb (newContainerOk host)
      then ret (None, Some ErrInitContainer, noCleanup)
      else if negb (verbosityOk (Verbosity commonConfig))
      then ret (None, Some ErrVerbosity, noCleanup)
      else if negb (logLevelOk (LogLevel commonConfig))
      then ret (None, Some ErrLogLevel, noCleanup)
      else if UseExecute commonConfig then executeContainer commonConfig
      else startContainer commonConfig
  end.

(** [LxcDriver.Start] (lines 297-305): on an error the rollback closure
    runs; its own error is logged and dropped. *)
Definition Start : P (option (lxcDriverHandle C CS) * error) :=
  r <- startWithCleanup ;;
  let '(sresp, err, errCleanup) := r in
  match err with
  | Some _ => _cleanupErr <- errCleanup ;; ret (sresp, err)
  | None => ret (sresp, err)
  end.

End Start.
End Part000.

(** ** The driver of [src/client/driver/lxc.go] *)
Module LxcGo.
Section Methods.

Context {C CS : Type} `{Runtime C}.

(** The first half of [Kill]: [Some err] stands for [return err] from
    inside the nested conditionals. *)
Definition stopIfRunning : M (lxcDriverHandle C CS) error :=
  running <- callRunning ;;
  if running then
    err <- callShutdown ;;
    match err with
    | Some _ =>
        err' <- callStop ;;
        match err' with
        | Some _ => ret (Some ErrStop)
        | None => ret None
        end
    | None => ret None
    end
  else ret None.

(** [lxcDriverHandle.Kill] (lines 590-613). *)
Definition Kill : M (lxcDriverHandle C CS) error :=
  early <- stopIfRunning ;;
  match early with
  | Some err => ret (Some err)
  | None =>
      err <- callDestroy ;;
      match err with
      | Some _ => ret (Some ErrDestroy)
      | None => closeDoneCh ;;; ret None
      end
  end.

(** [lxcDriverHandle.run] (lines 707-728): [defer close(h.waitCh)]. *)
Definition run (sched : list wakeup) : M (lxcDriverHandle C CS) unit :=
  defer closeWaitCh (monitor sched).

End Methods.
Section Start.

Context {C CS F : Type} `{CpuAccumulator CS F} (host : Host C).

(** [setCommonContainerConfig(ctx, c)] on the container of this
    [Start]: the error and the container after the call. *)
Definition callSetCommonContainerConfig : P (error * configLog) :=
  emit CallSetCommonContainerConfig ;;;
  let '(err, log, _) :=
    @LxcGoExt.setCommonContainerConfig configLog (hostConfig host)
      (taskDir host) [] in
  ret (err, log).

(** [LxcDriver.executeContainer] (lines 365-460): no rollback; the
    volume group is the text before the first "/". *)
Definition executeContainer : P (option (lxcDriverHandle C CS) * error) :=
  match decodeExecute host with
  | None => ret (None, Some ErrDecode)
  | Some executeConfig =>
      let name := containerName host in
      let containerPath := filepathJoin host [lxcPathOf host; name] in
      let containerRootfsPath := filepathJoin host [containerPath; "rootfs"] in
      emit (OsMkdirAll containerRootfsPath) ;;;
      if negb (mkdirAll host containerRootfsPath)
      then ret (None, Some (ErrMkdir containerPath))
      else
      tag <- lift (strings.slice_to (BaseRootFsPath executeConfig) 4) ;;
      if negb (String.eqb tag "lvm:")
      then ret (None, Some ErrOnlyLVM)
      else
      baseLvName <-
        lift (strings.slice_from (BaseRootFsPath executeConfig) 4) ;;
      let args := ["-kn"; "-n"; name; "-s"; baseLvName] in
      r <- execRun host "lvcreate" args ;;
      match r with
      | CmdExitError stderr =>
          ret (None, Some (ErrLvCreate ("lvcreate" :: args) stderr))
      | CmdOtherError =>
          lift (Panic "interface conversion: error is not *exec.ExitError")
      | CmdOk =>
          vgName <- lift (strings.slice_to baseLvName
                            (strings.Index baseLvName "/")) ;;
          if strings.len vgName =? 0 then ret (None, Some ErrNoVgName)
          else
          let storageName :=
            "lvm:/dev/mapper/" +:+ tr vgName +:+ "-" +:+ tr name in
          let newConfigFilePath :=
            filepathJoin host [lxcPathOf host; name; "config"] in
          emit (OsCreate newConfigFilePath) ;;;
          if negb (osCreate host newConfigFilePath)
          then ret (None, Some (ErrCreateConfig newConfigFilePath))
          else
          emit (OsChmod newConfigFilePath) ;;;
          if negb (osChmod host newConfigFilePath)
          then ret (None, Some ErrChmod)
          else
          emit (TemplateParseFiles (BaseConfigPath executeConfig)) ;;;
          if negb (parseFiles host (BaseConfigPath executeConfig))
          then ret (None,
                    Some (ErrParseTemplate (BaseConfigPath executeConfig)))
          else
          emit (TemplateExecute storageName name) ;;;
          if negb (tmplExecute host storageName name)
          then ret (None, Some ErrExecTemplate)
          else
          emit (CallLoadConfigFile newConfigFilePath) ;;;
          if negb (loadConfigFile host newConfigFilePath)
          then ret (None, Some ErrLoadConfig)
          else
          configured <- callSetCommonContainerConfig ;;
          match configured with
          | (Some e, _) => ret (None, Some e)
          | (None, log) =>
              emit (CallStartExecute (CmdArgs executeConfig)) ;;;
              if negb (startExecute host (CmdArgs executeConfig))
              then ret (None, Some (ErrStartExecute (CmdArgs executeConfig)))
              else
              err <- callSetLimits host log ;;
              match err with
              | Some e => ret (None, Some e)
              | None =>
                  h <- spawnHandle host ;;
                  ret (Some h, None)
              end
          end
      end
  end.

(** [LxcDriver.startContainer] (lines 313-363). *)
Definition startContainer : P (option (lxcDriverHandle C CS) * error) :=
  if negb (decodeStartOk host) then ret (None, Some ErrDecode)
  else
  emit CallCreate ;;;
  if negb (createOk host) then ret (None, Some ErrCreate)
  else
  configured <- callSetCommonContainerConfig ;;
  match configured with
  | (Some e, _) => ret (None, Some e)
  | (None, log) =>
      emit CallStart ;;;
      if negb (startOk host) then ret (None, Some ErrStart)
      else
      err <- callSetLimits host log ;;
      match err with
      | Some e => ret (None, Some e)
      | None =>
          h <- spawnHandle host ;;
          ret (Some h, None)
      end
  end.

(** [LxcDriver.Start] (lines 254-311). *)
Definition Start : P (option (lxcDriverHandle C CS) * error) :=
  match decodeCommon host with
  | None => ret (None, Some ErrDecode)
  | Some commonConfig =>
      if negb (newContainerOk host)
      then ret (None, Some ErrInitContainer)
      else if negb (verbosityOk (Verbosity commonConfig))
      then ret (None, Some ErrVerbosity)
      else if negb (logLevelOk (LogLevel commonConfig))
      then ret (None, Some ErrLogLevel)
      else if UseExecute commonConfig then executeContainer
      else startContainer
  end.

End Start.
End LxcGo.

(** ** Vocabulary of the statements *)

(** The byte [c] does not occur in [s]. *)
Definition lacks (c : ascii) (s : string) : bool :=
  strings.all (fun x => negb (Ascii.eqb x c)) s.

(** A volume spec as the volume policy words it: ["h:c"] with both
    components non-empty, no further colon, and [c] not absolute. *)
Definition validVolumeSpec (volStr : string) : Prop :=
  exists h c : string,
    volStr = h +:+ ":" +:+ c
    /\ lacks ":" h = true /\ lacks ":" c = true
    /\ h <> EmptyString /\ c <> EmptyString
    /\ strings.head c <> Some "/"%char.

(** The errors that the volume policy documents. *)
Definition isVolumeConfigError (e : ErrorValue) : Prop :=
  match e with
  | ErrInvalidVolume _ | ErrAbsoluteMount _ => True
  | _ => False
  end.

(** The device-mapper path that [executeContainer] builds for a volume
    group and a container name (after the "lvm:" tag). *)
Definition devMapperPath (vg name : string) : string :=
  "/dev/mapper/" +:+ tr vg +:+ "-" +:+ tr name.

(** [strings.Count(s, c)] for one byte. *)
Fixpoint count (c : ascii) (s : string) : nat :=
  match s with
  | EmptyString => O
  | String x s' => if Ascii.eqb x c then S (count c s') else count c s'
  end.

(** The pattern [[^-]-[^-]] at the start of [s]: a single dash between
    two other characters. *)
Definition lone (s : string) : bool :=
  match s with
  | String x (String "-" (String y _)) => notDash x && notDash y
  | _ => false
  end.

(** What is left of [devMapperRE] once the star of the group has
    stopped before [u]: the last character of the group, the single dash
    and the character after it; [whole] is the text that the group
    started on. *)
Definition afterStar (whole u : string) : option string :=
  regexp.match_k (regexp.Class (notRune "-")) u (fun s2 =>
    regexp.match_k (regexp.post devMapperRE) s2 (fun _ =>
      Some (strings.take (String.length whole - String.length s2) whole))).

(** [q] holds of [s] and of every suffix of [s]. *)
Fixpoint all_tails (q : string -> bool) (s : string) : bool :=
  q s && match s with
         | EmptyString => true
         | String _ s' => all_tails q s'
         end.

(** A wakeup that makes the monitor leave its loop. *)
Definition terminating (w : wakeup) : bool :=
  match w with
  | TimerC None None => false
  | _ => true
  end.

(** The termination result that the monitor publishes for a schedule:
    decided by its first terminating wakeup. *)
Fixpoint published (sched : list wakeup) : option WaitResult :=
  match sched with
  | [] => None
  | TimerC (Some err) _ :: _ =>
      Some {| ExitCode := 0; Signal := 0; Err := Some err |}
  | TimerC None (Some _) :: _ => Some emptyWaitResult
  | TimerC None None :: rest => published rest
  | DoneC :: _ => Some emptyWaitResult
  end.

(** An event of the channel [waitCh]. *)
Definition onWaitCh (e : event) : bool :=
  match e with
  | SendWaitCh _ | CloseWaitCh => true
  | _ => false
  end.

Definition isDestroy (e : event) : bool :=
  match e with
  | CallDestroy => true
  | _ => false
  end.

Definition isCloseDoneCh (e : event) : bool :=
  match e with
  | CloseDoneCh => true
  | _ => false
  end.

(** The calls that [Kill] of part_000 may make. *)
Definition killEvent (e : event) : bool :=
  match e with
  | CallRunning | CallShutdown _ | CallStop | CloseDoneCh => true
  | _ => false
  end.

Definition isLvCommand (e : event) : bool :=
  match e with
  | ExecCommand _ _ => true
  | _ => false
  end.

(** The directory and the snapshot command of [executeContainer]. *)
Definition rootfsDir {C} (host : Host C) : string :=
  filepathJoin host
    [filepathJoin host [lxcPathOf host; containerName host]; "rootfs"].

Definition lvcreateArgs {C} (host : Host C) (baseLvName : string)
    : list string :=
  ["-kn"; "-n"; containerName host; "-s"; baseLvName].

(** [Start] reaches the backend check of [executeContainer]: the task
    decodes as a clone-mode task with [executeConfig], the container
    object is created, the verbosity and log level are known ones, and
    the root directory of the container is made. *)
Definition entersClone {C} (host : Host C)
    (executeConfig : LxcExecuteDriverConfig) : Prop :=
  exists commonConfig,
    decodeCommon host = Some commonConfig
    /\ newContainerOk host = true
    /\ verbosityOk (Verbosity commonConfig) = true
    /\ logLevelOk (LogLevel commonConfig) = true
    /\ UseExecute commonConfig = true
    /\ decodeExecute host = Some executeConfig
    /\ mkdirAll host (rootfsDir host) = true.

(** The number that a string of decimal digits denotes, read after the
    digits that gave [acc]; [None] when a byte is no digit. *)
Fixpoint decimalValue (acc : Z) (s : string) : option Z :=
  match s with
  | EmptyString => Some acc
  | String c s' =>
      match strconv.digit c with
      | Some d => decimalValue (acc * 10 + d) s'
      | None => None
      end
  end.

(** The values of the lines of a single-value cgroup file that parse,
    in order; a line that does not parse is left out. *)
Definition parsedUints (lines : list string) : list Z :=
  omap (fun raw =>
          match strconv.ParseUint raw with
          | (val, None) => Some val
          | (_, Some _) => None
          end) lines.

(** The values that the well-formed lines of [memory.stat] give for
    [key], in order. *)
Definition parsedStats (key : string) (lines : list string) : list Z :=
  omap (fun line =>
          match keysToVal line with
          | (k, val, None) => if String.eqb k key then Some val else None
          | (_, _, Some _) => None
          end) lines.

(** ** A container and an accumulator to run the code on *)

(** A plain container for the examples: it runs until it is shut down or
    stopped, honours [Shutdown] when [graceful], and can be destroyed
    once. *)
Record fakeContainer : Type :=
  { fRunning : bool;
    fDestroyed : bool;
    fGraceful : bool;
    fCpu : option (Z * Z);      (* system, user *)
    fCpuTime : option Z;
    fMemoryStat : list string;
    fMaxUsage : list string }.

Definition fakeStopped (c : fakeContainer) : fakeContainer :=
  {| fRunning := false; fDestroyed := fDestroyed c; fGraceful := fGraceful c;
     fCpu := fCpu c; fCpuTime := fCpuTime c;
     fMemoryStat := fMemoryStat c; fMaxUsage := fMaxUsage c |}.

Definition fakeGone (c : fakeContainer) : fakeContainer :=
  {| fRunning := false; fDestroyed := true; fGraceful := fGraceful c;
     fCpu := None; fCpuTime := None;
     fMemoryStat := []; fMaxUsage := [] |}.

#[export] Instance fakeRuntime : Runtime fakeContainer :=
  {| Name := fun _ => "web-4d2f";
     Running := fRunning;
     Shutdown := fun _ c =>
       if fGraceful c then (None, fakeStopped c) else (Some ErrShutdown, c);
     Stop := fun c => (None, fakeStopped c);
     Wait := fun c => (negb (fRunning c), c);
     Destroy := fun c =>
       if fDestroyed c then (Some ErrDestroy, c) else (None, fakeGone c);
     CPUStats := fun c =>
       match fCpu c with
       | Some (system, user) =>
           Some (<["system" := system]> (<["user" := user]> ∅))
       | None => None
       end;
     CPUTime := fCpuTime;
     CgroupItem := fun c key =>
       if String.eqb key "memory.stat" then fMemoryStat c
       else if String.eqb key "memory.max_usage_in_bytes" then fMaxUsage c
       else [] |}.

(** Modelled from the spec: [stats.CpuStats] with [NewCpuStats] and
    [Percent] (client/stats of the Nomad client, not among the sources).
    The spec describes "an explicit small struct holding (lastValue,
    lastTimestamp), pure function of new sample -> (percentage, updated
    state)" that computes "delta ticks since last sample / elapsed wall
    time", where "the first sample after creation or after a restart
    necessarily yields 0%".  Samples and percentages are integers here
    and the quotient is rounded down. *)
Definition rateAccumulator : Type := option (Z * Z).

(** Modelled from the spec: [CpuStats.Percent] (client/stats, not among
    the sources): 0 on the first sample, afterwards the ticks since the
    last sample divided by the wall time since then. *)
Definition ratePercent (acc : rateAccumulator) (now sample : Z)
    : Z * rateAccumulator :=
  match acc with
  | None => (0, Some (sample, now))
  | Some (lastValue, lastTimestamp) =>
      ((sample - lastValue) / (now - lastTimestamp), Some (sample, now))
  end.

(** Modelled from the spec: [stats.NewCpuStats] (client/stats, not among
    the sources) gives an accumulator that has seen no sample. *)
#[export] Instance rateCpuAccumulator : CpuAccumulator rateAccumulator Z :=
  {| NewCpuStats := None; Percent := ratePercent; float64 := fun x => x |}.

Definition fakeHandle (c : fakeContainer)
    : lxcDriverHandle fakeContainer rateAccumulator :=
  newHandle c 4711 "/var/lib/lxc" 5 30.

Definition liveContainer : fakeContainer :=
  {| fRunning := true; fDestroyed := false; fGraceful := true;
     fCpu := Some (100, 500); fCpuTime := Some 600;
     fMemoryStat := ["cache 4096"; "rss 8192"; "rss many"; "bogus"];
     fMaxUsage := ["12288"] |}.

Definition exampleTaskDir : TaskDir :=
  {| Dir := "/alloc/web"; LocalDir := "/alloc/web/local";
     SharedAllocDir := "/alloc/shared"; SecretsDir := "/alloc/web/secrets" |}.

(** A host on which every step of [Start] succeeds, for a clone-mode
    task with the given base reference. *)
Definition fakeHost (base : string) : Host fakeContainer :=
  {| decodeCommon :=
       Some {| LogLevel := ""; Verbosity := ""; UseExecute := true;
               Volumes := [] |};
     decodeExecute :=
       Some {| BaseRootFsPath := base; BaseConfigPath := "/etc/lxc/base.conf";
               CmdArgs := ["/bin/app"] |};
     decodeStartOk := true;
     lxcPathOf := "/var/lib/lxc";
     containerName := "web-4d2f";
     newContainerOk := true;
     filepathJoin := fun l =>
       match l with
       | [] => EmptyString
       | x :: xs => foldl (fun p y => p +:+ "/" +:+ y) x xs
       end;
     mkdirAll := fun _ => true;
     runCommand := fun _ _ => CmdOk;
     osCreate := fun _ => true;
     osChmod := fun _ => true;
     osRemove := fun _ => true;
     parseFiles := fun _ => true;
     tmplExecute := fun _ _ => true;
     loadConfigFile := fun _ => true;
     volumesEnabled := true;
     taskDir := exampleTaskDir;
     taskEnv := ["PATH=/bin"];
     taskMemoryMB := 256;
     taskCPU := 500;
     configAnswer := fun _ => true;
     parseAndReplace := fun args => args;
     startExecute := fun _ => true;
     createOk := true;
     startOk := true;
     stopErr := None;
     destroyErr := None;
     theContainer := liveContainer;
     theInitPid := 4711;
     theKillTimeout := 5;
     theMaxKillTimeout := 30 |}.

(** ** More vocabulary *)

(** The mount entry that the volume loop of part_000 adds for a spec
    ["h:c"]. *)
Definition volumeEntry (join : string -> string -> string) (td : TaskDir)
    (h c : string) : string :=
  mountEntry (if IsAbs h then h else join (Dir td) h) c.

(** The host side of a volume spec, the text before the first colon. *)
Definition hostSide (volStr : string) : string :=
  match strings.Split volStr ":" with
  | p0 :: _ => p0
  | [] => EmptyString
  end.

(** The entries that the volume loop adds for a list of specs; a spec
    without a colon contributes nothing here (the loop panics on it). *)
Definition volumeEntries (join : string -> string -> string) (td : TaskDir)
    (volumes : list string) : list string :=
  omap (fun volStr =>
          match strings.Split volStr ":" with
          | p0 :: p1 :: _ => Some (volumeEntry join td p0 p1)
          | _ => None
          end) volumes.

(** The calls [SetConfigItem(key, v)] for the values [vs]. *)
Definition itemCalls (key : string) (vs : list string) : list configCall :=
  map (ConfigItem key) vs.

(** The answers of a container to configuration calls made one after
    the other from the state [c], and the container after them. *)
Fixpoint replay {C : Type} `{ContainerConfig C} (calls : list configCall)
    (c : C) : list bool * C :=
  match calls with
  | [] => ([], c)
  | call :: rest =>
      let '(ok, c') :=
        match call with
        | ConfigItem key value => SetConfigItem key value c
        | MemoryLimit megabytes => SetMemoryLimit megabytes c
        | CgroupItemSet key value => SetCgroupItem key value c
        end in
      let '(oks, c'') := replay rest c' in
      (ok :: oks, c'')
  end.

(** A rollback event of provisioning. *)
Definition isRollback (e : event) : bool :=
  match e with
  | ExecCommand name _ => String.eqb name "lvremove"
  | OsRemove _ | CallStop | CallDestroy => true
  | _ => false
  end.

(** The trace from its first rollback event on. *)
Fixpoint rollbackSuffix (t : list event) : list event :=
  match t with
  | [] => []
  | e :: t' => if isRollback e then e :: t' else rollbackSuffix t'
  end.

Definition isOsRemove (e : event) : bool :=
  match e with
  | OsRemove _ => true
  | _ => false
  end.

(** The command that removes the snapshot of a container. *)
Definition lvremoveCommand {C} (host : Host C) (vgName : string) : event :=
  ExecCommand "lvremove" ["-f"; vgName +:+ "/" +:+ containerName host].

Definition isGoRun (e : event) : bool :=
  match e with
  | GoRun => true
  | _ => false
  end.

(** A container for the examples of the configuration calls: it counts
    the calls and refuses those listed in [refused]. *)
Record scriptedConfig : Type :=
  { callsSeen : nat;
    refused : list nat }.

Definition scriptedStep (c : scriptedConfig) : bool * scriptedConfig :=
  (negb (bool_decide (callsSeen c ∈ refused c)),
   {| callsSeen := S (callsSeen c); refused := refused c |}).

#[export] Instance scriptedContainerConfig : ContainerConfig scriptedConfig :=
  {| SetConfigItem := fun _ _ => scriptedStep;
     SetMemoryLimit := fun _ => scriptedStep;
     SetCgroupItem := fun _ _ => scriptedStep |}.

Definition exampleJoin (a b : string) : string := a +:+ "/" +:+ b.

(** A host for the examples of [Start]: the task configuration, the
    outcome of the external commands and whether the container starts
    are given; every other step succeeds. *)
Definition scriptedHost (common : LxcCommonDriverConfig) (base : string)
    (commands : string -> list string -> cmd_result) (starts : bool)
    : Host fakeContainer :=
  {| decodeCommon := Some common;
     decodeExecute :=
       Some {| BaseRootFsPath := base; BaseConfigPath := "/etc/lxc/base.conf";
               CmdArgs := ["/bin/app"] |};
     decodeStartOk := true;
     lxcPathOf := "/var/lib/lxc";
     containerName := "web-4d2f";
     newContainerOk := true;
     filepathJoin := fun l =>
       match l with
       | [] => EmptyString
       | x :: xs => foldl (fun p y => p +:+ "/" +:+ y) x xs
       end;
     mkdirAll := fun _ => true;
     runCommand := commands;
     osCreate := fun _ => true;
     osChmod := fun _ => true;
     osRemove := fun _ => true;
     parseFiles := fun _ => true;
     tmplExecute := fun _ _ => true;
     loadConfigFile := fun _ => true;
     volumesEnabled := true;
     taskDir := exampleTaskDir;
     taskEnv := ["PATH=/bin"];
     taskMemoryMB := 256;
     taskCPU := 500;
     configAnswer := fun _ => true;
     parseAndReplace := fun args => args;
     startExecute := fun _ => starts;
     createOk := true;
     startOk := starts;
     stopErr := None;
     destroyErr := None;
     theContainer := liveContainer;
     theInitPid := 4711;
     theKillTimeout := 5;
     theMaxKillTimeout := 30 |}.

Definition cloneTask : LxcCommonDriverConfig :=
  {| LogLevel := ""; Verbosity := ""; UseExecute := true; Volumes := [] |}.

(** A clone-mode task with the given volumes. *)
Definition volumeTask (volumes : list string) : LxcCommonDriverConfig :=
  {| LogLevel := ""; Verbosity := ""; UseExecute := true;
     Volumes := volumes |}.

Definition templateTask (verbosity : string) : LxcCommonDriverConfig :=
  {| LogLevel := "info"; Verbosity := verbosity; UseExecute := false;
     Volumes := [] |}.

(** External commands of which [lvremove] fails. *)
Definition lvremoveFails (name : string) (args : list string) : cmd_result :=
  if String.eqb name "lvremove" then CmdExitError "Logical volume in use"
  else CmdOk.

(** An identity codec for the examples of [ID] and [Open]: the identity
    is written as the container name, the other fields are fixed. *)
Definition exampleMarshal (pid : lxcPID) : option string :=
  Some (ContainerName pid).

Definition exampleUnmarshal (data : string) : option lxcPID :=
  if String.eqb data "" then None
  else Some {| ContainerName := data; InitPid := 4711;
               LxcPath := "/var/lib/lxc"; KillTimeout := 5 |}.

(** * Proofs *)

#[local] Arguments String.append !_ _ / : simpl nomatch.

(** * Facts about strings *)
Section StringFacts.

Lemma append_assoc (a b c : string) : (a +:+ b) +:+ c = a +:+ (b +:+ c).
Proof. induction a as [|x a IH]; simpl; [reflexivity | now rewrite IH]. Qed.

Lemma append_nil_r (a : string) : a +:+ "" = a.
Proof. induction a as [|x a IH]; simpl; [reflexivity | now rewrite IH]. Qed.

Lemma length_append (a b : string) :
  String.length (a +:+ b) = (String.length a + String.length b)%nat.
Proof. induction a as [|x a IH]; simpl; [reflexivity | now rewrite IH]. Qed.

Lemma take_append (a b : string) : strings.take (String.length a) (a +:+ b) = a.
Proof. induction a as [|x a IH]; simpl; [now destruct b | now rewrite IH]. Qed.

Lemma drop_append (a b : string) : strings.drop (String.length a) (a +:+ b) = b.
Proof. induction a as [|x a IH]; simpl; [reflexivity | exact IH]. Qed.

Lemma HasPrefix_append (p s : string) : strings.HasPrefix (p +:+ s) p = true.
Proof.
  induction p as [|x p IH]; simpl; [reflexivity |].
  now rewrite Ascii.eqb_refl.
Qed.

Lemma lacks_cons (c x : ascii) (s : string) :
  lacks c (String x s) = true <-> x <> c /\ lacks c s = true.
Proof.
  unfold lacks; simpl. rewrite andb_true_iff, negb_true_iff, Ascii.eqb_neq.
  reflexivity.
Qed.

Lemma lacks_append (c : ascii) (a b : string) :
  lacks c (a +:+ b) = true <-> lacks c a = true /\ lacks c b = true.
Proof.
  induction a as [|x a IH]; simpl.
  - unfold lacks at 2; simpl. tauto.
  - rewrite !lacks_cons, IH. tauto.
Qed.

(** ** [strings.Split] *)

Lemma Split_not_nil (s : string) (sep : ascii) : strings.Split s sep <> [].
Proof.
  induction s as [|x s IH]; simpl; [discriminate |].
  destruct (Ascii.eqb x sep); [discriminate |].
  destruct (strings.Split s sep); [contradiction | discriminate].
Qed.

Lemma Split_lacks (s : string) (sep : ascii) :
  lacks sep s = true -> strings.Split s sep = [s].
Proof.
  induction s as [|x s IH]; simpl; intros Hs; [reflexivity |].
  apply lacks_cons in Hs as [Hx Hs].
  apply Ascii.eqb_neq in Hx. rewrite Hx, (IH Hs). reflexivity.
Qed.

Lemma Split_append (a b : string) (sep : ascii) :
  lacks sep a = true ->
  strings.Split (a +:+ String sep b) sep = a :: strings.Split b sep.
Proof.
  induction a as [|x a IH]; simpl; intros Ha.
  - now rewrite Ascii.eqb_refl.
  - apply lacks_cons in Ha as [Hx Ha].
    apply Ascii.eqb_neq in Hx. rewrite Hx, (IH Ha). reflexivity.
Qed.

Lemma Split_one (s p : string) (sep : ascii) :
  strings.Split s sep = [p] -> s = p /\ lacks sep p = true.
Proof.
  revert p. induction s as [|x s IH]; simpl; intros p Hs.
  - now injection Hs as <-.
  - destruct (Ascii.eqb_spec x sep) as [-> | Hx].
    + injection Hs as _ Hs. now apply Split_not_nil in Hs.
    + destruct (strings.Split s sep) as [|q qs] eqn:Hq;
        [now apply Split_not_nil in Hq |].
      injection Hs as <- ->. destruct (IH q eq_refl) as [-> Hq0].
      split; [reflexivity |]. apply lacks_cons. now split.
Qed.

(** The components of a split contain no separator, and joining them
    with the separator gives the string back. *)
Lemma Split_two (s p0 p1 : string) (sep : ascii) :
  strings.Split s sep = [p0; p1] ->
  s = p0 +:+ String sep p1 /\ lacks sep p0 = true /\ lacks sep p1 = true.
Proof.
  revert p0. induction s as [|x s IH]; simpl; intros p0 Hs; [discriminate |].
  destruct (Ascii.eqb_spec x sep) as [-> | Hx].
  - injection Hs as <- Hs. apply Split_one in Hs as [-> Hp].
    simpl. auto.
  - destruct (strings.Split s sep) as [|q qs] eqn:Hq;
        [now apply Split_not_nil in Hq |].
    injection Hs as <- ->.
    destruct (IH q eq_refl) as (-> & Hq0 & Hq1).
    split; [reflexivity |]. split; [| exact Hq1].
    apply lacks_cons. now split.
Qed.

Lemma take_all (a : string) : strings.take (String.length a) a = a.
Proof. induction a as [|x a IH]; simpl; [reflexivity | now rewrite IH]. Qed.

Lemma len_zero (s : string) : (strings.len s =? 0) = true <-> s = "".
Proof.
  unfold strings.len. destruct s; simpl; split; intros Hs;
    try reflexivity; try discriminate.
Qed.

End StringFacts.

(** * Slices *)

Lemma slice_to_append (a b : string) :
  strings.slice_to (a +:+ b) (strings.len a) = Return a.
Proof.
  unfold strings.slice_to, strings.slice, strings.len.
  rewrite length_append.
  replace ((0 <=? 0) && (0 <=? Z.of_nat (String.length a))
           && (Z.of_nat (String.length a)
               <=? Z.of_nat (String.length a + String.length b)))
    with true by (symmetry; rewrite !andb_true_iff, !Z.leb_le; lia).
  rewrite Z.sub_0_r, Nat2Z.id. simpl. now rewrite take_append.
Qed.

Lemma slice_from_append (a b : string) :
  strings.slice_from (a +:+ b) (strings.len a) = Return b.
Proof.
  unfold strings.slice_from, strings.slice, strings.len.
  rewrite length_append.
  replace ((0 <=? Z.of_nat (String.length a))
           && (Z.of_nat (String.length a)
               <=? Z.of_nat (String.length a + String.length b))
           && (Z.of_nat (String.length a + String.length b)
               <=? Z.of_nat (String.length a + String.length b)))
    with true by (symmetry; rewrite !andb_true_iff, !Z.leb_le; lia).
  rewrite Nat2Z.id, drop_append.
  replace (Z.to_nat (Z.of_nat (String.length a + String.length b)
                     - Z.of_nat (String.length a)))
    with (String.length b) by lia.
  now rewrite take_all.
Qed.

Lemma slice_to_short (s : string) (hi : Z) :
  strings.len s < hi ->
  strings.slice_to s hi = Panic "slice bounds out of range".
Proof.
  intros Hlt. unfold strings.slice_to, strings.slice.
  replace (hi <=? strings.len s) with false by (symmetry; apply Z.leb_gt; lia).
  now rewrite andb_false_r.
Qed.

(** * Counting and searching *)

Lemma count_append (c : ascii) (a b : string) :
  count c (a +:+ b) = (count c a + count c b)%nat.
Proof.
  induction a as [|x a IH]; simpl; [reflexivity |].
  destruct (Ascii.eqb x c); simpl; now rewrite IH.
Qed.

Lemma count_lacks (c : ascii) (s : string) :
  lacks c s = true -> count c s = 0%nat.
Proof.
  induction s as [|x s IH]; [reflexivity |]. intros Hs.
  apply lacks_cons in Hs as [Hx Hs]. simpl.
  apply Ascii.eqb_neq in Hx. now rewrite Hx, IH.
Qed.

Lemma HasPrefix_inv (s l : string) :
  strings.HasPrefix s l = true -> exists r, s = l +:+ r.
Proof.
  revert s. induction l as [|a l IH]; intros s; simpl.
  - intros _. now exists s.
  - destruct s as [|c s]; [discriminate |].
    destruct (Ascii.eqb_spec c a) as [-> | Hne]; [| discriminate].
    intros Hp. destruct (IH s Hp) as [r ->]. now exists r.
Qed.

Lemma append_first_sep (sep : ascii) (a b x y : string) :
  lacks sep a = true -> lacks sep b = true ->
  a +:+ String sep x = b +:+ String sep y -> a = b.
Proof.
  revert b. induction a as [|c a IH]; intros b Ha Hb Heq.
  - destruct b as [|d b]; [reflexivity |]. simpl in Heq.
    injection Heq as <- _. apply lacks_cons in Hb as [Hd _].
    now contradiction Hd.
  - destruct b as [|d b]; simpl in Heq.
    + injection Heq as -> _. apply lacks_cons in Ha as [Hc _].
      now contradiction Hc.
    + injection Heq as <- Heq. apply lacks_cons in Ha as [_ Ha].
      apply lacks_cons in Hb as [_ Hb]. now rewrite (IH b Ha Hb Heq).
Qed.

Lemma LastIndex_lacks (sep : ascii) (s : string) :
  lacks sep s = true -> strings.LastIndex s sep = -1.
Proof.
  induction s as [|c s IH]; [reflexivity |]. intros Hs.
  apply lacks_cons in Hs as [Hc Hs]. simpl. rewrite (IH Hs). simpl.
  apply Ascii.eqb_neq in Hc. now rewrite Hc.
Qed.

Lemma LastIndex_append (sep : ascii) (a b : string) :
  lacks sep b = true ->
  strings.LastIndex (a +:+ String sep b) sep = strings.len a.
Proof.
  intros Hb. induction a as [|c a IH]; simpl.
  - rewrite (LastIndex_lacks sep b Hb). simpl. now rewrite Ascii.eqb_refl.
  - rewrite IH. unfold strings.len.
    replace (0 <=? Z.of_nat (String.length a)) with true
      by (symmetry; apply Z.leb_le; lia).
    simpl String.length. lia.
Qed.

(** * Volume policy *)

(** A valid spec passes the three checks of the loop body. *)
Lemma validate_valid (volStr : string) (rest : list iface) :
  validVolumeSpec volStr ->
  validateVolumesConfig (IString volStr :: rest) = validateVolumesConfig rest.
Proof.
  intros (h & c & -> & Hh & Hc & Hh0 & Hc0 & Hslash).
  simpl. rewrite (Split_append h c ":" Hh), (Split_lacks c ":" Hc).
  destruct (strings.len h =? 0) eqn:Eh; [now apply len_zero in Eh |].
  destruct (strings.len c =? 0) eqn:Ec; [now apply len_zero in Ec |].
  simpl. destruct c as [|x c]; [reflexivity |].
  destruct (Ascii.eqb_spec x "/") as [-> | Hx]; [now contradiction Hslash |].
  destruct x as [[] [] [] [] [] [] [] []]; try reflexivity.
  now contradiction Hx.
Qed.

(** A spec is valid, or the loop body answers it with one of the two
    errors of the volume policy. *)
Lemma validate_cases (volStr : string) (rest : list iface) :
  validVolumeSpec volStr
  \/ exists e, validateVolumesConfig (IString volStr :: rest) = Return (Some e)
               /\ isVolumeConfigError e.
Proof.
  simpl.
  destruct (strings.Split volStr ":") as [|p0 [|p1 [|p2 ps]]] eqn:Hsplit;
    try (right; eexists; split; [reflexivity | exact I]).
  destruct ((strings.len p0 =? 0) || (strings.len p1 =? 0)) eqn:Hlen;
    [right; eexists; split; [reflexivity | exact I] |].
  apply orb_false_iff in Hlen as [Hp0 Hp1].
  destruct p1 as [|x p1]; [discriminate |].
  destruct (Ascii.eqb_spec x "/") as [-> | Hx];
    [right; eexists; split; [reflexivity | exact I] |].
  left. apply Split_two in Hsplit as (-> & Hl0 & Hl1).
  exists p0, (String x p1). repeat split; try assumption.
  - intros ->. discriminate.
  - discriminate.
  - simpl. congruence.
Qed.

Lemma validVolumeSpec_dec (volStr : string) :
  validVolumeSpec volStr \/ ~ validVolumeSpec volStr.
Proof.
  destruct (validate_cases volStr []) as [Hv | (e & He & _)]; [now left |].
  right. intros Hv. rewrite (validate_valid _ _ Hv) in He. discriminate.
Qed.

(** C9.  [validateVolumesConfig] returns nil exactly when every spec of
    the list is of the form "h:c" with one colon, both components
    non-empty and [c] not starting with a slash; otherwise it returns one
    of the two volume-configuration errors.  It is a function of its
    argument alone: it reads and writes nothing else. *)
Theorem validateVolumesConfig_accepts_exactly_valid (specs : list string) :
  (validateVolumesConfig (map IString specs) = Return None
     <-> Forall validVolumeSpec specs)
  /\ (validateVolumesConfig (map IString specs) = Return None
      \/ exists e, validateVolumesConfig (map IString specs) = Return (Some e)
                   /\ isVolumeConfigError e).
Proof.
  induction specs as [|volStr specs [IHiff IHor]].
  - split; [split; [constructor | reflexivity] | now left].
  - change (map IString (volStr :: specs))
      with (IString volStr :: map IString specs).
    destruct (validVolumeSpec_dec volStr) as [Hv | Hv].
    + rewrite (validate_valid _ _ Hv). split; [| exact IHor].
      rewrite IHiff. split; [now constructor | now inversion 1].
    + destruct (validate_cases volStr (map IString specs))
        as [Hv' | (e & He & Herr)]; [contradiction |].
      split; [| right; now exists e].
      rewrite He. split; [discriminate | inversion 1; contradiction].
Qed.

(** * Runes *)

Lemma byte_nonneg (c : ascii) : 0 <= utf8.byte c.
Proof. unfold utf8.byte. lia. Qed.

Lemma byte_inj (c d : ascii) : utf8.byte c = utf8.byte d -> c = d.
Proof.
  unfold utf8.byte. intros Heq. apply Nat2Z.inj in Heq.
  now rewrite <- (ascii_nat_embedding c), <- (ascii_nat_embedding d), Heq.
Qed.

Lemma ascii_of_byte (c : ascii) : ascii_of_nat (Z.to_nat (utf8.byte c)) = c.
Proof. unfold utf8.byte. now rewrite Nat2Z.id, ascii_nat_embedding. Qed.

(** An ASCII byte is a rune of its own. *)
Lemma Decode_ascii (c : ascii) (s : string) :
  utf8.byte c < 128 ->
  utf8.DecodeRuneInString (String c s) = (utf8.byte c, 1%nat).
Proof.
  intros Hc. unfold utf8.DecodeRuneInString, utf8.RuneSelf.
  now destruct (Z.ltb_spec (utf8.byte c) 128); [| lia].
Qed.

Lemma lor_ge (a b : Z) :
  0 <= a -> 0 <= b -> 128 <= a \/ 128 <= b -> 128 <= Z.lor a b.
Proof.
  intros Ha Hb Hor.
  assert (Hlog : 7 <= Z.log2 (Z.lor a b)).
  { rewrite (Z.log2_lor a b Ha Hb).
    change 7 with (Z.log2 128).
    destruct Hor as [H | H]; apply (Z.log2_le_mono 128) in H; lia. }
  assert (Hpos : 0 < Z.lor a b).
  { destruct (Z.lt_ge_cases 0 (Z.lor a b)) as [Hp | Hn]; [exact Hp |].
    rewrite (Z.log2_nonpos _ Hn) in Hlog. lia. }
  destruct (Z.log2_spec _ Hpos) as [Hlo _].
  apply (Z.pow_le_mono_r 2) in Hlog; [| lia]. change (2 ^ 7) with 128 in Hlog.
  lia.
Qed.

Lemma low_bits (x n : Z) (m : Z) :
  0 <= n -> m = 2 ^ n - 1 -> Z.land x m = x mod 2 ^ n.
Proof.
  intros Hn ->. rewrite <- (Z.land_ones x n Hn). f_equal.
  rewrite Z.ones_equiv. unfold Z.pred. lia.
Qed.

Ltac bits_to_arith :=
  repeat match goal with
    | |- context [Z.shiftl ?a 6] =>
        rewrite (Z.shiftl_mul_pow2 a 6) by lia; change (2 ^ 6) with 64
    | |- context [Z.shiftl ?a 12] =>
        rewrite (Z.shiftl_mul_pow2 a 12) by lia; change (2 ^ 12) with 4096
    | |- context [Z.shiftl ?a 18] =>
        rewrite (Z.shiftl_mul_pow2 a 18) by lia; change (2 ^ 18) with 262144
    | |- context [Z.land ?a 63] =>
        rewrite (low_bits a 6 63) by (lia || reflexivity);
        change (2 ^ 6) with 64
    | |- context [Z.land ?a 31] =>
        rewrite (low_bits a 5 31) by (lia || reflexivity);
        change (2 ^ 5) with 32
    | |- context [Z.land ?a 15] =>
        rewrite (low_bits a 4 15) by (lia || reflexivity);
        change (2 ^ 4) with 16
    | |- context [Z.land ?a 7] =>
        rewrite (low_bits a 3 7) by (lia || reflexivity);
        change (2 ^ 3) with 8
    end.

Ltac mod_lia := Z.to_euclidean_division_equations; lia.

(** A byte of 128 or more starts a rune of 128 or more; the last byte
    of that rune is 128 or more as well. *)
Lemma Decode_high (c : ascii) (s : string) :
  128 <= utf8.byte c ->
  exists r w b rest,
    utf8.DecodeRuneInString (String c s) = (r, w)
    /\ 128 <= r
    /\ strings.drop (Nat.pred w) (String c s) = String b rest
    /\ strings.drop w (String c s) = rest
    /\ 128 <= utf8.byte b.
Proof.
  intros Hc.
  assert (Herr : exists r w b rest,
            (utf8.RuneError, 1%nat) = (r, w) /\ 128 <= r
            /\ strings.drop (Nat.pred w) (String c s) = String b rest
            /\ strings.drop w (String c s) = rest /\ 128 <= utf8.byte b).
  { exists utf8.RuneError, 1%nat, c, s. repeat split; try reflexivity;
      [unfold utf8.RuneError; lia | exact Hc]. }
  unfold utf8.DecodeRuneInString, utf8.RuneSelf.
  destruct (Z.ltb_spec (utf8.byte c) 128) as [Hlt | _]; [lia |].
  destruct (utf8.first (utf8.byte c)) as [[sz [lo hi]]|] eqn:Hfirst;
    [| exact Herr].
  destruct (String.length (String c s) <? sz)%nat; [exact Herr |].
  destruct s as [|c1 s2]; [exact Herr |].
  destruct (utf8.within lo hi c1) eqn:H1; cbn [negb]; cbv iota;
    [| exact Herr].
  assert (Hlo : 128 <= lo /\ hi <= 191 /\ (2 <= sz)%nat
                /\ (sz = 2%nat -> 194 <= utf8.byte c <= 223)
                /\ (sz = 3%nat -> 224 <= utf8.byte c <= 239
                               /\ (utf8.byte c = 224 -> 160 <= lo))
                /\ (sz = 4%nat -> 240 <= utf8.byte c <= 244
                               /\ (utf8.byte c = 240 -> 144 <= lo))
                /\ (sz <= 4)%nat).
  { unfold utf8.first in Hfirst.
    repeat match type of Hfirst with
      | (if ?b then _ else _) = _ => destruct b eqn:?
      end; try discriminate; injection Hfirst as <- <- <-;
      repeat match goal with
        | H : (_ && _) = true |- _ => apply andb_true_iff in H as [? ?]
        | H : (_ <=? _) = true |- _ => apply Z.leb_le in H
        | H : (_ =? _) = true |- _ => apply Z.eqb_eq in H
        end; repeat split; intros; try discriminate; lia. }
  destruct Hlo as (Hlo & Hhi & Hsz2 & Hs2 & Hs3 & Hs4 & Hsz4).
  unfold utf8.within in H1. apply andb_true_iff in H1 as [H1lo H1hi].
  apply Z.leb_le in H1lo, H1hi.
  pose proof (byte_nonneg c) as Hc0.
  destruct (Nat.leb_spec sz 2) as [Hle2 | Hgt2].
  { exists (Z.lor (Z.shiftl (Z.land (utf8.byte c) 31) 6)
              (Z.land (utf8.byte c1) 63)), 2%nat, c1, s2.
    assert (Hsz : sz = 2%nat) by lia. specialize (Hs2 Hsz).
    repeat split; try reflexivity; [| lia].
    apply lor_ge; bits_to_arith; mod_lia. }
  destruct s2 as [|c2 s3]; [exact Herr |].
  destruct (utf8.within 128 191 c2) eqn:H2; cbn [negb]; cbv iota;
    [| exact Herr].
  unfold utf8.within in H2. apply andb_true_iff in H2 as [H2lo H2hi].
  apply Z.leb_le in H2lo, H2hi.
  destruct (Nat.leb_spec sz 3) as [Hle3 | Hgt3].
  { eexists _, 3%nat, c2, s3.
    assert (Hsz : sz = 3%nat) by lia. destruct (Hs3 Hsz) as [Hr3 He0].
    repeat split; try reflexivity; [| lia].
    destruct (Z.eq_dec (utf8.byte c) 224) as [He | Hn].
    - specialize (He0 He).
      apply lor_ge; [| | left; apply lor_ge; [| | right]];
        try (apply Z.lor_nonneg; split); bits_to_arith; mod_lia.
    - apply lor_ge; [| | left; apply lor_ge; [| | left]];
        try (apply Z.lor_nonneg; split); bits_to_arith; mod_lia. }
  destruct s3 as [|c3 s4]; [exact Herr |].
  destruct (utf8.within 128 191 c3) eqn:H3; cbn [negb]; cbv iota;
    [| exact Herr].
  unfold utf8.within in H3. apply andb_true_iff in H3 as [H3lo H3hi].
  apply Z.leb_le in H3lo, H3hi.
  eexists _, 4%nat, c3, s4.
  assert (Hsz : sz = 4%nat) by lia. destruct (Hs4 Hsz) as [Hr4 He0].
  repeat split; try reflexivity; [| lia].
  destruct (Z.eq_dec (utf8.byte c) 240) as [He | Hn].
  - specialize (He0 He).
    apply lor_ge; [| | left; apply lor_ge;
                         [| | left; apply lor_ge; [| | right]]];
      repeat (apply Z.lor_nonneg; split); bits_to_arith; mod_lia.
  - apply lor_ge; [| | left; apply lor_ge;
                         [| | left; apply lor_ge; [| | left]]];
      repeat (apply Z.lor_nonneg; split); bits_to_arith; mod_lia.
Qed.

(** The classes of [devMapperRE] on the rune that starts with a given
    byte. *)
Lemma vgClass_ascii (c : ascii) : vgClass c = true -> utf8.byte c < 128.
Proof.
  destruct c as [[] [] [] [] [] [] [] []]; vm_compute;
    first [discriminate | intros _; reflexivity].
Qed.

Lemma asciiClass_byte (p : ascii -> bool) (c : ascii) :
  utf8.byte c < 128 -> asciiClass p (utf8.byte c) = p c.
Proof.
  intros Hc. unfold asciiClass, utf8.RuneSelf. pose proof (byte_nonneg c).
  rewrite ascii_of_byte.
  destruct (Z.leb_spec 0 (utf8.byte c)); [| lia].
  now destruct (Z.ltb_spec (utf8.byte c) 128); [| lia].
Qed.

Lemma asciiClass_high (p : ascii -> bool) (r : Z) :
  128 <= r -> asciiClass p r = false.
Proof.
  intros Hr. unfold asciiClass, utf8.RuneSelf.
  destruct (Z.ltb_spec r 128); [lia |]. now rewrite andb_false_r.
Qed.

Lemma notRune_byte (c : ascii) : notRune "-" (utf8.byte c) = notDash c.
Proof.
  unfold notRune, notDash. f_equal.
  destruct (Z.eqb_spec (utf8.byte c) (utf8.byte "-")) as [He | Hn].
  - apply byte_inj in He. subst c. reflexivity.
  - symmetry. apply Ascii.eqb_neq. intros ->. now contradiction Hn.
Qed.

Lemma notRune_high (r : Z) : 128 <= r -> notRune "-" r = true.
Proof.
  intros Hr. unfold notRune. apply negb_true_iff, Z.eqb_neq.
  change (utf8.byte "-") with 45. lia.
Qed.

Lemma byte_high_notDash (b : ascii) : 128 <= utf8.byte b -> notDash b = true.
Proof.
  intros Hb. unfold notDash. apply negb_true_iff, Ascii.eqb_neq. intros ->.
  change (utf8.byte "-") with 45 in Hb. lia.
Qed.

(** The rune that starts with a byte other than a dash is not a dash. *)
Lemma notRune_head (y : ascii) (s : string) :
  notDash y = true ->
  notRune "-" (utf8.DecodeRuneInString (String y s)).1 = true.
Proof.
  intros Hy. destruct (Z.lt_ge_cases (utf8.byte y) 128) as [Hlo | Hhi].
  - rewrite (Decode_ascii y s Hlo). simpl. now rewrite notRune_byte.
  - destruct (Decode_high y s Hhi) as (r & w & b & rest & -> & Hr & _).
    simpl. now apply notRune_high.
Qed.

(** * The matcher *)
Section MatcherFacts.

Context {A : Type}.
Implicit Types (k : string -> option A) (p : Z -> bool).

Lemma lit_k_append (l s : string) k : regexp.lit_k l (l +:+ s) k = k s.
Proof.
  induction l as [|a l IH]; simpl; [reflexivity |].
  now rewrite Ascii.eqb_refl.
Qed.

Lemma lit_k_none (l s : string) k :
  strings.HasPrefix s l = false -> regexp.lit_k l s k = None.
Proof.
  revert s. induction l as [|a l IH]; intros s; simpl; [discriminate |].
  destruct s as [|c s]; [reflexivity |].
  destruct (Ascii.eqb c a); [apply IH | reflexivity].
Qed.

(** A star followed by a continuation that fails on every suffix
    fails. *)
Lemma star_k_none p k (q : string -> bool) (s : string) (skip : nat) :
  (forall u, q u = true -> k u = None) ->
  all_tails q s = true ->
  regexp.star_k p skip s k = None.
Proof.
  intros Hq. revert skip. induction s as [|c s IH]; intros skip Hs.
  - simpl. apply Hq. simpl in Hs. now apply andb_true_iff in Hs as [Hs _].
  - simpl in Hs. apply andb_true_iff in Hs as [Hc Hs].
    cbn [regexp.star_k]. destruct skip as [|j]; [| now apply IH].
    destruct (utf8.DecodeRuneInString (String c s)) as [r w].
    rewrite (IH _ Hs). destruct (p r); now apply Hq.
Qed.

(** Greedy: a star that can run over the ASCII text [w] and whose
    continuation succeeds right after [w], and nowhere further right,
    stops there. *)
Lemma star_k_prefix (p8 : ascii -> bool) k (w s : string) (g : A) :
  (forall c, p8 c = true -> utf8.byte c < 128) ->
  strings.all p8 w = true ->
  k s = Some g ->
  (forall x s1 skip, s = String x s1 ->
                     regexp.star_k (asciiClass p8) skip s1 k = None) ->
  regexp.star_k (asciiClass p8) 0 (w +:+ s) k = Some g.
Proof.
  intros Hascii Hw Hk Hnone. induction w as [|c w IH].
  - cbn [String.append]. destruct s as [|x s1]; [exact Hk |].
    cbn [regexp.star_k].
    destruct (utf8.DecodeRuneInString (String x s1)) as [r wd].
    rewrite (Hnone x s1 _ eq_refl). now destruct (asciiClass p8 r).
  - simpl in Hw. apply andb_true_iff in Hw as [Hc Hw].
    cbn [String.append regexp.star_k].
    rewrite (Decode_ascii c _ (Hascii c Hc)).
    rewrite (asciiClass_byte p8 c (Hascii c Hc)), Hc. cbn [Nat.pred].
    now rewrite (IH Hw).
Qed.

End MatcherFacts.

(** * Dashes *)

Lemma notDash_dash : notDash "-" = false.
Proof. reflexivity. Qed.

Lemma tr_cons_dash (s : string) :
  tr (String "-" s) = String "-" (String "-" (tr s)).
Proof. reflexivity. Qed.

Lemma tr_cons_other (c : ascii) (s : string) :
  notDash c = true -> tr (String c s) = String c (tr s).
Proof.
  unfold notDash, tr. simpl. intros Hc.
  apply negb_true_iff in Hc. now rewrite Hc.
Qed.

Lemma notDash_cases (c : ascii) : c = "-"%char \/ notDash c = true.
Proof.
  unfold notDash. destruct (Ascii.eqb_spec c "-"); [now left | now right].
Qed.

Lemma lone_dash (s : string) : lone (String "-" s) = false.
Proof.
  destruct s as [|d [|y s]]; try reflexivity.
  - now destruct d as [[] [] [] [] [] [] [] []].
  - now destruct d as [[] [] [] [] [] [] [] []].
Qed.

Lemma lone_dash_dash (x : ascii) (s : string) :
  lone (String x (String "-" (String "-" s))) = false.
Proof. simpl. now rewrite andb_false_r. Qed.

Lemma lone_other (x d : ascii) (s : string) :
  notDash d = true -> lone (String x (String d s)) = false.
Proof.
  unfold notDash. intros Hd. apply negb_true_iff, Ascii.eqb_neq in Hd.
  destruct d as [[] [] [] [] [] [] [] []]; try reflexivity.
  now contradiction Hd.
Qed.

Lemma lone_short (x : ascii) : lone (String x "") = false.
Proof. reflexivity. Qed.

(** Escaping doubles every dash, so no dash of [tr n] stands alone
    between two other characters. *)
Lemma tr_no_lone (n : string) :
  all_tails (fun u => negb (lone u)) (tr n) = true.
Proof.
  induction n as [|c n IH]; [reflexivity |].
  destruct (notDash_cases c) as [-> | Hc].
  - rewrite tr_cons_dash.
    change (negb (lone (String "-" (String "-" (tr n))))
            && (negb (lone (String "-" (tr n)))
                && all_tails (fun u => negb (lone u)) (tr n)) = true).
    now rewrite !lone_dash, IH.
  - rewrite (tr_cons_other c n Hc).
    change (negb (lone (String c (tr n)))
            && all_tails (fun u => negb (lone u)) (tr n) = true).
    rewrite IH, andb_true_r. apply negb_true_iff.
    destruct n as [|d n]; [reflexivity |].
    destruct (notDash_cases d) as [-> | Hd].
    + rewrite tr_cons_dash. apply lone_dash_dash.
    + rewrite (tr_cons_other d n Hd). now apply lone_other.
Qed.

(** * [devMapperRE] *)

Lemma match_here_devMapper (T : string) :
  regexp.match_here devMapperRE ("/dev/mapper/" +:+ T)
  = regexp.star_k (asciiClass vgClass) 0 T (afterStar T).
Proof.
  unfold regexp.match_here, devMapperRE.
  cbn [regexp.pre regexp.grp regexp.post].
  cbn [regexp.match_k]. rewrite lit_k_append. reflexivity.
Qed.

Lemma all_tails_head (q : string -> bool) (s : string) :
  all_tails q s = true -> q s = true.
Proof. destruct s; simpl; intros Hs; now apply andb_true_iff in Hs. Qed.

Lemma all_tails_drop (q : string -> bool) (n : nat) (s : string) :
  all_tails q s = true -> all_tails q (strings.drop n s) = true.
Proof.
  revert s. induction n as [|n IH]; intros s Hs; [now destruct s |].
  destruct s as [|c s]; [exact Hs |]. simpl in Hs.
  apply andb_true_iff in Hs as [_ Hs]. now apply IH.
Qed.

Lemma all_tails_twice (q : string -> bool) (s : string) :
  all_tails q s = true -> all_tails (all_tails q) s = true.
Proof.
  induction s as [|c s IH]; intros Hs.
  - simpl in *. now rewrite Hs.
  - change (all_tails q (String c s) && all_tails (all_tails q) s = true).
    rewrite Hs. simpl in Hs. apply andb_true_iff in Hs as [_ Hs].
    now rewrite IH.
Qed.

(** The tail of the pattern, the single dash and the character after
    it, fails on a text that does not start with a dash and a character
    other than a dash. *)
Lemma post_none {A} (s : string) (k : string -> option A) :
  (forall y u, s = String "-" (String y u) -> notDash y = false) ->
  regexp.match_k (regexp.post devMapperRE) s k = None.
Proof.
  intros Hs. unfold devMapperRE. cbn [regexp.post regexp.match_k].
  destruct s as [|d s]; [reflexivity |]. cbn [regexp.lit_k].
  destruct (Ascii.eqb_spec d "-") as [-> | Hd]; [| reflexivity].
  destruct s as [|y u]; [reflexivity |].
  specialize (Hs y u eq_refl). unfold notDash in Hs.
  apply negb_false_iff, Ascii.eqb_eq in Hs. subst y.
  rewrite (Decode_ascii "-" u) by (vm_compute; reflexivity).
  reflexivity.
Qed.

Lemma afterStar_none (T u : string) :
  all_tails (fun v => negb (lone v)) u = true -> afterStar T u = None.
Proof.
  intros Hu. unfold afterStar. cbn [regexp.match_k].
  destruct u as [|x u]; [reflexivity |].
  destruct (Z.lt_ge_cases (utf8.byte x) 128) as [Hlo | Hhi].
  - rewrite (Decode_ascii x u Hlo), notRune_byte.
    destruct (notDash x) eqn:Hx; [| reflexivity].
    cbn [strings.drop]. apply post_none. intros y u' ->.
    apply all_tails_head, negb_true_iff in Hu. simpl in Hu.
    now rewrite Hx in Hu.
  - destruct (Decode_high x u Hhi)
      as (r & w & b & rest & -> & Hr & Hlast & -> & Hb).
    rewrite (notRune_high r Hr). apply post_none. intros y u' Hrest.
    apply (all_tails_drop _ (Nat.pred w)), all_tails_head in Hu.
    rewrite Hlast, Hrest in Hu. apply negb_true_iff in Hu. simpl in Hu.
    now rewrite (byte_high_notDash b Hb) in Hu.
Qed.

Lemma afterStar_some (T : string) (x y : ascii) (r : string) :
  utf8.byte x < 128 -> notDash x = true -> notDash y = true ->
  afterStar T (String x (String "-" (String y r)))
  = Some (strings.take (String.length T - S (S (String.length r))) T).
Proof.
  intros Hlo Hx Hy. unfold afterStar, devMapperRE.
  cbn [regexp.post regexp.match_k].
  rewrite (Decode_ascii x _ Hlo), notRune_byte, Hx.
  cbn [strings.drop regexp.lit_k]. rewrite Ascii.eqb_refl.
  pose proof (notRune_head y r Hy) as Hn.
  destruct (utf8.DecodeRuneInString (String y r)) as [r0 w].
  simpl in Hn. now rewrite Hn.
Qed.

Lemma vgClass_dash : vgClass "-" = true.
Proof. reflexivity. Qed.

(** The escaped name of a volume group that does not end in a dash:
    characters of the class, the last of them not a dash. *)
Lemma tr_snoc (vg : string) :
  vg <> "" ->
  strings.all vgClass vg = true ->
  strings.last vg <> Some "-"%char ->
  exists w x, tr vg = w +:+ String x ""
              /\ strings.all vgClass w = true
              /\ vgClass x = true /\ notDash x = true.
Proof.
  induction vg as [|c vg IH]; [contradiction |]. intros _ Hall Hlast.
  simpl in Hall. apply andb_true_iff in Hall as [Hc Hall].
  destruct vg as [|d vg].
  - exists "", c. destruct (notDash_cases c) as [-> | Hn];
      [now contradiction Hlast |].
    rewrite (tr_cons_other c "" Hn). auto.
  - destruct IH as (w & x & Htr & Hw & Hvx & Hx);
      [discriminate | exact Hall | exact Hlast |].
    destruct (notDash_cases c) as [-> | Hn].
    + exists (String "-" (String "-" w)), x. rewrite tr_cons_dash, Htr.
      simpl. rewrite Hw. auto.
    + exists (String c w), x. rewrite (tr_cons_other c _ Hn), Htr.
      simpl. rewrite Hc, Hw. auto.
Qed.

Lemma FindAllStringSubmatch_here (r : regexp.re1) (s g : string) :
  regexp.match_here r s = Some g ->
  regexp.FindAllStringSubmatch r s = Some g.
Proof.
  intros Hm. unfold regexp.FindAllStringSubmatch.
  destruct s; simpl; now rewrite Hm.
Qed.

(** On the device-mapper path of [vg] and [n], the group of
    [devMapperRE] is the escaped name of [vg]. *)
Lemma FindAllStringSubmatch_devMapperPath (vg n : string) (y : ascii) :
  vg <> "" ->
  strings.all vgClass vg = true ->
  strings.last vg <> Some "-"%char ->
  strings.head n = Some y ->
  notDash y = true ->
  regexp.FindAllStringSubmatch devMapperRE (devMapperPath vg n)
  = Some (tr vg).
Proof.
  intros Hne Hall Hlast Hhead Hy.
  destruct (tr_snoc vg Hne Hall Hlast) as (w & x & Htr & Hw & Hvx & Hx).
  destruct n as [|y' n]; [discriminate |]. injection Hhead as ->.
  apply FindAllStringSubmatch_here. unfold devMapperPath.
  rewrite match_here_devMapper, (tr_cons_other y n Hy), Htr.
  rewrite append_assoc. cbn [String.append].
  set (T := w +:+ _).
  assert (HT : strings.take (String.length T - S (S (String.length (tr n)))) T
               = w +:+ String x "").
  { assert (HTeq : T = (w +:+ String x "")
                        +:+ String "-" (String y (tr n)))
      by (subst T; now rewrite append_assoc).
    replace (String.length T - S (S (String.length (tr n))))%nat
      with (String.length (w +:+ String x ""))
      by (rewrite HTeq, !length_append; simpl; lia).
    rewrite HTeq. apply take_append. }
  rewrite <- HT. apply star_k_prefix.
  - exact vgClass_ascii.
  - exact Hw.
  - apply afterStar_some; [now apply vgClass_ascii | exact Hx | exact Hy].
  - intros x' s1 skip [= <- <-].
    apply (star_k_none (asciiClass vgClass) (afterStar T)
             (all_tails (fun u => negb (lone u)))).
    + intros u Hu. now apply afterStar_none.
    + apply all_tails_twice. rewrite <- (tr_cons_other y n Hy).
      change (negb (lone (String "-" (tr (String y n))))
              && all_tails (fun u => negb (lone u)) (tr (String y n)) = true).
      now rewrite lone_dash, tr_no_lone.
Qed.

(** * [extractVgName] *)

Lemma checkVgName_nonempty (vgName : string) :
  vgName <> "" -> checkVgName vgName = (vgName, None).
Proof.
  intros Hne. unfold checkVgName.
  destruct (strings.len vgName =? 0) eqn:Hl; [| reflexivity].
  now apply len_zero in Hl.
Qed.

Lemma tr_nonempty (s : string) : s <> "" -> tr s <> "".
Proof.
  destruct s as [|c s]; [contradiction |]. intros _.
  destruct (notDash_cases c) as [-> | Hc].
  - now rewrite tr_cons_dash.
  - now rewrite (tr_cons_other c s Hc).
Qed.

Lemma tr_lacks (s : string) : lacks "-" s = true -> tr s = s.
Proof.
  induction s as [|c s IH]; [reflexivity |]. intros Hs.
  apply lacks_cons in Hs as [Hc Hs].
  rewrite tr_cons_other, (IH Hs); [reflexivity |].
  unfold notDash. now apply negb_true_iff, Ascii.eqb_neq.
Qed.

Lemma tr_length (s : string) :
  (String.length s <= String.length (tr s))%nat
  /\ (lacks "-" s = false -> (String.length s < String.length (tr s))%nat).
Proof.
  induction s as [|c s [IHle IHlt]]; [split; [reflexivity | discriminate] |].
  destruct (notDash_cases c) as [-> | Hc].
  - rewrite tr_cons_dash. simpl. split; [lia | intros _; lia].
  - rewrite (tr_cons_other c s Hc). simpl. split; [lia |].
    unfold lacks. simpl. fold (lacks "-" s). unfold notDash in Hc.
    rewrite Hc. simpl. intros Hs. apply IHlt in Hs. lia.
Qed.

Lemma tr_changes (s : string) : lacks "-" s = false -> tr s <> s.
Proof.
  intros Hs Heq. apply (proj2 (tr_length s)) in Hs. rewrite Heq in Hs. lia.
Qed.

(** The device-mapper form: the parser succeeds, with the escaped name. *)
Lemma extractVgName_devMapperPath (vg n : string) (y : ascii) :
  vg <> "" ->
  strings.all vgClass vg = true ->
  strings.last vg <> Some "-"%char ->
  strings.head n = Some y ->
  notDash y = true ->
  extractVgName (devMapperPath vg n) = Return (tr vg, None).
Proof.
  intros Hne Hall Hlast Hhead Hy. unfold extractVgName.
  rewrite (FindAllStringSubmatch_devMapperPath vg n y) by assumption.
  unfold devMapperPath. simpl.
  now rewrite (checkVgName_nonempty (tr vg)) by now apply tr_nonempty.
Qed.

(** The form vgname/lvname. *)
Lemma extractVgName_vg_lv (vg lv : string) :
  vg <> "" -> lacks "/" vg = true -> lacks "/" lv = true ->
  extractVgName (vg +:+ "/" +:+ lv) = Return (vg, None).
Proof.
  intros Hne Hvg Hlv. unfold extractVgName.
  destruct vg as [|c vg]; [contradiction |].
  pose proof Hvg as Hc. apply lacks_cons in Hc as [Hc _].
  apply Ascii.eqb_neq in Hc. simpl strings.HasPrefix. rewrite Hc. simpl negb.
  cbv iota.
  change (String c vg +:+ "/" +:+ lv) with (String c vg +:+ String "/" lv).
  rewrite (Split_append _ lv "/" Hvg), (Split_lacks lv "/" Hlv).
  now rewrite checkVgName_nonempty.
Qed.

(** [devMapperRE] needs its literal: a text with fewer than three
    slashes has no match. *)
Lemma findFrom_few_slashes (u : string) (skip : nat) :
  (count "/" u < 3)%nat ->
  regexp.findFrom devMapperRE skip u = None.
Proof.
  assert (Hhere : forall v, (count "/" v < 3)%nat ->
            regexp.match_here devMapperRE v = None).
  { intros v Hv. unfold regexp.match_here, devMapperRE.
    cbn [regexp.pre regexp.match_k]. apply lit_k_none.
    destruct (strings.HasPrefix v "/dev/mapper/") eqn:Hp; [| reflexivity].
    apply HasPrefix_inv in Hp as [r ->]. rewrite count_append in Hv.
    simpl in Hv. lia. }
  revert skip. induction u as [|c u IH]; intros skip Hu;
    cbn [regexp.findFrom].
  - destruct skip; [now rewrite Hhere | reflexivity].
  - assert (Hu' : (count "/" u < 3)%nat)
      by (simpl in Hu; destruct (Ascii.eqb c "/"); lia).
    destruct skip as [|j]; [| now apply IH].
    rewrite (Hhere _ Hu). now apply IH.
Qed.

Lemma FindAllStringSubmatch_few_slashes (u : string) :
  (count "/" u < 3)%nat ->
  regexp.FindAllStringSubmatch devMapperRE u = None.
Proof. apply findFrom_few_slashes. Qed.

Lemma FindAllStringSubmatch_dev_vg_lv (vg lv : string) :
  vg <> "mapper" -> lacks "/" vg = true -> lacks "/" lv = true ->
  regexp.FindAllStringSubmatch devMapperRE ("/dev/" +:+ vg +:+ "/" +:+ lv)
  = None.
Proof.
  intros Hne Hvg Hlv.
  change ("/dev/" +:+ vg +:+ "/" +:+ lv)
    with (String "/" ("dev/" +:+ vg +:+ "/" +:+ lv)).
  unfold regexp.FindAllStringSubmatch. cbn [regexp.findFrom].
  assert (Hhere : regexp.match_here devMapperRE
                    (String "/" ("dev/" +:+ vg +:+ "/" +:+ lv)) = None).
  { unfold regexp.match_here, devMapperRE. cbn [regexp.pre regexp.match_k].
    apply lit_k_none.
    destruct (strings.HasPrefix _ _) eqn:Hp; [| reflexivity].
    apply HasPrefix_inv in Hp as [r Hr]. simpl in Hr.
    injection Hr as Hr. contradiction Hne.
    apply (append_first_sep "/" vg "mapper" lv r Hvg eq_refl Hr). }
  rewrite Hhere. apply findFrom_few_slashes.
  rewrite !count_append, (count_lacks _ _ Hvg), (count_lacks _ _ Hlv).
  simpl. lia.
Qed.

(** The form /dev/vgname/lvname. *)
Lemma extractVgName_dev_vg_lv (vg lv : string) :
  vg <> "" -> vg <> "mapper" ->
  lacks "/" vg = true -> lacks "/" lv = true ->
  extractVgName ("/dev/" +:+ vg +:+ "/" +:+ lv) = Return (vg, None).
Proof.
  intros Hne Hmap Hvg Hlv. unfold extractVgName.
  rewrite (FindAllStringSubmatch_dev_vg_lv vg lv Hmap Hvg Hlv).
  change (strings.HasPrefix ("/dev/" +:+ vg +:+ "/" +:+ lv) "/") with true.
  change (strings.HasPrefix ("/dev/" +:+ vg +:+ "/" +:+ lv) "/dev/") with true.
  cbv iota. simpl negb. cbv iota.
  replace ("/dev/" +:+ vg +:+ "/" +:+ lv)
    with (("/dev/" +:+ vg) +:+ String "/" lv) by now rewrite append_assoc.
  rewrite (LastIndex_append "/" _ lv Hlv).
  unfold strings.slice, strings.len. rewrite !length_append.
  replace ((0 <=? Z.of_nat (String.length "/dev/"))
           && (Z.of_nat (String.length "/dev/")
               <=? Z.of_nat (String.length "/dev/" + String.length vg))
           && (Z.of_nat (String.length "/dev/" + String.length vg)
               <=? Z.of_nat (String.length "/dev/" + String.length vg
                             + String.length (String "/" lv))))
    with true by (symmetry; rewrite !andb_true_iff, !Z.leb_le; lia).
  replace (Z.to_nat (Z.of_nat (String.length "/dev/" + String.length vg)
                     - Z.of_nat (String.length "/dev/")))
    with (String.length vg) by lia.
  rewrite Nat2Z.id, append_assoc, drop_append, take_append. simpl.
  now rewrite checkVgName_nonempty.
Qed.

(** C7.  The round trip through the device-mapper path is off by the
    escaping: for a volume group [vg] (characters of the class, not
    ending in a dash) and a container name [n] (not starting with a dash)
    the parser returns [tr vg], the escaped name.  That is [vg] itself
    when [vg] has no dash, and another string when it has one. *)
Theorem devMapperPath_parses_to_escaped_name (vg n : string) (y : ascii) :
  vg <> "" ->
  strings.all vgClass vg = true ->
  strings.last vg <> Some "-"%char ->
  strings.head n = Some y ->
  notDash y = true ->
  extractVgName (devMapperPath vg n) = Return (tr vg, None)
  /\ (lacks "-" vg = true -> tr vg = vg)
  /\ (lacks "-" vg = false -> tr vg <> vg).
Proof.
  intros Hne Hall Hlast Hhead Hy.
  split; [now apply (extractVgName_devMapperPath vg n y) |].
  split; [apply tr_lacks | apply tr_changes].
Qed.

Lemma devMapperPath_parses_to_escaped_name_witness :
  devMapperPath "my-vg" "web-4d2f" = "/dev/mapper/my--vg-web--4d2f"
  /\ extractVgName "/dev/mapper/my--vg-web--4d2f" = Return ("my--vg", None)
  /\ "my--vg" <> "my-vg".
Proof.
  split; [reflexivity |].
  destruct (devMapperPath_parses_to_escaped_name "my-vg" "web-4d2f" "w")
    as (Hparse & _ & Hdiff);
    [discriminate | reflexivity | discriminate | reflexivity | reflexivity |].
  split; [exact Hparse | exact (Hdiff eq_refl)].
Defined.

(** C8.  The parser on the three forms of a base reference.  The forms
    vgname/lvname and /dev/vgname/lvname give back the volume group.  On
    the device-mapper form the parser succeeds too, but its answer is the
    text as it stands in the path, dashes still doubled: [tr vg] and not
    [vg]; for the volume group my-vg it answers my--vg. *)
Theorem extractVgName_three_forms :
  (forall vg lv : string,
      vg <> "" -> lacks "/" vg = true -> lacks "/" lv = true ->
      extractVgName (vg +:+ "/" +:+ lv) = Return (vg, None))
  /\ (forall vg lv : string,
        vg <> "" -> vg <> "mapper" ->
        lacks "/" vg = true -> lacks "/" lv = true ->
        extractVgName ("/dev/" +:+ vg +:+ "/" +:+ lv) = Return (vg, None))
  /\ (forall (vg lv : string) (y : ascii),
        vg <> "" -> strings.all vgClass vg = true ->
        strings.last vg <> Some "-"%char ->
        strings.head lv = Some y -> notDash y = true ->
        extractVgName ("/dev/mapper/" +:+ tr vg +:+ "-" +:+ tr lv)
        = Return (tr vg, None))
  /\ extractVgName "/dev/mapper/my--vg-base--1" = Return ("my--vg", None).
Proof.
  split; [exact extractVgName_vg_lv |].
  split; [exact extractVgName_dev_vg_lv |].
  split; [exact extractVgName_devMapperPath |].
  vm_compute. reflexivity.
Qed.

Lemma extractVgName_three_forms_witness :
  extractVgName "vg0/base" = Return ("vg0", None)
  /\ extractVgName "/dev/vg0/base" = Return ("vg0", None).
Proof.
  destruct extractVgName_three_forms as (Hplain & Hdev & _ & _).
  split.
  - apply (Hplain "vg0" "base"); [discriminate | reflexivity | reflexivity].
  - apply (Hdev "vg0" "base");
      [discriminate | discriminate | reflexivity | reflexivity].
Defined.

(** * The handle: Kill and the monitor *)

(** Unfold the monad and split on every answer of the runtime. *)
Ltac run_monad :=
  unfold Part000.Kill, Part000.run, Part000.cleanupContainer,
    LxcGo.Kill, LxcGo.run, LxcGo.stopIfRunning,
    defer, bind, ret, callRunning, callShutdown, callStop, callWait,
    callDestroy, closeDoneCh, closeWaitCh, sendWaitCh, chan_close, chan_send,
    result, state, trace in *.

Ltac split_runtime :=
  repeat match goal with
    | |- context [Running ?c] => destruct (Running c) eqn:?; simpl
    | |- context [Shutdown ?t ?c] =>
        destruct (Shutdown t c) as [[?|] ?] eqn:?; simpl
    | |- context [Stop ?c] => destruct (Stop c) as [[?|] ?] eqn:?; simpl
    | |- context [Wait ?c] => destruct (Wait c) as [? ?] eqn:?; simpl
    | |- context [Destroy ?c] => destruct (Destroy c) as [[?|] ?] eqn:?; simpl
    | |- context [closed (doneCh ?h)] =>
        is_var h; destruct (closed (doneCh h)) eqn:?; simpl
    | |- context [closed (waitCh ?h)] =>
        is_var h; destruct (closed (waitCh h)) eqn:?; simpl
    end.

Section HandleFacts.

Context {C CS : Type} `{Runtime C}.
Implicit Types (h : lxcDriverHandle C CS) (sched : list wakeup).

(** What the select loop does on a channel [waitCh] that has room: one
    send of the published result, or nothing while it is parked. *)
Lemma monitor_fresh sched h :
  waitCh h = make 1 ->
  monitor sched h =
    match published sched with
    | Some r =>
        (Return tt,
         set_waitCh {| buf := [r]; cap := 1; closed := false |} h,
         [SendWaitCh r])
    | None => (Block, h, [])
    end.
Proof.
  intros Hch. induction sched as [|w sched IH]; simpl; [reflexivity |].
  destruct w as [[e0|] [e1|]|]; try exact IH;
    unfold sendWaitCh, chan_send; rewrite Hch; reflexivity.
Qed.

Lemma published_terminating sched :
  Exists (fun w => terminating w = true) sched ->
  exists r, published sched = Some r.
Proof.
  induction 1 as [w sched Hw | w sched _ IH].
  - destruct w as [[e|] [e'|]|]; simpl in *; try discriminate; eauto.
  - destruct w as [[e|] [e'|]|]; simpl; eauto.
Qed.

(** The loop itself never touches the container. *)
Lemma monitor_trace sched h :
  forall e, In e (trace (monitor sched h)) -> onWaitCh e = true.
Proof.
  intros ev. induction sched as [|w sched IH]; simpl; [contradiction |].
  destruct w as [[e0|] [e1|]|]; try exact IH;
    unfold trace, sendWaitCh; simpl;
    destruct (chan_send _ _); simpl; intros He;
    try contradiction; destruct He as [<- | []]; reflexivity.
Qed.

Lemma Kill_events h :
  forall ev, In ev (trace (Part000.Kill h)) -> killEvent ev = true.
Proof.
  run_monad. simpl. split_runtime; intros ev He; simpl in He;
    repeat (destruct He as [<- | He]; [reflexivity |]); contradiction.
Qed.

Lemma Kill_closes h :
  closed (doneCh (state (Part000.Kill h))) = true.
Proof. run_monad. simpl. split_runtime; assumption || reflexivity. Qed.

Lemma Kill_closed_panics h :
  closed (doneCh h) = true ->
  result (Part000.Kill h) = Panic "close of closed channel".
Proof.
  intros Hc. run_monad. simpl.
  destruct (Running (container h)); simpl; [| now rewrite Hc].
  destruct (Shutdown _ _) as [[e|] c]; simpl; [| now rewrite Hc].
  destruct (Stop _) as [[e'|] c']; simpl; now rewrite Hc.
Qed.

Lemma Kill_open_returns h :
  closed (doneCh h) = false ->
  (exists err, result (Part000.Kill h) = Return err)
  /\ List.filter isCloseDoneCh (trace (Part000.Kill h)) = [CloseDoneCh].
Proof.
  intros Hc. run_monad. simpl.
  destruct (Running (container h)); simpl; [| rewrite Hc; simpl; eauto].
  destruct (Shutdown _ _) as [[e|] c]; simpl; [| rewrite Hc; simpl; eauto].
  destruct (Stop _) as [[e'|] c']; simpl; rewrite Hc; simpl; eauto.
Qed.

(** The monitor never touches [doneCh]: a [Kill] that comes after the
    monitor has gone finds the channel as it was, and closing it then is
    an ordinary close. *)
Lemma run_keeps_doneCh sched h :
  doneCh (state (Part000.run sched h)) = doneCh h.
Proof.
  assert (Hm : doneCh (state (monitor sched h)) = doneCh h).
  { induction sched as [|w sched IH]; [reflexivity |].
    destruct w as [[e0|] [e1|]|]; try exact IH;
      unfold state, monitor, sendWaitCh; destruct (chan_send _ _);
      reflexivity. }
  unfold Part000.run, defer, state in *.
  destruct (monitor sched h) as [[[a|msg|] h'] t]; simpl in *;
    try exact Hm;
    rewrite <- Hm; run_monad; simpl; split_runtime; reflexivity.
Qed.

Lemma Kill_after_monitor_exit sched h :
  closed (doneCh h) = false ->
  exists err, result (Part000.Kill (state (Part000.run sched h))) = Return err.
Proof.
  intros Hopen. apply Kill_open_returns. now rewrite run_keeps_doneCh.
Qed.

(** In lxc.go a [Kill] that returned nil has closed [doneCh]. *)
Lemma LxcGo_Kill_nil_closes h :
  result (LxcGo.Kill h) = Return None ->
  closed (doneCh (state (LxcGo.Kill h))) = true.
Proof.
  run_monad. simpl. split_runtime; intros Hr; try discriminate; reflexivity.
Qed.

(** On a closed [doneCh], [Kill] of lxc.go ends in an error or in a
    panic, never in nil. *)
Lemma LxcGo_Kill_closed h :
  closed (doneCh h) = true ->
  result (LxcGo.Kill h) <> Return None.
Proof.
  intros Hc. run_monad. simpl. split_runtime; discriminate.
Qed.

Lemma LxcGo_Kill_twice h :
  result (LxcGo.Kill h) = Return None ->
  result (LxcGo.Kill (state (LxcGo.Kill h))) <> Return None.
Proof.
  intros Hr. apply LxcGo_Kill_closed. now apply LxcGo_Kill_nil_closes.
Qed.

(** The teardown of part_000: two calls on the container, whatever
    they answer. *)
Lemma cleanupContainer_trace h :
  trace (Part000.cleanupContainer h) = [CallWait; CallDestroy]
  /\ (exists err, result (Part000.cleanupContainer h) = Return err)
  /\ waitCh (state (Part000.cleanupContainer h)) = waitCh h.
Proof. run_monad. simpl. split_runtime; eauto. Qed.

Lemma filter_none (p : event -> bool) (t : list event) :
  (forall ev, In ev t -> p ev = false) -> List.filter p t = [].
Proof.
  induction t as [|x t IH]; simpl; intros Hall; [reflexivity |].
  rewrite (Hall x (or_introl eq_refl)). apply IH. intros ev Hev.
  apply Hall. now right.
Qed.

Lemma monitor_no_destroy sched h :
  List.filter isDestroy (trace (monitor sched h)) = [].
Proof.
  apply filter_none. intros ev Hev. apply monitor_trace in Hev.
  now destruct ev.
Qed.

(** The monitor of lxc.go calls nothing on the container. *)
Lemma LxcGo_run_no_destroy sched h :
  List.filter isDestroy (trace (LxcGo.run sched h)) = [].
Proof.
  pose proof (monitor_no_destroy sched h) as Hm.
  unfold LxcGo.run, defer, trace in *.
  destruct (monitor sched h) as [[[a|msg|] h'] t]; simpl in *;
    try exact Hm;
    unfold closeWaitCh; destruct (chan_close (waitCh h')); simpl;
    rewrite List.filter_app, Hm; reflexivity.
Qed.

Lemma LxcGo_run_events sched h :
  forall ev, In ev (trace (LxcGo.run sched h)) -> onWaitCh ev = true.
Proof.
  pose proof (monitor_trace sched h) as Hm.
  unfold LxcGo.run, defer, trace in *.
  destruct (monitor sched h) as [[[a|msg|] h'] t]; simpl in *;
    try exact Hm.
  all: unfold closeWaitCh; destruct (chan_close (waitCh h')); simpl;
    intros ev Hev; rewrite ?app_nil_r in Hev; try (now apply Hm);
    apply in_app_or in Hev as [Hev | [<- | []]];
    [now apply Hm | reflexivity].
Qed.

(** The monitor of part_000 that leaves its loop destroys the
    container once. *)
Lemma Part000_run_destroys_once sched h :
  result (monitor sched h) = Return tt ->
  List.filter isDestroy (trace (Part000.run sched h)) = [CallDestroy].
Proof.
  pose proof (monitor_no_destroy sched h) as Hm.
  unfold Part000.run, defer, trace, result in *.
  destruct (monitor sched h) as [[[a|msg|] h'] t]; simpl in *;
    try discriminate.
  intros _.
  destruct (cleanupContainer_trace h') as (Ht & [err Hr] & Hw).
  unfold bind, trace, result, state in *.
  destruct (Part000.cleanupContainer h') as [[r h''] t']. simpl in *.
  subst r t'. unfold closeWaitCh.
  destruct (chan_close (waitCh h'')); simpl;
    rewrite List.filter_app, Hm; reflexivity.
Qed.

Lemma LxcGo_Kill_destroys h :
  result (LxcGo.stopIfRunning h) = Return None ->
  List.filter isDestroy (trace (LxcGo.Kill h)) = [CallDestroy].
Proof.
  run_monad. simpl. split_runtime; intros Hr; try discriminate; reflexivity.
Qed.

Lemma Kill_no_destroy h :
  List.filter isDestroy (trace (Part000.Kill h)) = [].
Proof.
  apply filter_none. intros ev Hev. apply Kill_events in Hev.
  now destruct ev.
Qed.

(** [Kill] of lxc.go closes [doneCh] exactly when its [Destroy]
    answered nil. *)
Lemma LxcGo_Kill_closes_iff h :
  result (LxcGo.stopIfRunning h) = Return None ->
  closed (doneCh h) = false ->
  closed (doneCh (state (LxcGo.Kill h))) = true
  <-> (Destroy (container (state (LxcGo.stopIfRunning h)))).1 = None.
Proof.
  run_monad. simpl. split_runtime; intros Hr Hopen; try discriminate;
    simpl; rewrite ?Hopen; simpl;
    repeat match goal with
      | H : Destroy _ = _ |- _ => rewrite H
      end; simpl; split; congruence.
Qed.

(** A [Kill] of lxc.go that could not stop the container returns that
    error: it neither destroys the container nor closes [doneCh]. *)
Lemma LxcGo_Kill_early h err :
  result (LxcGo.stopIfRunning h) = Return (Some err) ->
  result (LxcGo.Kill h) = Return (Some err)
  /\ List.filter isDestroy (trace (LxcGo.Kill h)) = []
  /\ doneCh (state (LxcGo.Kill h)) = doneCh h.
Proof.
  run_monad. simpl. split_runtime; intros Hr; try discriminate;
    injection Hr as <-; auto.
Qed.

End HandleFacts.

(** C1, as amended.  In part_000 [Kill] never calls [Destroy]: it calls
    [Running], [Shutdown] and [Stop] and closes [doneCh]; the monitor
    that leaves its loop calls [Destroy] once, in its deferred teardown.
    In lxc.go it is the other way round: the monitor calls nothing on the
    container (it only sends on [waitCh] and closes it), and a [Kill]
    that got past stopping the container calls [Destroy] itself and, on
    a [doneCh] still open, closes it exactly when that [Destroy] answered
    nil;
    a [Kill] that could not stop the container returns the error without
    destroying the container or closing the channel. *)
Theorem destroy_owner_by_version {C CS : Type} `{Runtime C}
    (h : lxcDriverHandle C CS) (sched : list wakeup) :
  (forall ev, In ev (trace (Part000.Kill h)) -> killEvent ev = true)
  /\ List.filter isDestroy (trace (Part000.Kill h)) = []
  /\ (result (monitor sched h) = Return tt ->
      List.filter isDestroy (trace (Part000.run sched h)) = [CallDestroy])
  /\ (forall ev, In ev (trace (LxcGo.run sched h)) -> onWaitCh ev = true)
  /\ List.filter isDestroy (trace (LxcGo.run sched h)) = []
  /\ (result (LxcGo.stopIfRunning h) = Return None ->
      List.filter isDestroy (trace (LxcGo.Kill h)) = [CallDestroy])
  /\ (result (LxcGo.stopIfRunning h) = Return None ->
      closed (doneCh h) = false ->
      (closed (doneCh (state (LxcGo.Kill h))) = true
       <-> (Destroy (container (state (LxcGo.stopIfRunning h)))).1 = None))
  /\ (forall err,
        result (LxcGo.stopIfRunning h) = Return (Some err) ->
        result (LxcGo.Kill h) = Return (Some err)
        /\ List.filter isDestroy (trace (LxcGo.Kill h)) = []
        /\ doneCh (state (LxcGo.Kill h)) = doneCh h).
Proof.
  split; [apply Kill_events |].
  split; [apply Kill_no_destroy |].
  split; [apply Part000_run_destroys_once |].
  split; [apply LxcGo_run_events |].
  split; [apply LxcGo_run_no_destroy |].
  split; [apply LxcGo_Kill_destroys |].
  split; [apply LxcGo_Kill_closes_iff | apply LxcGo_Kill_early].
Qed.

Lemma destroy_owner_by_version_witness :
  result (monitor [TimerC None (Some ErrSignal)] (fakeHandle liveContainer))
  = Return tt
  /\ List.filter isDestroy
       (trace (Part000.Kill (fakeHandle liveContainer))) = []
  /\ List.filter isDestroy
       (trace (Part000.run [TimerC None (Some ErrSignal)]
                 (fakeHandle liveContainer)))
     = [CallDestroy]
  /\ List.filter isDestroy (trace (LxcGo.Kill (fakeHandle liveContainer)))
     = [CallDestroy]
  /\ closed (doneCh (state (LxcGo.Kill (fakeHandle liveContainer)))) = true.
Proof.
  split; [reflexivity |].
  destruct (destroy_owner_by_version (fakeHandle liveContainer)
              [TimerC None (Some ErrSignal)])
    as (_ & Hk & Hr & _ & _ & Hl & Hc & _).
  split; [exact Hk |]. split; [exact (Hr eq_refl) |].
  split; [exact (Hl eq_refl) |].
  exact (proj2 (Hc eq_refl eq_refl) eq_refl).
Defined.

(** The claim C1 as it stands fails on lxc.go: there [Kill] destroys the
    container. *)
Lemma LxcGo_Kill_calls_Destroy :
  In CallDestroy (trace (LxcGo.Kill (fakeHandle liveContainer))).
Proof. vm_compute. auto. Qed.

(** C2.  A second [Kill] on the same handle is not a no-op: the first
    call returns and closes [doneCh]; the second one runs the deferred
    [close(h.doneCh)] again and panics. *)
Theorem Kill_twice_panics {C CS : Type} `{Runtime C}
    (h : lxcDriverHandle C CS) :
  closed (doneCh h) = false ->
  (exists err, result (Part000.Kill h) = Return err)
  /\ List.filter isCloseDoneCh (trace (Part000.Kill h)) = [CloseDoneCh]
  /\ result (Part000.Kill (state (Part000.Kill h)))
     = Panic "close of closed channel".
Proof.
  intros Hopen. destruct (Kill_open_returns h Hopen) as [Hret Hclose].
  split; [exact Hret |]. split; [exact Hclose |].
  apply Kill_closed_panics, Kill_closes.
Qed.

Lemma Kill_twice_panics_witness :
  result (Part000.Kill (fakeHandle liveContainer)) = Return None
  /\ result (Part000.Kill (state (Part000.Kill (fakeHandle liveContainer))))
     = Panic "close of closed channel".
Proof.
  split; [reflexivity |].
  exact (proj2 (proj2 (Kill_twice_panics (fakeHandle liveContainer) eq_refl))).
Defined.

(** C3.  A monitor whose schedule makes it leave the loop sends one
    value on [waitCh] (the result that its first terminating wakeup
    decides) and closes [waitCh] once, after the send.  In part_000 the
    teardown ([Wait], then [Destroy]) runs between the two, so the close
    comes after it; the monitor returns, and the channel ends closed with
    that one value queued.  The monitor of lxc.go has no teardown: there
    the close follows the send directly.  The trigger (timer or [doneCh])
    changes the value only. *)
Theorem run_publishes_once_then_closes {C CS : Type} `{Runtime C}
    (h : lxcDriverHandle C CS) (sched : list wakeup) :
  waitCh h = make 1 ->
  Exists (fun w => terminating w = true) sched ->
  exists r,
    published sched = Some r
    /\ result (Part000.run sched h) = Return tt
    /\ trace (Part000.run sched h)
       = [SendWaitCh r; CallWait; CallDestroy; CloseWaitCh]
    /\ waitCh (state (Part000.run sched h))
       = {| buf := [r]; cap := 1; closed := true |}
    /\ trace (LxcGo.run sched h) = [SendWaitCh r; CloseWaitCh].
Proof.
  intros Hch Hterm. destruct (published_terminating sched Hterm) as [r Hr].
  exists r. split; [exact Hr |].
  unfold Part000.run, LxcGo.run, defer, result, trace, state.
  rewrite (monitor_fresh sched h Hch), Hr.
  set (h1 := set_waitCh _ h).
  destruct (cleanupContainer_trace h1) as (Ht & [err He] & Hw).
  unfold bind, trace, result, state in *.
  destruct (Part000.cleanupContainer h1) as [[res h2] t2]. simpl in *.
  subst res t2. unfold closeWaitCh, chan_close. rewrite Hw. simpl.
  auto.
Qed.

Lemma run_publishes_once_then_closes_witness :
  exists r,
    published [TimerC None None; TimerC None (Some ErrSignal)] = Some r
    /\ trace (Part000.run [TimerC None None; TimerC None (Some ErrSignal)]
                (fakeHandle liveContainer))
       = [SendWaitCh r; CallWait; CallDestroy; CloseWaitCh].
Proof.
  destruct (run_publishes_once_then_closes (fakeHandle liveContainer)
              [TimerC None None; TimerC None (Some ErrSignal)] eq_refl)
    as (r & Hr & _ & Ht & _).
  - right. left. reflexivity.
  - exists r. split; [exact Hr | exact Ht].
Defined.

(** The claim C3 as it stands fails on lxc.go: when the timer finds the
    process gone, the monitor there sends and closes [waitCh] and no
    teardown has run. *)
Lemma LxcGo_run_closes_without_teardown :
  In CloseWaitCh
    (trace (LxcGo.run [TimerC None (Some ErrSignal)]
              (fakeHandle liveContainer)))
  /\ ~ In CallDestroy
        (trace (LxcGo.run [TimerC None (Some ErrSignal)]
                  (fakeHandle liveContainer))).
Proof.
  vm_compute. split; [auto |]. intros [H | [H | []]]; discriminate.
Qed.

(** * Provisioning *)

Section StartFacts.

Context {C CS F : Type} `{CpuAccumulator CS F} (host : Host C).

Ltac enter Henter :=
  destruct Henter as (commonConfig & Hc & Hn & Hv & Hl & Hu & He & Hm);
  unfold Part000.Start, Part000.startWithCleanup, Part000.executeContainer,
    LxcGo.Start, LxcGo.executeContainer, rootfsDir, lvcreateArgs in *;
  rewrite Hc, Hn, Hv, Hl, Hu, He; simpl;
  unfold bind, emit, lift, ret, result, trace; simpl; rewrite Hm; simpl.

(** [executeContainer] of part_000 on a base reference too short to
    carry the tag: the slice expression panics. *)
Lemma Part000_Start_short executeConfig :
  entersClone host executeConfig ->
  strings.len (BaseRootFsPath executeConfig) < 4 ->
  Part000.Start (CS := CS) host tt
  = (Panic "slice bounds out of range", tt, [OsMkdirAll (rootfsDir host)]).
Proof.
  intros Henter Hshort. enter Henter.
  rewrite (slice_to_short _ 4 Hshort). reflexivity.
Qed.

Lemma LxcGo_Start_short executeConfig :
  entersClone host executeConfig ->
  strings.len (BaseRootFsPath executeConfig) < 4 ->
  LxcGo.Start (CS := CS) host tt
  = (Panic "slice bounds out of range", tt, [OsMkdirAll (rootfsDir host)]).
Proof.
  intros Henter Hshort. enter Henter.
  rewrite (slice_to_short _ 4 Hshort). reflexivity.
Qed.

(** A reference of four bytes or more without the tag is refused before
    any command runs. *)
Lemma Part000_Start_untagged executeConfig tag rest :
  entersClone host executeConfig ->
  BaseRootFsPath executeConfig = tag +:+ rest ->
  String.length tag = 4%nat ->
  tag <> "lvm:" ->
  Part000.Start (CS := CS) host tt
  = (Return (None, Some ErrOnlyLVM), tt, [OsMkdirAll (rootfsDir host)]).
Proof.
  intros Henter Hbase Hlen Htag. enter Henter.
  rewrite Hbase.
  replace 4 with (strings.len tag) by (unfold strings.len; lia).
  rewrite slice_to_append. simpl.
  apply String.eqb_neq in Htag. rewrite Htag. reflexivity.
Qed.

(** The parse of the volume group fails after the snapshot was made:
    [Start] returns the parse error, and the rollback that it runs is
    [noCleanup]. *)
Lemma Part000_Start_parse_failure executeConfig baseLvName vgName err :
  entersClone host executeConfig ->
  BaseRootFsPath executeConfig = "lvm:" +:+ baseLvName ->
  runCommand host "lvcreate" (lvcreateArgs host baseLvName) = CmdOk ->
  extractVgName baseLvName = Return (vgName, Some err) ->
  Part000.Start (CS := CS) host tt
  = (Return (None, Some (ErrParseVg baseLvName)), tt,
     [OsMkdirAll (rootfsDir host);
      ExecCommand "lvcreate" (lvcreateArgs host baseLvName)]).
Proof.
  intros Henter Hbase Hlv Hparse. enter Henter.
  rewrite Hbase.
  change 4 with (strings.len "lvm:").
  rewrite slice_to_append, slice_from_append. simpl.
  unfold execRun, bind, emit, ret. simpl. rewrite Hlv. simpl.
  rewrite Hparse. reflexivity.
Qed.

End StartFacts.

(** C4.  When the volume group cannot be parsed from the base reference
    after [lvcreate] has made the snapshot, [Start] returns the parse
    error, and the rollback closure that comes with it is [noCleanup]:
    the complete trace of [Start] is the directory and the [lvcreate]
    command, with no [lvremove] after it. *)
Theorem Start_parse_failure_keeps_snapshot {C CS F : Type}
    `{CpuAccumulator CS F} (host : Host C)
    (executeConfig : LxcExecuteDriverConfig)
    (baseLvName vgName : string) (err : ErrorValue) :
  entersClone host executeConfig ->
  BaseRootFsPath executeConfig = "lvm:" +:+ baseLvName ->
  runCommand host "lvcreate" (lvcreateArgs host baseLvName) = CmdOk ->
  extractVgName baseLvName = Return (vgName, Some err) ->
  result (Part000.Start (CS := CS) host tt)
  = Return (None, Some (ErrParseVg baseLvName))
  /\ trace (Part000.Start (CS := CS) host tt)
     = [OsMkdirAll (rootfsDir host);
        ExecCommand "lvcreate" (lvcreateArgs host baseLvName)].
Proof.
  intros Henter Hbase Hlv Hparse.
  rewrite (Part000_Start_parse_failure host executeConfig baseLvName vgName
             err Henter Hbase Hlv Hparse).
  split; reflexivity.
Qed.

Lemma fakeHost_entersClone (base : string) :
  entersClone (fakeHost base)
    {| BaseRootFsPath := base; BaseConfigPath := "/etc/lxc/base.conf";
       CmdArgs := ["/bin/app"] |}.
Proof. eexists. repeat split; reflexivity. Defined.

Lemma Start_parse_failure_keeps_snapshot_witness :
  extractVgName "base" = Return ("", Some (ErrComponents "base" 1))
  /\ trace (Part000.Start (CS := rateAccumulator) (fakeHost "lvm:base") tt)
     = [OsMkdirAll "/var/lib/lxc/web-4d2f/rootfs";
        ExecCommand "lvcreate" ["-kn"; "-n"; "web-4d2f"; "-s"; "base"]].
Proof.
  split; [reflexivity |].
  exact (proj2 (Start_parse_failure_keeps_snapshot
                  (CS := rateAccumulator) (fakeHost "lvm:base") _ "base" ""
                  (ErrComponents "base" 1)
                  (fakeHost_entersClone "lvm:base") eq_refl eq_refl eq_refl)).
Defined.

(** C5.  A clone-mode base reference of fewer than four bytes does not
    reach the comparison with "lvm:": the slice expression
    [BaseRootFsPath[:4]] panics, in both versions of the driver.  No
    command has run by then. *)
Theorem Start_short_base_panics {C CS F : Type}
    `{CpuAccumulator CS F} (host : Host C)
    (executeConfig : LxcExecuteDriverConfig) :
  entersClone host executeConfig ->
  strings.len (BaseRootFsPath executeConfig) < 4 ->
  result (Part000.Start (CS := CS) host tt) = Panic "slice bounds out of range"
  /\ List.filter isLvCommand (trace (Part000.Start (CS := CS) host tt)) = []
  /\ result (LxcGo.Start (CS := CS) host tt) = Panic "slice bounds out of range"
  /\ List.filter isLvCommand (trace (LxcGo.Start (CS := CS) host tt)) = [].
Proof.
  intros Henter Hshort.
  rewrite (Part000_Start_short host executeConfig Henter Hshort).
  rewrite (LxcGo_Start_short host executeConfig Henter Hshort).
  repeat split; reflexivity.
Qed.

Lemma Start_short_base_panics_witness :
  strings.len "dir" < 4
  /\ result (Part000.Start (CS := rateAccumulator) (fakeHost "dir") tt)
     = Panic "slice bounds out of range".
Proof.
  split; [reflexivity |].
  exact (proj1 (Start_short_base_panics (CS := rateAccumulator)
                  (fakeHost "dir") _ (fakeHost_entersClone "dir") eq_refl)).
Defined.

(** * Stats *)

Lemma last_cons (v d : Z) (vs : list Z) :
  List.last (v :: vs) d = List.last vs v.
Proof.
  revert v d. induction vs as [|w vs IH]; intros v d; [reflexivity |].
  change (List.last (v :: w :: vs) d) with (List.last (w :: vs) d).
  now rewrite (IH w d), (IH w v).
Qed.

Lemma parsedUints_cons (raw : string) (lines : list string) :
  parsedUints (raw :: lines)
  = match strconv.ParseUint raw with
    | (val, None) => val :: parsedUints lines
    | (_, Some _) => parsedUints lines
    end.
Proof.
  unfold parsedUints. simpl.
  now destruct (strconv.ParseUint raw) as [val [e|]].
Qed.

Lemma parsedStats_cons (key line : string) (lines : list string) :
  parsedStats key (line :: lines)
  = match keysToVal line with
    | (k, val, None) =>
        if String.eqb k key then val :: parsedStats key lines
        else parsedStats key lines
    | (_, _, Some _) => parsedStats key lines
    end.
Proof.
  unfold parsedStats. simpl.
  destruct (keysToVal line) as [[k val] [e|]]; [reflexivity |].
  now destruct (String.eqb k key).
Qed.

Lemma foldl_uintStep (lines : list string) (field : Z) :
  foldl uintStep field lines = List.last (parsedUints lines) field.
Proof.
  revert field. induction lines as [|raw lines IH]; intros field;
    [reflexivity |].
  rewrite parsedUints_cons. simpl. rewrite IH. unfold uintStep.
  destruct (strconv.ParseUint raw) as [val [e|]]; [reflexivity |].
  now rewrite last_cons.
Qed.

Lemma foldl_memDataStep (key : string) (lines : list string)
    (memData : gmap string Z) :
  is_Some (memData !! key) ->
  default 0 (foldl memDataStep memData lines !! key)
  = List.last (parsedStats key lines) (default 0 (memData !! key)).
Proof.
  revert memData. induction lines as [|line lines IH]; intros memData Hin;
    [reflexivity |].
  rewrite parsedStats_cons. simpl. unfold memDataStep at 2.
  destruct (keysToVal line) as [[k val] [e|]]; [now apply IH |].
  destruct (memData !! k) as [old|] eqn:Hk.
  - destruct (String.eqb_spec k key) as [-> | Hne].
    + rewrite IH by (rewrite lookup_insert_eq; eauto).
      now rewrite lookup_insert_eq, last_cons.
    + rewrite IH by (rewrite lookup_insert_ne; auto).
      now rewrite lookup_insert_ne.
  - destruct (String.eqb_spec k key) as [-> | Hne].
    + rewrite Hk in Hin. now destruct Hin.
    + now apply IH.
Qed.

(** C10.  [Stats] returns a nil error whatever the container answers.
    When the CPU sample cannot be read the snapshot is nil as well;
    otherwise there is a snapshot, and each memory field is the last
    value that parsed for it, 0 when no line did: lines that do not
    parse, and files that cannot be read, leave the field alone. *)
Theorem Stats_error_is_nil {C CS F : Type} `{Runtime C}
    `{CpuAccumulator CS F} (clk : clock) (h : lxcDriverHandle C CS) :
  (Stats clk h).1.2 = None
  /\ match CPUStats (container h), CPUTime (container h) with
     | Some _, Some _ =>
         exists u, (Stats clk h).1.1 = Some u
           /\ let ms := cstructs.ResourceMemoryStats u in
              let item := CgroupItem (container h) in
              cstructs.RSS ms
              = List.last (parsedStats "rss" (item "memory.stat")) 0
              /\ cstructs.Cache ms
                 = List.last (parsedStats "cache" (item "memory.stat")) 0
              /\ cstructs.Swap ms
                 = List.last (parsedStats "swap" (item "memory.stat")) 0
              /\ cstructs.MaxUsage ms
                 = List.last (parsedUints (item "memory.max_usage_in_bytes")) 0
              /\ cstructs.KernelUsage ms
                 = List.last (parsedUints (item "memory.kmem.usage_in_bytes")) 0
              /\ cstructs.KernelMaxUsage ms
                 = List.last
                     (parsedUints (item "memory.kmem.max_usage_in_bytes")) 0
     | _, _ => (Stats clk h).1.1 = None
     end.
Proof.
  unfold Stats.
  destruct (CPUStats (container h)) as [cpuStats|]; [| split; reflexivity].
  destruct (CPUTime (container h)) as [total|]; [| split; reflexivity].
  destruct (Percent (systemCpuStats h) _ _) as [systemMode systemAcc].
  destruct (Percent systemAcc _ _) as [userMode systemAcc'].
  destruct (Percent (totalCpuStats h) _ _) as [percent totalAcc].
  simpl. split; [reflexivity |].
  eexists. split; [reflexivity |]. simpl.
  rewrite !foldl_uintStep.
  rewrite !foldl_memDataStep by (simplify_map_eq; eauto).
  simplify_map_eq. repeat split; reflexivity.
Qed.

(** C6.  The CPU fields of a snapshot as the code derives them: the
    system-mode percentage is the reading of the system accumulator on
    the system sample, the total percentage the reading of the total
    accumulator, but the user-mode percentage is a second reading of the
    system accumulator, taken right after the first, on the user sample.
    The user accumulator is never read: it leaves [Stats] as it
    entered. *)
Theorem Stats_UserMode_reads_system_accumulator {C CS F : Type}
    `{Runtime C} `{CpuAccumulator CS F}
    (clk : clock) (h : lxcDriverHandle C CS)
    (cpuStats : gmap string Z) (total : Z) :
  CPUStats (container h) = Some cpuStats ->
  CPUTime (container h) = Some total ->
  let system := float64 (default 0 (cpuStats !! "system")) in
  let user := float64 (default 0 (cpuStats !! "user")) in
  let first := Percent (systemCpuStats h) (now_system clk) system in
  let second := Percent first.2 (now_user clk) user in
  let third := Percent (totalCpuStats h) (now_total clk) (float64 total) in
  exists u,
    (Stats clk h).1.1 = Some u
    /\ cstructs.SystemMode (cstructs.ResourceCpuStats u) = first.1
    /\ cstructs.UserMode (cstructs.ResourceCpuStats u) = second.1
    /\ cstructs.Percent (cstructs.ResourceCpuStats u) = third.1
    /\ userCpuStats (Stats clk h).2 = userCpuStats h
    /\ systemCpuStats (Stats clk h).2 = second.2
    /\ totalCpuStats (Stats clk h).2 = third.2.
Proof.
  intros Hcpu Htime. simpl. unfold Stats. rewrite Hcpu, Htime.
  destruct (Percent (systemCpuStats h) _ _) as [systemMode systemAcc].
  simpl.
  destruct (Percent systemAcc _ _) as [userMode systemAcc'].
  destruct (Percent (totalCpuStats h) _ _) as [percent totalAcc].
  simpl. eexists. repeat split; reflexivity.
Qed.

(** On a fresh handle, with the accumulator of the design notes: the
    first snapshot already reports a user-mode percentage, 40, and the
    user accumulator is still the fresh one. *)
Lemma Stats_UserMode_reads_system_accumulator_witness :
  let clk := {| now_stats := 10; now_system := 20; now_user := 30;
                now_total := 40 |} in
  let h := fakeHandle liveContainer in
  exists u,
    (Stats clk h).1.1 = Some u
    /\ cstructs.SystemMode (cstructs.ResourceCpuStats u) = 0
    /\ cstructs.UserMode (cstructs.ResourceCpuStats u) = 40
    /\ userCpuStats (Stats clk h).2 = NewCpuStats.
Proof.
  intros clk h.
  destruct (Stats_UserMode_reads_system_accumulator clk h
              (<["system" := 100]> (<["user" := 500]> ∅)) 600)
    as (u & Hu & Hs & Hum & _ & Hacc & _); [reflexivity | reflexivity |].
  exists u. split; [exact Hu |]. split; [exact Hs |].
  split; [exact Hum | exact Hacc].
Defined.

(** * Names *)

Lemma append_inj_length (a b x y : string) :
  String.length a = String.length b ->
  a +:+ x = b +:+ y -> a = b /\ x = y.
Proof.
  revert b. induction a as [|c a IH]; intros [|d b] Hlen Heq;
    try discriminate; simpl in *.
  - auto.
  - injection Heq as -> Heq. injection Hlen as Hlen.
    destruct (IH b Hlen Heq) as [-> ->]. auto.
Qed.

(** X1.  Container names of allocations whose ids have the same length
    (Nomad's are UUIDs) collide only when task name and id are the
    same. *)
Theorem getContainerName_injective (t1 t2 id1 id2 : string) :
  String.length id1 = String.length id2 ->
  getContainerName t1 id1 = getContainerName t2 id2 ->
  t1 = t2 /\ id1 = id2.
Proof.
  unfold getContainerName. intros Hlen Heq.
  assert (Hl : String.length t1 = String.length t2).
  { apply (f_equal String.length) in Heq.
    rewrite !length_append in Heq. simpl in Heq. lia. }
  destruct (append_inj_length t1 t2 _ _ Hl Heq) as [-> Hrest].
  split; [reflexivity |]. now injection Hrest.
Qed.

Lemma getContainerName_injective_witness :
  getContainerName "web" "4d2f" = "web-4d2f"
  /\ (getContainerName "web" "4d2f" = getContainerName "web" "4d2f" ->
      "web" = "web" /\ "4d2f" = "4d2f").
Proof.
  split; [reflexivity |].
  exact (getContainerName_injective "web" "web" "4d2f" "4d2f" eq_refl).
Defined.

(** * More on [extractVgName] *)

Lemma HasPrefix_slash_false (s : string) :
  strings.HasPrefix s "/" = false ->
  s = "" \/ exists c r, s = String c r /\ c <> "/"%char.
Proof.
  destruct s as [|c r]; [now left |]. simpl.
  destruct (Ascii.eqb_spec c "/"); [discriminate |]. intros _. right. eauto.
Qed.

(** X2.  A reference that does not start with a slash never makes the
    parser panic, and is accepted exactly when it is vg/lv with one
    slash; the answer is then the text before the slash. *)
Theorem extractVgName_relative (s vg : string) :
  strings.HasPrefix s "/" = false ->
  (exists r, extractVgName s = Return r)
  /\ (extractVgName s = Return (vg, None)
      <-> exists lv, s = vg +:+ "/" +:+ lv
                     /\ lacks "/" vg = true /\ lacks "/" lv = true).
Proof.
  intros Hrel. unfold extractVgName. rewrite Hrel. simpl negb. cbv iota.
  split.
  - destruct (strings.Split s "/") as [|c0 [|c1 [|c2 cs]]]; eauto.
  - split.
    + destruct (strings.Split s "/") as [|c0 [|c1 [|c2 cs]]] eqn:Hs;
        try discriminate.
      apply Split_two in Hs as (-> & H0 & H1).
      unfold checkVgName. destruct (strings.len c0 =? 0); [discriminate |].
      intros [= ->]. exists c1. auto.
    + intros (lv & -> & Hvg & Hlv).
      change (vg +:+ "/" +:+ lv) with (vg +:+ String "/" lv).
      rewrite (Split_append vg lv "/" Hvg), (Split_lacks lv "/" Hlv).
      rewrite checkVgName_nonempty; [reflexivity |].
      intros ->. discriminate.
Qed.

Lemma extractVgName_relative_witness :
  extractVgName "vg0/base" = Return ("vg0", None).
Proof.
  apply (extractVgName_relative "vg0/base" "vg0" eq_refl).
  exists "base". repeat split; reflexivity.
Defined.

(** X3.  A reference /dev/x with no further slash makes the parser
    panic: the slice [baseLvName[5:LastIndex]] has its upper bound, 4,
    below its lower bound. *)
Theorem extractVgName_dev_leaf_panics (x : string) :
  lacks "/" x = true ->
  extractVgName ("/dev/" +:+ x) = Panic "slice bounds out of range".
Proof.
  intros Hx. unfold extractVgName.
  rewrite FindAllStringSubmatch_few_slashes
    by (rewrite count_append, (count_lacks _ _ Hx); simpl; lia).
  change (strings.HasPrefix ("/dev/" +:+ x) "/") with true.
  change (strings.HasPrefix ("/dev/" +:+ x) "/dev/") with true.
  simpl negb. cbv iota.
  change ("/dev/" +:+ x) with ("/dev" +:+ String "/" x).
  rewrite (LastIndex_append "/" "/dev" x Hx). reflexivity.
Qed.

Lemma extractVgName_dev_leaf_panics_witness :
  extractVgName "/dev/sdb1" = Panic "slice bounds out of range".
Proof. exact (extractVgName_dev_leaf_panics "sdb1" eq_refl). Defined.

Lemma checkVgName_cases (v : string) :
  (checkVgName v = (v, None) /\ v <> "")
  \/ (checkVgName v = ("", Some ErrNoVgName) /\ v = "").
Proof.
  unfold checkVgName. destruct (strings.len v =? 0) eqn:Hl.
  - right. apply len_zero in Hl. auto.
  - left. split; [reflexivity |]. intros ->. discriminate.
Qed.

(** X4.  Whenever the parser returns, it returns either a non-empty name
    with a nil error or the empty name with an error. *)
Theorem extractVgName_name_or_error (s vg : string) (err : error) :
  extractVgName s = Return (vg, err) ->
  (err = None /\ vg <> "") \/ (err <> None /\ vg = "").
Proof.
  assert (Hcheck : forall v, Return (checkVgName v) = Return (vg, err) ->
            (err = None /\ vg <> "") \/ (err <> None /\ vg = "")).
  { intros v Hv. injection Hv as Hv.
    destruct (checkVgName_cases v) as [[Hc Hne] | [Hc ->]];
      rewrite Hc in Hv; injection Hv as <- <-; [left | right]; auto. }
  unfold extractVgName.
  destruct (negb (strings.HasPrefix s "/")).
  - destruct (strings.Split s "/") as [|c0 [|c1 [|c2 cs]]];
      try (intros [= <- <-]; right; split; [discriminate | reflexivity]).
    apply Hcheck.
  - destruct (regexp.FindAllStringSubmatch devMapperRE s); [apply Hcheck |].
    destruct (strings.HasPrefix s "/dev/"); [| apply Hcheck].
    destruct (strings.slice _ _ _); simpl; try discriminate. apply Hcheck.
Qed.

Lemma extractVgName_name_or_error_witness :
  extractVgName "/dev/vg0/base" = Return ("vg0", None) /\ "vg0" <> "".
Proof.
  split; [reflexivity |].
  destruct (extractVgName_name_or_error "/dev/vg0/base" "vg0" None eq_refl)
    as [[_ Hne] | [Herr _]]; [exact Hne | now contradiction Herr].
Defined.

(** * Decimal numbers *)

Lemma digits_pos (d : Decimal.uint) (acc : positive) :
  decimalValue (Z.pos acc) (NilEmpty.string_of_uint d)
  = Some (Z.pos (Pos.of_uint_acc d acc)).
Proof.
  revert acc. induction d; intros acc; simpl; try reflexivity;
    match goal with
    | |- context [nat_of_ascii ?c] =>
        let n := eval vm_compute in (nat_of_ascii c) in
        change (nat_of_ascii c) with n
    end;
    match goal with
    | |- decimalValue ?a _ = _ =>
        match goal with
        | |- _ = Some (Z.pos (Pos.of_uint_acc _ ?b)) =>
            replace a with (Z.pos b) by lia
        end
    end; apply IHd.
Qed.

Lemma digits_zero (d : Decimal.uint) :
  decimalValue 0 (NilEmpty.string_of_uint d)
  = Some (Z.of_N (Pos.of_uint d)).
Proof.
  induction d; simpl; try reflexivity;
    match goal with
    | |- context [nat_of_ascii ?c] =>
        let n := eval vm_compute in (nat_of_ascii c) in
        change (nat_of_ascii c) with n
    end; simpl; try exact IHd; apply digits_pos.
Qed.

Lemma digits_nonneg (s : string) (acc v : Z) :
  0 <= acc -> decimalValue acc s = Some v -> 0 <= v.
Proof.
  revert acc. induction s as [|c s IH]; intros acc Hacc; simpl.
  - now intros [= <-].
  - unfold strconv.digit. destruct (in_range "0" "9" c) eqn:Hc; [| discriminate].
    apply IH. unfold in_range in Hc. apply andb_true_iff in Hc as [Hlo _].
    apply Nat.leb_le in Hlo. change (nat_of_ascii "0") with 48%nat in Hlo.
    lia.
Qed.

Lemma digits_all (s : string) (acc v : Z) :
  decimalValue acc s = Some v ->
  strings.all (in_range "0" "9") s = true.
Proof.
  revert acc. induction s as [|c s IH]; intros acc; simpl; [reflexivity |].
  unfold strconv.digit. destruct (in_range "0" "9" c); [| discriminate].
  apply IH.
Qed.

Lemma string_of_uint_nonempty (d : Decimal.uint) :
  d <> Decimal.Nil -> NilEmpty.string_of_uint d <> "".
Proof. destruct d; simpl; intros Hd; congruence. Qed.

Lemma string_of_uint_digits (d : Decimal.uint) :
  strings.all (in_range "0" "9") (NilEmpty.string_of_uint d) = true.
Proof. induction d; simpl; auto. Qed.

Lemma digit_range (c : ascii) (d : Z) :
  strconv.digit c = Some d -> 0 <= d <= 9.
Proof.
  unfold strconv.digit, in_range.
  destruct (_ && _) eqn:Hc; [| discriminate]. intros [= <-].
  apply andb_true_iff in Hc as [Hlo Hhi]. apply Nat.leb_le in Hlo, Hhi.
  change (nat_of_ascii "0") with 48%nat in Hlo.
  change (nat_of_ascii "9") with 57%nat in Hhi. lia.
Qed.

Lemma decimalValue_grows (s : string) (acc v : Z) :
  0 <= acc -> decimalValue acc s = Some v -> acc <= v.
Proof.
  revert acc. induction s as [|c s IH]; intros acc Hacc; simpl.
  - intros [= <-]. lia.
  - destruct (strconv.digit c) as [d|] eqn:Hd; [| discriminate].
    apply digit_range in Hd. intros Hv. apply IH in Hv; lia.
Qed.

(** The loop of [ParseUint] accepts exactly the digit strings whose
    number fits in 64 bits, and returns that number. *)
Lemma parseDigits_decimalValue (s : string) (n v : Z) :
  0 <= n <= strconv.maxUint64 ->
  strconv.parseDigits n s = (v, None)
  <-> decimalValue n s = Some v /\ v <= strconv.maxUint64.
Proof.
  assert (Hmax : strconv.maxUint64 = 18446744073709551615) by reflexivity.
  assert (Hcut : strconv.cutoff = 1844674407370955162) by reflexivity.
  revert n. induction s as [|c s IH]; intros n Hn; simpl.
  - split; [intros [= <-]; split; [reflexivity | lia] | now intros [[= <-] _]].
  - destruct (strconv.digit c) as [d|] eqn:Hd;
      [| split; [discriminate | now intros [? _]]].
    apply digit_range in Hd.
    destruct (Z.leb_spec strconv.cutoff n) as [Hc | Hc].
    { split; [discriminate |]. intros [Hv Hle].
      apply decimalValue_grows in Hv; lia. }
    destruct (Z.ltb_spec strconv.maxUint64 (n * 10 + d)) as [Ho | Ho].
    { split; [discriminate |]. intros [Hv Hle].
      apply decimalValue_grows in Hv; lia. }
    apply IH. lia.
Qed.

Lemma ParseUint_decimalValue (s : string) (v : Z) :
  strconv.ParseUint s = (v, None)
  <-> s <> "" /\ decimalValue 0 s = Some v /\ v <= strconv.maxUint64.
Proof.
  destruct s as [|c s]; [split; [discriminate | now intros [? _]] |].
  unfold strconv.ParseUint.
  rewrite (parseDigits_decimalValue (String c s) 0 v)
    by (split; [lia | discriminate]).
  split; [intros Hv; split; [discriminate | exact Hv] | now intros [_ Hv]].
Qed.

(** [ParseUint] reads back what [Itoa] writes. *)
Lemma ParseUint_Itoa (v : Z) :
  0 <= v <= strconv.maxUint64 ->
  strconv.ParseUint (Itoa v) = (v, None).
Proof.
  intros [Hlo Hhi]. unfold Itoa. destruct v as [|p|p]; [reflexivity | | lia].
  simpl Z.to_int. simpl NilZero.string_of_int.
  pose proof (Unsigned.to_uint_nonnil p) as Hnil.
  unfold NilZero.string_of_uint.
  destruct (Pos.to_uint p) as [| | | | | | | | | |] eqn:Hp;
    try contradiction; rewrite <- Hp;
    (apply ParseUint_decimalValue;
     split; [apply string_of_uint_nonempty; now rewrite Hp |];
     split; [now rewrite digits_zero, DecimalPos.Unsigned.of_to | exact Hhi]).
Qed.

Lemma all_weaken (p q : ascii -> bool) (s : string) :
  (forall c, p c = true -> q c = true) ->
  strings.all p s = true -> strings.all q s = true.
Proof.
  intros Hpq. induction s as [|c s IH]; simpl; [reflexivity |].
  intros Hs. apply andb_true_iff in Hs as [Hc Hs].
  now rewrite (Hpq c Hc), IH.
Qed.

Lemma digit_not_space (c : ascii) :
  in_range "0" "9" c = true -> negb (Ascii.eqb c " ") = true.
Proof.
  intros Hc. apply negb_true_iff, Ascii.eqb_neq. intros ->. discriminate.
Qed.

Lemma Itoa_lacks_space (v : Z) : 0 <= v -> lacks " " (Itoa v) = true.
Proof.
  intros Hv. unfold Itoa, lacks.
  destruct v as [|p|p]; [reflexivity | | lia].
  simpl. unfold NilZero.string_of_uint.
  destruct (Pos.to_uint p) eqn:Hp; try reflexivity; rewrite <- Hp;
    apply (all_weaken (in_range "0" "9")); auto using digit_not_space,
      string_of_uint_digits.
Qed.

(** * [keysToVal] *)

(** X5.  A line that [keysToVal] accepts is a key, one space and a
    non-empty run of decimal digits, and the value fits in 64 bits. *)
Theorem keysToVal_accepts (line key : string) (val : Z) :
  keysToVal line = (key, val, None) ->
  exists tok,
    line = key +:+ " " +:+ tok
    /\ lacks " " key = true
    /\ tok <> ""
    /\ strings.all (in_range "0" "9") tok = true
    /\ 0 <= val <= strconv.maxUint64.
Proof.
  unfold keysToVal.
  destruct (strings.Split line " ") as [|k [|tok [|x xs]]] eqn:Hs;
    try discriminate.
  apply Split_two in Hs as (-> & Hk & Htok).
  destruct (strconv.ParseUint tok) as [v err] eqn:Hp.
  intros [= -> -> ->].
  apply ParseUint_decimalValue in Hp as (Hne & Hd & Hmax).
  exists tok.
  split; [reflexivity |]. split; [exact Hk |]. split; [exact Hne |].
  split; [exact (digits_all _ _ _ Hd) |].
  split; [exact (digits_nonneg _ 0 _ (Z.le_refl 0) Hd) | exact Hmax].
Qed.

Lemma keysToVal_accepts_witness :
  exists tok, "rss 8192" = "rss" +:+ " " +:+ tok /\ 0 <= 8192 <= strconv.maxUint64.
Proof.
  destruct (keysToVal_accepts "rss 8192" "rss" 8192 eq_refl)
    as (tok & Hl & _ & _ & _ & Hv).
  exists tok. split; [exact Hl | exact Hv].
Defined.

(** X6.  Round trip: a key without a space followed by a space and the
    decimal notation of a 64-bit value is read back as that key and that
    value. *)
Theorem keysToVal_decimal (key : string) (v : Z) :
  lacks " " key = true ->
  0 <= v <= strconv.maxUint64 ->
  keysToVal (key +:+ " " +:+ Itoa v) = (key, v, None).
Proof.
  intros Hk Hv. unfold keysToVal.
  change (key +:+ " " +:+ Itoa v) with (key +:+ String " " (Itoa v)).
  rewrite (Split_append key _ " " Hk).
  rewrite (Split_lacks _ " " (Itoa_lacks_space v (proj1 Hv))).
  now rewrite (ParseUint_Itoa v Hv).
Qed.

Lemma keysToVal_decimal_witness :
  keysToVal "cache 4096" = ("cache", 4096, None).
Proof.
  apply (keysToVal_decimal "cache" 4096); [reflexivity |].
  split; [lia | vm_compute; discriminate].
Defined.

(** * More on the handle *)

Section MoreHandleFacts.

Context {C CS : Type} `{Runtime C}.
Implicit Types (h : lxcDriverHandle C CS) (sched : list wakeup).

(** X7.  [Kill] of part_000 on an open [doneCh] returns an error in one
    case only: the container runs, [Shutdown] fails and [Stop] fails
    too.  Error or not, [doneCh] is closed when it returns. *)
Theorem Kill_error_iff h :
  closed (doneCh h) = false ->
  (result (Part000.Kill h) = Return None
   \/ result (Part000.Kill h) = Return (Some ErrStop))
  /\ (result (Part000.Kill h) = Return (Some ErrStop)
      <-> Running (container h) = true
          /\ (Shutdown (killTimeout h) (container h)).1 <> None
          /\ (Stop (Shutdown (killTimeout h) (container h)).2).1 <> None)
  /\ closed (doneCh (state (Part000.Kill h))) = true.
Proof.
  intros Hopen. split; [| split; [| apply Kill_closes]].
  - run_monad. simpl.
    destruct (Running (container h)); simpl; [| rewrite Hopen; auto].
    destruct (Shutdown _ _) as [[e|] c]; simpl; [| rewrite Hopen; auto].
    destruct (Stop _) as [[e'|] c']; simpl; rewrite Hopen; auto.
  - run_monad. simpl.
    destruct (Running (container h)); simpl;
      [| rewrite Hopen; simpl; split; [discriminate | now intros [? _]]].
    destruct (Shutdown _ _) as [[e|] c]; simpl;
      [| rewrite Hopen; simpl; split;
         [discriminate | now intros (_ & Hs & _)]].
    destruct (Stop _) as [[e'|] c']; simpl; rewrite Hopen; simpl;
      split; try discriminate; auto.
    now intros (_ & _ & Hs).
Qed.

(** [Kill] of part_000 leaves [waitCh] alone. *)
Lemma Kill_keeps_waitCh h : waitCh (state (Part000.Kill h)) = waitCh h.
Proof. run_monad. simpl. split_runtime; reflexivity. Qed.

(** X8.  [Kill] and the monitor compose: after [Kill] the case
    [<-h.doneCh] of the monitor is ready, and a monitor that takes it
    publishes the empty result, tears the container down and closes
    [waitCh]. *)
Theorem Kill_then_monitor h sched :
  closed (doneCh h) = false ->
  waitCh h = make 1 ->
  chan_ready (doneCh (state (Part000.Kill h))) = true
  /\ trace (Part000.run (DoneC :: sched) (state (Part000.Kill h)))
     = [SendWaitCh emptyWaitResult; CallWait; CallDestroy; CloseWaitCh]
  /\ List.filter isDestroy
       (trace (Part000.Kill h)
        ++ trace (Part000.run (DoneC :: sched) (state (Part000.Kill h))))
     = [CallDestroy].
Proof.
  intros Hopen Hwait.
  assert (Hready : chan_ready (doneCh (state (Part000.Kill h))) = true).
  { unfold chan_ready. rewrite Kill_closes. now destruct (buf _). }
  set (h1 := state (Part000.Kill h)) in *.
  assert (Ht : trace (Part000.run (DoneC :: sched) h1)
               = [SendWaitCh emptyWaitResult; CallWait; CallDestroy;
                  CloseWaitCh]).
  { assert (Hw1 : waitCh h1 = make 1)
      by (subst h1; now rewrite Kill_keeps_waitCh).
    unfold Part000.run, defer, trace.
    rewrite (monitor_fresh (DoneC :: sched) h1 Hw1). simpl published.
    cbv iota.
    set (h2 := set_waitCh _ h1).
    destruct (cleanupContainer_trace h2) as (Hc & [err He] & Hw).
    unfold bind, trace, result, state in *.
    destruct (Part000.cleanupContainer h2) as [[res h3] t3]. simpl in *.
    subst res t3. unfold closeWaitCh, chan_close. rewrite Hw. reflexivity. }
  split; [exact Hready |]. split; [exact Ht |].
  rewrite List.filter_app, Kill_no_destroy, Ht. reflexivity.
Qed.

(** X9.  [Update] clamps the requested timeout against the kill timeout
    that the handle has at that moment, not against [maxKillTimeout]:
    with a [GetKillTimeout] that stays positive and below its second
    argument, no sequence of updates raises the kill timeout again, and
    nothing else in the handle changes. *)
Theorem Update_never_raises (GetKillTimeout : Z -> Z -> Z)
    (requests : list Z) h :
  (forall desired max, 0 < max -> 0 < GetKillTimeout desired max <= max) ->
  0 < killTimeout h ->
  let h' := foldl (fun hd d => Update GetKillTimeout d hd) h requests in
  0 < killTimeout h' <= killTimeout h
  /\ maxKillTimeout h' = maxKillTimeout h
  /\ container h' = container h
  /\ waitCh h' = waitCh h /\ doneCh h' = doneCh h.
Proof.
  intros HG. revert h. induction requests as [|d requests IH]; intros h Hpos.
  - simpl. repeat split; try reflexivity; lia.
  - simpl. specialize (HG d (killTimeout h) Hpos).
    destruct (IH (Update GetKillTimeout d h)) as (Hk & Hm & Hc & Hw & Hd);
      [simpl; lia |].
    simpl in *. repeat split; try assumption; lia.
Qed.

End MoreHandleFacts.

Lemma Update_never_raises_witness :
  killTimeout
    (foldl (fun hd d =>
              Update (fun desired max =>
                        if (0 <? desired) && (desired <? max)
                        then desired else max) d hd)
       (fakeHandle liveContainer) [3; 20; 4])
  <= 5.
Proof.
  refine (proj2 (proj1 (Update_never_raises
            (fun desired max =>
               if (0 <? desired) && (desired <? max) then desired else max)
            [3; 20; 4] (fakeHandle liveContainer) _ _))).
  - intros desired max Hmax.
    destruct ((0 <? desired) && (desired <? max)) eqn:Hc; [| lia].
    apply andb_true_iff in Hc as [H0 H1].
    apply Z.ltb_lt in H0, H1. lia.
  - reflexivity.
Defined.

Lemma Kill_error_iff_witness :
  result (Part000.Kill (fakeHandle liveContainer)) = Return None
  \/ result (Part000.Kill (fakeHandle liveContainer))
     = Return (Some ErrStop).
Proof.
  exact (proj1 (Kill_error_iff (fakeHandle liveContainer) eq_refl)).
Defined.

Lemma Kill_then_monitor_witness :
  chan_ready (doneCh (state (Part000.Kill (fakeHandle liveContainer))))
  = true.
Proof.
  exact (proj1 (Kill_then_monitor (fakeHandle liveContainer) []
                  eq_refl eq_refl)).
Defined.

(** * [ID] and [Open] *)

Section IdentityFacts.

Context {C CS F : Type} `{Runtime C} `{CpuAccumulator CS F}.
Variable Marshal : lxcPID -> option string.
Variable Unmarshal : string -> option lxcPID.
Variable Containers : string -> list C.
Variable InitPidOf : C -> Z.
Variable MaxKillTimeout : Z.

(** X10.  Round trip: when the identity of a handle marshals and
    unmarshals back, and its container is among those of its path,
    [Open] on [ID] gives a handle on the first container of that name,
    with the same path and kill timeout; the init pid is read from the
    container again, and the accumulators and channels are new. *)
Theorem Open_ID (h : lxcDriverHandle C CS) (data : string) :
  let pid :=
    {| ContainerName := Name (container h); InitPid := initPid h;
       LxcPath := lxcPath h; KillTimeout := killTimeout h |} in
  Marshal pid = Some data ->
  Unmarshal data = Some pid ->
  In (container h) (Containers (lxcPath h)) ->
  exists h',
    Open (CS := CS) Unmarshal Containers InitPidOf MaxKillTimeout
      (ID Marshal h) = (Some h', None)
    /\ Name (container h') = Name (container h)
    /\ In (container h') (Containers (lxcPath h))
    /\ lxcPath h' = lxcPath h
    /\ killTimeout h' = killTimeout h
    /\ maxKillTimeout h' = MaxKillTimeout
    /\ initPid h' = InitPidOf (container h')
    /\ waitCh h' = make 1 /\ doneCh h' = make 1
    /\ totalCpuStats h' = NewCpuStats
    /\ userCpuStats h' = NewCpuStats
    /\ systemCpuStats h' = NewCpuStats.
Proof.
  intros pid Hm Hu Hin. unfold ID, Open. fold pid. rewrite Hm, Hu. simpl.
  destruct (List.find _ _) as [c|] eqn:Hfind.
  - apply List.find_some in Hfind as [Hc Hname].
    apply String.eqb_eq in Hname.
    eexists. split; [reflexivity |]. simpl. repeat split; assumption.
  - exfalso. apply (List.find_none _ _ Hfind) in Hin.
    now rewrite String.eqb_refl in Hin.
Qed.

(** X11.  [Open] on a handle id that unmarshals fails with "container
    not found" exactly when no container of the path has the name; it
    then returns no handle. *)
Theorem Open_not_found (handleID : string) (pid : lxcPID) :
  Unmarshal handleID = Some pid ->
  (Open (CS := CS) Unmarshal Containers InitPidOf MaxKillTimeout handleID
   = (None, Some (ErrContainerNotFound (ContainerName pid)))
   <-> forall c, In c (Containers (LxcPath pid)) ->
                 Name c <> ContainerName pid).
Proof.
  intros Hu. unfold Open. rewrite Hu.
  destruct (List.find _ _) as [c|] eqn:Hfind.
  - apply List.find_some in Hfind as [Hc Hname].
    apply String.eqb_eq in Hname.
    split; [discriminate |]. intros Hall. now apply Hall in Hc.
  - split; [| reflexivity]. intros _ c Hc Hname.
    apply (List.find_none _ _ Hfind) in Hc.
    now rewrite Hname, String.eqb_refl in Hc.
Qed.

End IdentityFacts.

(** * Configuration items and limits *)

Lemma validate_nil_valid (specs : list string) :
  validateVolumesConfig (map IString specs) = Return None ->
  Forall validVolumeSpec specs.
Proof.
  induction specs as [|v specs IH]; [constructor |].
  change (map IString (v :: specs)) with (IString v :: map IString specs).
  intros Hnil.
  destruct (validate_cases v (map IString specs)) as [Hv | (e & He & _)];
    [| congruence].
  constructor; [exact Hv |]. apply IH.
  now rewrite (validate_valid v _ Hv) in Hnil.
Qed.

Lemma validVolumeSpec_Split (v : string) :
  validVolumeSpec v ->
  exists h c, strings.Split v ":" = [h; c] /\ hostSide v = h.
Proof.
  intros (h & c & -> & Hh & Hc & _). exists h, c.
  unfold hostSide. change (h +:+ ":" +:+ c) with (h +:+ String ":" c).
  now rewrite (Split_append h c ":" Hh), (Split_lacks c ":" Hc).
Qed.

Section ConfigFacts.

Context {C : Type} `{ContainerConfig C}.
Implicit Types (c : C) (td : TaskDir) (volumes mounts : list string).

Lemma setItems_ok key mkErr values c c' calls :
  setItems key mkErr values c = (None, c', calls) ->
  calls = itemCalls key values.
Proof.
  revert c c' calls. induction values as [|v values IH];
    intros c c' calls; simpl.
  - now intros [= _ <-].
  - destruct (SetConfigItem key v c) as [[] c1]; [| discriminate].
    destruct (setItems key mkErr values c1) as [[err c2] t] eqn:Hrest.
    intros [= -> <- <-]. unfold itemCalls. simpl. f_equal.
    exact (IH _ _ _ Hrest).
Qed.

(** What the volume loop returns when it returns without an error. *)
Lemma volumeMounts_ok ve join td volumes mounts mounts' :
  volumeMounts ve join td volumes mounts = Return (None, mounts') ->
  mounts' = mounts ++ volumeEntries join td volumes.
Proof.
  revert mounts. induction volumes as [|v volumes IH]; intros mounts; simpl.
  - intros [= <-]. unfold volumeEntries. simpl. now rewrite app_nil_r.
  - unfold volumeEntries. simpl. fold (volumeEntries join td volumes).
    destruct (strings.Split v ":") as [|p0 [|p1 ps]]; try discriminate.
    + destruct (IsAbs p0 && negb ve); discriminate.
    + destruct (IsAbs p0 && negb ve); [discriminate |].
      intros Hrest. apply IH in Hrest. rewrite Hrest, <- app_assoc.
      reflexivity.
Qed.

(** Specs that the volume policy accepts never make the loop panic. *)
Lemma volumeMounts_valid ve join td volumes mounts :
  Forall validVolumeSpec volumes ->
  exists r, volumeMounts ve join td volumes mounts = Return r.
Proof.
  intros Hall. revert mounts.
  induction Hall as [|v volumes Hv _ IH]; intros mounts; simpl; [eauto |].
  destruct (validVolumeSpec_Split v Hv) as (h & c & -> & _).
  destruct (IsAbs h && negb ve); [eauto | apply IH].
Qed.

Lemma setCommonContainerConfig_returns ve join td envList volumes c :
  Forall validVolumeSpec volumes ->
  exists r,
    (Part000Ext.setCommonContainerConfig ve join td envList volumes c).1.1
    = Return r.
Proof.
  intros Hval. unfold Part000Ext.setCommonContainerConfig.
  destruct (SetConfigItem _ _ c) as [[] c0]; cbn [negb]; cbv iota;
    [| simpl; eauto].
  destruct (setItems _ _ (standardMounts td) c0) as [[[e|] c1] t1];
    [simpl; eauto |].
  destruct (volumeMounts_valid ve join td volumes (standardMounts td) Hval)
    as [[[e|] mounts'] ->]; [simpl; eauto |].
  destruct (setItems _ _ mounts' c1) as [[[e|] c2] t2]; [simpl; eauto |].
  destruct (setItems _ _ envList c2) as [[[e|] c3] t3]; simpl; eauto.
Qed.

(** X12.  The two volume checks compose: for volumes that
    [validateVolumesConfig] accepted, [setCommonContainerConfig] of
    part_000 never panics on its index expressions; it returns, with an
    error or with nil. *)
Theorem setCommonContainerConfig_validated ve join td envList volumes c :
  validateVolumesConfig (map IString volumes) = Return None ->
  exists r,
    (Part000Ext.setCommonContainerConfig ve join td envList volumes c).1.1
    = Return r.
Proof.
  intros Hval. apply validate_nil_valid in Hval.
  unfold Part000Ext.setCommonContainerConfig.
  destruct (SetConfigItem _ _ c) as [[] c0]; cbn [negb]; cbv iota;
    [| simpl; eauto].
  destruct (setItems _ _ (standardMounts td) c0) as [[[e|] c1] t1];
    [simpl; eauto |].
  destruct (volumeMounts_valid ve join td volumes (standardMounts td) Hval)
    as [[[e|] mounts'] ->]; [simpl; eauto |].
  destruct (setItems _ _ mounts' c1) as [[[e|] c2] t2]; [simpl; eauto |].
  destruct (setItems _ _ envList c2) as [[[e|] c3] t3]; simpl; eauto.
Qed.

(** X13.  A volume spec without a colon, which only [Validate] keeps
    out, makes [setCommonContainerConfig] panic on [paths[1]] once the
    network type and the standard mounts are set (unless its host path
    is absolute and custom volumes are disabled, which is refused
    first): the calls made by then are the network type and the three
    standard mounts. *)
Theorem setCommonContainerConfig_unvalidated_panics
    ve join td envList v rest c :
  lacks ":" v = true ->
  IsAbs v && negb ve = false ->
  (SetConfigItem "lxc.network.type" "none" c).1 = true ->
  (setItems "lxc.mount.entry" ErrBindMount (standardMounts td)
     (SetConfigItem "lxc.network.type" "none" c).2).1.1 = None ->
  (Part000Ext.setCommonContainerConfig ve join td envList (v :: rest) c).1.1
  = Panic "index out of range"
  /\ (Part000Ext.setCommonContainerConfig ve join td envList (v :: rest) c).2
     = ConfigItem "lxc.network.type" "none"
       :: itemCalls "lxc.mount.entry" (standardMounts td).
Proof.
  intros Hv Habs Hnet Hstd. unfold Part000Ext.setCommonContainerConfig.
  destruct (SetConfigItem _ _ c) as [ok c0]. cbn [fst snd] in Hnet, Hstd.
  subst ok. cbn [negb]. cbv iota.
  destruct (setItems _ _ (standardMounts td) c0) as [[err c1] t1] eqn:H1.
  cbn [fst] in Hstd. subst err. apply setItems_ok in H1. subst t1.
  cbn [volumeMounts].
  rewrite (Split_lacks v ":" Hv), Habs. split; reflexivity.
Qed.

(** X14.  The calls of a [setCommonContainerConfig] of part_000 that
    returns nil, in order: the network type; the three standard mounts;
    the three standard mounts a second time, followed by one mount per
    volume; one environment item per variable. *)
Theorem setCommonContainerConfig_calls ve join td envList volumes c :
  (Part000Ext.setCommonContainerConfig ve join td envList volumes c).1.1
  = Return None ->
  (Part000Ext.setCommonContainerConfig ve join td envList volumes c).2
  = ConfigItem "lxc.network.type" "none"
    :: itemCalls "lxc.mount.entry" (standardMounts td)
    ++ itemCalls "lxc.mount.entry"
         (standardMounts td ++ volumeEntries join td volumes)
    ++ itemCalls "lxc.environment" envList.
Proof.
  unfold Part000Ext.setCommonContainerConfig.
  destruct (SetConfigItem _ _ c) as [[] c0]; cbn [negb]; cbv iota;
    [| discriminate].
  destruct (setItems _ _ (standardMounts td) c0) as [[[e|] c1] t1] eqn:H1;
    [discriminate |].
  destruct (volumeMounts ve join td volumes (standardMounts td))
    as [[[e|] mounts']| |] eqn:Hv; try discriminate.
  destruct (setItems _ _ mounts' c1) as [[[e|] c2] t2] eqn:H2;
    [discriminate |].
  destruct (setItems _ _ envList c2) as [[[e|] c3] t3] eqn:H3;
    [discriminate |].
  intros _. apply setItems_ok in H1, H2, H3. apply volumeMounts_ok in Hv.
  subst. cbn [snd]. unfold itemCalls. now rewrite !map_app, <- !app_assoc.
Qed.

Lemma volumeMounts_absolute_refused join td pre v post mounts :
  Forall (fun u => validVolumeSpec u /\ IsAbs (hostSide u) = false) pre ->
  IsAbs (hostSide v) = true ->
  exists mounts',
    volumeMounts false join td (pre ++ v :: post) mounts
    = Return (Some ErrAbsoluteVolume, mounts').
Proof.
  intros Hpre Habs. revert mounts.
  induction Hpre as [|u pre [Hu Hrel] _ IH]; intros mounts; simpl.
  - unfold hostSide in Habs.
    destruct (strings.Split v ":") as [|p0 ps]; [discriminate |].
    rewrite Habs. simpl. eauto.
  - destruct (validVolumeSpec_Split u Hu) as (h & c0 & Hs & Hh).
    rewrite Hs. rewrite Hh in Hrel. rewrite Hrel. simpl. apply IH.
Qed.

(** X15.  With custom volumes disabled, a volume with an absolute host
    path (after any number of valid relative ones) is refused: the
    network type and the standard mounts have been set by then, and no
    volume has been mounted. *)
Theorem setCommonContainerConfig_absolute_refused
    join td envList pre v post c :
  Forall (fun u => validVolumeSpec u /\ IsAbs (hostSide u) = false) pre ->
  IsAbs (hostSide v) = true ->
  (SetConfigItem "lxc.network.type" "none" c).1 = true ->
  (setItems "lxc.mount.entry" ErrBindMount (standardMounts td)
     (SetConfigItem "lxc.network.type" "none" c).2).1.1 = None ->
  let r := Part000Ext.setCommonContainerConfig false join td envList
             (pre ++ v :: post) c in
  r.1.1 = Return (Some ErrAbsoluteVolume)
  /\ r.2 = ConfigItem "lxc.network.type" "none"
           :: itemCalls "lxc.mount.entry" (standardMounts td).
Proof.
  intros Hpre Habs Hnet Hstd. unfold Part000Ext.setCommonContainerConfig.
  destruct (SetConfigItem _ _ c) as [ok c0]. cbn [fst snd] in Hnet, Hstd.
  subst ok. cbn [negb]. cbv iota.
  destruct (setItems _ _ (standardMounts td) c0) as [[err c1] t1] eqn:H1.
  cbn [fst] in Hstd. subst err. apply setItems_ok in H1. subst t1.
  destruct (volumeMounts_absolute_refused join td pre v post
              (standardMounts td) Hpre Habs) as [mounts' ->].
  simpl. auto.
Qed.


End ConfigFacts.

(** * More on provisioning *)

Ltac unfold_start :=
  unfold Part000.Start, Part000.startWithCleanup, Part000.executeContainer,
    Part000.startContainer, Part000.renderAndExecute,
    Part000.stopAndRemoveConfigCleanup, Part000.removeConfigCleanup,
    Part000.removeLVCleanup, Part000.stopAndDestroyCleanup,
    LxcGo.Start, LxcGo.executeContainer, LxcGo.startContainer,
    Part000.callSetCommonContainerConfig, LxcGo.callSetCommonContainerConfig,
    callSetLimits, spawnHandle, execRun, cStop, cDestroy, noCleanup,
    bind, emit, lift, ret, result, trace, state,
    rootfsDir, lvcreateArgs, lvremoveCommand in *.

Ltac step_host :=
  cbn [fst snd negb app List.filter isRollback isGoRun isOsRemove
       rollbackSuffix forallb List.app];
  try change ("lvcreate" =? "lvremove")%string with false;
  try change ("lvremove" =? "lvremove")%string with true;
  cbn [fst snd negb app List.filter isRollback isGoRun isOsRemove
       rollbackSuffix forallb List.app].

Ltac split_host :=
  step_host;
  repeat (match goal with
          | |- context [match ?x with _ => _ end] =>
              lazymatch x with
              | context [match _ with _ => _ end] => fail
              | _ => destruct x eqn:?
              end
          end; step_host).

Lemma Index_lacks (sep : ascii) (s : string) :
  lacks sep s = true -> strings.Index s sep = -1.
Proof.
  induction s as [|c s IH]; [reflexivity |]. intros Hs.
  apply lacks_cons in Hs as [Hc Hs]. simpl.
  apply Ascii.eqb_neq in Hc. now rewrite Hc, (IH Hs).
Qed.

Section MoreStartFacts.

Context {C CS F : Type} `{CpuAccumulator CS F} (host : Host C).

(** X19.  [Start] of lxc.go has no rollback: whatever fails, it issues
    no [lvremove], removes no file, and neither stops nor destroys the
    container. *)
Theorem LxcGo_Start_never_rolls_back :
  List.filter isRollback (trace (LxcGo.Start (CS := CS) host tt)) = [].
Proof.
  unfold_start. split_host; reflexivity.
Qed.

(** X21.  [Start] of part_000 starts a monitor exactly when it returns a
    handle: then the error is nil, the handle is the fresh one (new
    channels, new accumulators), [go h.run()] happened once and no
    rollback ran; in every other outcome no monitor was started. *)
Theorem Start_monitor_iff_handle :
  match result (Part000.Start (CS := CS) host tt) with
  | Return (Some h, err) =>
      err = None
      /\ h = newHandle (theContainer host) (theInitPid host)
               (lxcPathOf host) (theKillTimeout host)
               (theMaxKillTimeout host)
      /\ List.filter isGoRun (trace (Part000.Start (CS := CS) host tt))
         = [GoRun]
      /\ List.filter isRollback (trace (Part000.Start (CS := CS) host tt))
         = []
  | _ => List.filter isGoRun (trace (Part000.Start (CS := CS) host tt)) = []
  end.
Proof.
  unfold_start. split_host; repeat split; reflexivity.
Qed.

(** X17.  Rollback of the clone strategy in part_000, for a task whose
    volumes [validateVolumesConfig] accepted: once the snapshot exists
    and its volume group is parsed, every outcome of [Start] other than
    a handle has a rollback, the rollback begins with the [lvremove] of
    the snapshot, and after it only rollback steps follow. *)
Theorem Start_clone_rollback (commonConfig : LxcCommonDriverConfig)
    (executeConfig : LxcExecuteDriverConfig) (baseLvName vgName : string) :
  decodeCommon host = Some commonConfig ->
  validateVolumesConfig (map IString (Volumes commonConfig)) = Return None ->
  entersClone host executeConfig ->
  BaseRootFsPath executeConfig = "lvm:" +:+ baseLvName ->
  runCommand host "lvcreate" (lvcreateArgs host baseLvName) = CmdOk ->
  extractVgName baseLvName = Return (vgName, None) ->
  (exists h, result (Part000.Start (CS := CS) host tt) = Return (Some h, None))
  \/ exists rest,
       rollbackSuffix (trace (Part000.Start (CS := CS) host tt))
       = lvremoveCommand host vgName :: rest
       /\ forallb isRollback rest = true.
Proof.
  intros Hdec Hvalid (commonConfig' & Hc & Hn & Hv & Hl & Hu & He & Hm)
    Hbase Hlv Hparse.
  rewrite Hdec in Hc. injection Hc as <-. apply validate_nil_valid in Hvalid.
  unfold_start. rewrite Hdec, Hn, Hv, Hl, Hu, He. cbn [negb]. cbv beta iota.
  rewrite Hm. cbn [negb]. cbv beta iota. rewrite Hbase.
  change 4 with (strings.len "lvm:").
  rewrite slice_to_append. cbv beta iota.
  change (negb ("lvm:" =? "lvm:")%string) with false. cbv beta iota.
  rewrite slice_from_append. cbv beta iota.
  rewrite Hlv. cbv beta iota. rewrite Hparse. cbv beta iota.
  match goal with
  | |- context [@Part000Ext.setCommonContainerConfig ?T ?I ?ve ?j ?td ?env
                  ?vols ?c] =>
      destruct (@setCommonContainerConfig_returns T I ve j td env vols c
                  Hvalid) as [r Hr];
      destruct (@Part000Ext.setCommonContainerConfig T I ve j td env vols c)
        as [[g log] calls]
  end.
  cbn [fst] in Hr. subst g.
  split_host;
    solve [ left; eauto | right; eexists; split; reflexivity ].
Qed.

(** X18.  Rollback of the template strategy in part_000, for a task
    whose volumes [validateVolumesConfig] accepted: after a successful
    [Create], [Start] either returns a handle, or its rollback destroys
    the container, or the rollback stopped at its own failed [Stop] and
    [Destroy] was never called. *)
Theorem Start_template_rollback (commonConfig : LxcCommonDriverConfig) :
  decodeCommon host = Some commonConfig ->
  UseExecute commonConfig = false ->
  validateVolumesConfig (map IString (Volumes commonConfig)) = Return None ->
  In CallCreate (trace (Part000.Start (CS := CS) host tt)) ->
  createOk host = true ->
  (exists h, result (Part000.Start (CS := CS) host tt) = Return (Some h, None))
  \/ List.filter isRollback (trace (Part000.Start (CS := CS) host tt))
     = [CallDestroy]
  \/ List.filter isRollback (trace (Part000.Start (CS := CS) host tt))
     = [CallStop; CallDestroy]
  \/ (stopErr host <> None
      /\ List.filter isRollback (trace (Part000.Start (CS := CS) host tt))
         = [CallStop]).
Proof.
  intros Hc Hu Hvalid. apply validate_nil_valid in Hvalid.
  unfold Part000.Start, Part000.startWithCleanup.
  rewrite Hc, Hu. unfold_start.
  destruct (newContainerOk host); cbn [negb]; cbv iota;
    [| intros []].
  destruct (verbosityOk _); cbn [negb]; cbv iota; [| intros []].
  destruct (logLevelOk _); cbn [negb]; cbv iota; [| intros []].
  destruct (decodeStartOk host); cbn [negb]; cbv iota; [| intros []].
  intros _ ->. cbn [negb]. cbv iota.
  match goal with
  | |- context [@Part000Ext.setCommonContainerConfig ?T ?I ?ve ?j ?td ?env
                  ?vols ?c] =>
      destruct (@setCommonContainerConfig_returns T I ve j td env vols c
                  Hvalid) as [r Hr];
      destruct (@Part000Ext.setCommonContainerConfig T I ve j td env vols c)
        as [[g log] calls]
  end.
  cbn [fst] in Hr. subst g.
  split_host;
    first [ left; eexists; reflexivity
          | right; left; reflexivity
          | right; right; left; reflexivity
          | right; right; right; split; [congruence | reflexivity] ].
Qed.

(** X29.  A panic of [setCommonContainerConfig] (the index expression on
    a volume without a colon) takes [Start] of part_000 down where it
    stands: [Start] panics with it, the call is the last event, and no
    rollback step has run, so what the steps before it created (the
    snapshot and the configuration file, or the container) stays. *)
Theorem Start_config_panic_no_rollback
    (commonConfig : LxcCommonDriverConfig) (msg : string) :
  decodeCommon host = Some commonConfig ->
  (Part000Ext.setCommonContainerConfig (H := hostConfig host)
     (volumesEnabled host) (fun a b => filepathJoin host [a; b])
     (taskDir host) (taskEnv host) (Volumes commonConfig) []).1.1
  = Panic msg ->
  In CallSetCommonContainerConfig
    (trace (Part000.Start (CS := CS) host tt)) ->
  result (Part000.Start (CS := CS) host tt) = Panic msg
  /\ List.filter isRollback (trace (Part000.Start (CS := CS) host tt)) = []
  /\ List.last (trace (Part000.Start (CS := CS) host tt)) GoRun
     = CallSetCommonContainerConfig.
Proof.
  intros Hc Hpanic. unfold_start. rewrite Hc.
  destruct (Part000Ext.setCommonContainerConfig _ _ _ _ _ _)
    as [[g log] calls].
  cbn [fst] in Hpanic. subst g.
  split_host; simpl; intros Hin;
    repeat (destruct Hin as [Hin | Hin]; [discriminate Hin |]);
    try contradiction; try discriminate;
    repeat split; reflexivity.
Qed.


(** X22.  lxc.go takes the volume group to be the text before the first
    slash, after the snapshot is made.  A base reference without a slash
    makes the slice panic; one that starts with a slash is refused for an
    empty volume group.  In both cases the snapshot stays. *)
Theorem LxcGo_Start_vg_before_slash (executeConfig : LxcExecuteDriverConfig)
    (baseLvName : string) :
  entersClone host executeConfig ->
  BaseRootFsPath executeConfig = "lvm:" +:+ baseLvName ->
  runCommand host "lvcreate" (lvcreateArgs host baseLvName) = CmdOk ->
  (lacks "/" baseLvName = true ->
   LxcGo.Start (CS := CS) host tt
   = (Panic "slice bounds out of range", tt,
      [OsMkdirAll (rootfsDir host);
       ExecCommand "lvcreate" (lvcreateArgs host baseLvName)]))
  /\ (strings.HasPrefix baseLvName "/" = true ->
      LxcGo.Start (CS := CS) host tt
      = (Return (None, Some ErrNoVgName), tt,
         [OsMkdirAll (rootfsDir host);
          ExecCommand "lvcreate" (lvcreateArgs host baseLvName)])).
Proof.
  intros (commonConfig & Hc & Hn & Hv & Hl & Hu & He & Hm) Hbase Hlv.
  unfold_start. rewrite Hc, Hn, Hv, Hl, Hu, He. cbn [negb]. cbv beta iota.
  rewrite Hm. cbn [negb]. cbv beta iota. rewrite Hbase.
  change 4 with (strings.len "lvm:").
  rewrite slice_to_append. cbv beta iota.
  change (negb ("lvm:" =? "lvm:")%string) with false. cbv beta iota.
  rewrite slice_from_append. cbv beta iota.
  rewrite Hlv. cbv beta iota.
  split.
  - intros Hno. rewrite (Index_lacks "/" baseLvName Hno). reflexivity.
  - intros Habs. destruct baseLvName as [|c r]; [discriminate |].
    simpl in Habs. destruct (Ascii.eqb_spec c "/") as [-> | _];
      [| discriminate].
    cbn [strings.Index]. rewrite Ascii.eqb_refl.
    unfold strings.slice_to, strings.slice.
    replace ((0 <=? 0) && (0 <=? 0) && (0 <=? strings.len (String "/" r)))
      with true
      by (symmetry; rewrite !andb_true_iff, !Z.leb_le; unfold strings.len;
          lia).
    reflexivity.
Qed.

(** X26.  The rollback of part_000 stops at a failed [lvremove]: on a
    host where [lvremove] does not succeed, [Start] never removes the
    configuration file that it rendered. *)
Theorem Start_failed_lvremove_keeps_config :
  (forall args, runCommand host "lvremove" args <> CmdOk) ->
  List.filter isOsRemove (trace (Part000.Start (CS := CS) host tt)) = [].
Proof.
  intros Hfail. unfold_start. split_host; try reflexivity;
    match goal with
    | Hok : runCommand host "lvremove" _ = CmdOk |- _ =>
        now apply Hfail in Hok
    end.
Qed.

End MoreStartFacts.

(** * Fingerprint *)

(** X23.  [Fingerprint] of part_000 reports the driver exactly when it is
    enabled (or the client is in dev mode) and LXC has a version.  When
    it does not, the attributes are untouched; when it does, the version,
    driver.lxc and driver.lxc.execute are set, the volumes attribute is
    set when volumes are enabled and otherwise left as it was, and no
    other attribute changes. *)
Theorem Fingerprint_attributes (env : FingerprintEnv)
    (attributes : gmap string string) :
  let r := Part000Ext.Fingerprint env attributes in
  (r.1 = true <-> (fpEnabled env || fpDevMode env = true)
                  /\ fpVersion env <> "")
  /\ (r.1 = false -> r.2 = attributes)
  /\ (r.1 = true ->
      r.2 !! "driver.lxc.version" = Some (fpVersion env)
      /\ r.2 !! "driver.lxc" = Some "1"
      /\ r.2 !! "driver.lxc.execute" = Some "true"
      /\ r.2 !! "driver.lxc.volumes.enabled"
         = (if fpVolumesEnabled env then Some "1"
            else attributes !! "driver.lxc.volumes.enabled")
      /\ forall k : string,
           k <> "driver.lxc.version" -> k <> "driver.lxc" ->
           k <> "driver.lxc.execute" -> k <> "driver.lxc.volumes.enabled" ->
           r.2 !! k = attributes !! k).
Proof.
  unfold Part000Ext.Fingerprint.
  destruct (fpEnabled env), (fpDevMode env); simpl;
    destruct (String.eqb_spec (fpVersion env) "") as [Hv | Hv]; simpl;
    (split; [split; [try discriminate; auto | intros [? ?]; try discriminate;
                                               try contradiction; auto] |]);
    (split; [try discriminate; auto |]);
    try discriminate;
    intros _; destruct (fpVolumesEnabled env);
    repeat split; try (intros k H1 H2 H3 H4); simplify_map_eq; reflexivity.
Qed.

(** * Validate *)

(** X24.  [Validate] of part_000 on a configuration whose
    ["use_execute"] is absent or a boolean and whose volumes are
    strings: it returns nil exactly when the schema of the selected mode
    validates and every volume spec is valid.  A value of another type
    under ["use_execute"] is refused whatever the rest says. *)
Theorem Validate_nil_iff (env : ValidateEnv) (useExecute : bool)
    (specs : list string) :
  useExecuteEntry env = None /\ useExecute = false
  \/ useExecuteEntry env = Some (UseExecuteBool useExecute) ->
  (if useExecute then execFdVolumes env else fdVolumes env)
  = Some (map IString specs) ->
  (Part000Ext.Validate env = Return None
   <-> (if useExecute then execFdValidates env else fdValidates env) = true
       /\ Forall validVolumeSpec specs).
Proof.
  intros Hentry Hvol.
  assert (Hval : Part000Ext.Validate env
            = if negb (if useExecute then execFdValidates env
                       else fdValidates env)
              then Return (Some ErrSchema)
              else go_bind (validateVolumesConfig (map IString specs))
                     (fun err => match err with
                                 | Some e => Return (Some (ErrVolumes e))
                                 | None => Return None
                                 end)).
  { unfold Part000Ext.Validate.
    destruct Hentry as [[-> ->] | ->]; cbv beta iota; now rewrite Hvol. }
  rewrite Hval.
  destruct (if useExecute then execFdValidates env else fdValidates env);
    simpl; [| split; [discriminate | now intros [? _]]].
  split.
  - destruct (validateVolumesConfig (map IString specs)) as [[e|]| |] eqn:Hv;
      simpl; try discriminate.
    intros _. split; [reflexivity | now apply validate_nil_valid].
  - intros [_ Hall].
    assert (Hnil : validateVolumesConfig (map IString specs) = Return None).
    { clear Hval Hvol. induction Hall as [|v specs Hv _ IH]; [reflexivity |].
      change (map IString (v :: specs))
        with (IString v :: map IString specs).
      now rewrite (validate_valid v _ Hv). }
    now rewrite Hnil.
Qed.

Lemma Validate_other_refused (env : ValidateEnv) :
  useExecuteEntry env = Some UseExecuteOther ->
  Part000Ext.Validate env = Return (Some ErrUseExecute).
Proof. intros He. unfold Part000Ext.Validate. now rewrite He. Qed.

(** * The storage name *)

Lemma tr_inj (a b : string) : tr a = tr b -> a = b.
Proof.
  revert b. induction a as [|c a IH]; intros [|d b] Heq.
  - reflexivity.
  - destruct (notDash_cases d) as [-> | Hd];
      [rewrite tr_cons_dash in Heq | rewrite (tr_cons_other d b Hd) in Heq];
      discriminate.
  - destruct (notDash_cases c) as [-> | Hc];
      [rewrite tr_cons_dash in Heq | rewrite (tr_cons_other c a Hc) in Heq];
      discriminate.
  - destruct (notDash_cases c) as [-> | Hc], (notDash_cases d) as [-> | Hd].
    + rewrite !tr_cons_dash in Heq. injection Heq as Heq. now rewrite (IH b).
    + rewrite tr_cons_dash, (tr_cons_other d b Hd) in Heq.
      injection Heq as <- _. discriminate.
    + rewrite tr_cons_dash, (tr_cons_other c a Hc) in Heq.
      injection Heq as -> _. discriminate.
    + rewrite (tr_cons_other c a Hc), (tr_cons_other d b Hd) in Heq.
      injection Heq as -> Heq. now rewrite (IH b).
Qed.

Lemma append_cancel_l (a x y : string) : a +:+ x = a +:+ y -> x = y.
Proof.
  induction a as [|c a IH]; simpl; [auto |]. intros [= Heq]. auto.
Qed.

(** X25.  The device-mapper path that [executeContainer] renders
    identifies the volume group and the container: two pairs of names
    (volume groups over the class, not ending in a dash; container names
    not starting with one) with the same path are the same pair. *)
Theorem devMapperPath_injective (vg vg' n n' : string) (y y' : ascii) :
  vg <> "" -> strings.all vgClass vg = true ->
  strings.last vg <> Some "-"%char ->
  vg' <> "" -> strings.all vgClass vg' = true ->
  strings.last vg' <> Some "-"%char ->
  strings.head n = Some y -> notDash y = true ->
  strings.head n' = Some y' -> notDash y' = true ->
  devMapperPath vg n = devMapperPath vg' n' ->
  vg = vg' /\ n = n'.
Proof.
  intros H1 H2 H3 H1' H2' H3' Hn Hy Hn' Hy' Heq.
  pose proof (extractVgName_devMapperPath vg n y H1 H2 H3 Hn Hy) as Hp.
  pose proof (extractVgName_devMapperPath vg' n' y' H1' H2' H3' Hn' Hy')
    as Hp'.
  rewrite Heq, Hp' in Hp. injection Hp as Htr. apply tr_inj in Htr.
  subst vg'. split; [reflexivity |].
  unfold devMapperPath in Heq.
  apply append_cancel_l, append_cancel_l in Heq.
  apply append_cancel_l in Heq. now apply tr_inj.
Qed.

(** * The two versions side by side *)

(** X27.  The two versions of [Fingerprint] detect the driver on the
    same nodes and agree on every attribute other than
    driver.lxc.volumes.enabled, which only part_000 writes. *)
Theorem Fingerprint_versions_agree (env : FingerprintEnv)
    (attributes : gmap string string) :
  (LxcGoExt.Fingerprint env attributes).1
  = (Part000Ext.Fingerprint env attributes).1
  /\ (LxcGoExt.Fingerprint env attributes).2 !! "driver.lxc.volumes.enabled"
     = attributes !! "driver.lxc.volumes.enabled"
  /\ forall k : string,
       k <> "driver.lxc.volumes.enabled" ->
       (LxcGoExt.Fingerprint env attributes).2 !! k
       = (Part000Ext.Fingerprint env attributes).2 !! k.
Proof.
  unfold LxcGoExt.Fingerprint, Part000Ext.Fingerprint.
  destruct (negb (fpEnabled env) && negb (fpDevMode env)); [auto |].
  destruct (fpVersion env =? "")%string; [auto |].
  simpl. split; [reflexivity |]. split; [now simplify_map_eq |].
  intros k Hk. destruct (fpVolumesEnabled env); [| reflexivity].
  destruct (decide (k = "driver.lxc.execute")) as [-> | He];
    [now simplify_map_eq |].
  rewrite !(lookup_insert_ne _ "driver.lxc.execute") by congruence.
  now rewrite (lookup_insert_ne _ "driver.lxc.volumes.enabled") by congruence.
Qed.

Section ConfigVersions.

Context {C : Type} `{ContainerConfig C}.

(** X28.  [setCommonContainerConfig] of lxc.go makes its calls in the
    order network type, then the three standard mounts, and stops at the
    first call that fails.  When it returns nil it has made all four and
    each of them succeeded; when it returns an error every call but the
    last one made succeeded, the last one failed, and the error names
    it.  The container it leaves is the one after those calls.  It sets
    no environment item and mounts no volume. *)
Theorem LxcGo_setCommonContainerConfig_calls (td : TaskDir) (c : C) :
  let r := LxcGoExt.setCommonContainerConfig td c in
  let all := ConfigItem "lxc.network.type" "none"
             :: itemCalls "lxc.mount.entry" (standardMounts td) in
  (exists rest, all = r.2 ++ rest)
  /\ r.1.2 = (replay r.2 c).2
  /\ match r.1.1 with
     | None => r.2 = all /\ (replay r.2 c).1 = [true; true; true; true]
     | Some e =>
         exists done call,
           r.2 = done ++ [call]
           /\ (replay r.2 c).1 = replicate (length done) true ++ [false]
           /\ (done = [] /\ e = ErrNetworkType
               \/ exists mnt, done <> []
                              /\ call = ConfigItem "lxc.mount.entry" mnt
                              /\ e = ErrBindMount mnt)
     end.
Proof.
  unfold LxcGoExt.setCommonContainerConfig, standardMounts, itemCalls.
  cbn [map].
  destruct (SetConfigItem "lxc.network.type" "none" c) as [[] c0] eqn:H0;
    cbn [negb]; cbv iota.
  2: { cbn [fst snd replay]. rewrite H0. cbn [fst snd].
       split; [eauto |]. split; [reflexivity |].
       exists [], (ConfigItem "lxc.network.type" "none"). auto. }
  cbn [setItems].
  destruct (SetConfigItem "lxc.mount.entry" (mountEntry (LocalDir td) "local")
              c0) as [[] c1] eqn:H1.
  2: { cbn [fst snd replay]. rewrite H0, H1. cbn [fst snd].
       split; [eauto |]. split; [reflexivity |].
       exists [ConfigItem "lxc.network.type" "none"],
         (ConfigItem "lxc.mount.entry" (mountEntry (LocalDir td) "local")).
       split; [reflexivity |]. split; [reflexivity |]. right.
       eexists. split; [discriminate |]. split; reflexivity. }
  destruct (SetConfigItem "lxc.mount.entry"
              (mountEntry (SharedAllocDir td) "alloc") c1)
    as [[] c2] eqn:H2.
  2: { cbn [fst snd replay]. rewrite H0, H1, H2. cbn [fst snd].
       split; [eauto |]. split; [reflexivity |].
       exists [ConfigItem "lxc.network.type" "none";
               ConfigItem "lxc.mount.entry" (mountEntry (LocalDir td) "local")],
         (ConfigItem "lxc.mount.entry" (mountEntry (SharedAllocDir td) "alloc")).
       split; [reflexivity |]. split; [reflexivity |]. right.
       eexists. split; [discriminate |]. split; reflexivity. }
  destruct (SetConfigItem "lxc.mount.entry"
              (mountEntry (SecretsDir td) "secrets") c2)
    as [[] c3] eqn:H3.
  2: { cbn [fst snd replay]. rewrite H0, H1, H2, H3. cbn [fst snd].
       split; [eauto |]. split; [reflexivity |].
       exists [ConfigItem "lxc.network.type" "none";
               ConfigItem "lxc.mount.entry" (mountEntry (LocalDir td) "local");
               ConfigItem "lxc.mount.entry" (mountEntry (SharedAllocDir td) "alloc")],
         (ConfigItem "lxc.mount.entry" (mountEntry (SecretsDir td) "secrets")).
       split; [reflexivity |]. split; [reflexivity |]. right.
       eexists. split; [discriminate |]. split; reflexivity. }
  cbn [fst snd replay]. rewrite H0, H1, H2, H3. cbn [fst snd].
  split; [exists []; reflexivity |]. split; [reflexivity |].
  split; reflexivity.
Qed.

End ConfigVersions.

(** * Examples *)

Lemma Open_ID_witness :
  exists h',
    Open (CS := rateAccumulator) exampleUnmarshal (fun _ => [liveContainer])
      (fun _ => 4711) 30 (ID exampleMarshal (fakeHandle liveContainer))
    = (Some h', None)
    /\ Name (container h') = "web-4d2f".
Proof.
  pose proof (Open_ID (F := Z) exampleMarshal exampleUnmarshal
                (fun _ => [liveContainer]) (fun _ => 4711) 30
                (fakeHandle liveContainer) "web-4d2f") as Hround.
  cbv zeta in Hround.
  specialize (Hround ltac:(vm_compute; reflexivity)
                ltac:(vm_compute; reflexivity) ltac:(left; reflexivity)).
  destruct Hround as (h' & Hopen & Hname & _).
  exists h'. split; [exact Hopen | exact Hname].
Defined.

Lemma Open_not_found_witness :
  Open (CS := rateAccumulator) exampleUnmarshal
    (fun _ => @nil fakeContainer) (fun _ => 4711) 30 "web-4d2f"
  = (None, Some (ErrContainerNotFound "web-4d2f")).
Proof.
  apply (proj2 (Open_not_found (CS := rateAccumulator) (F := Z)
                  exampleUnmarshal (fun _ => @nil fakeContainer)
                  (fun _ => 4711) 30 "web-4d2f" _ eq_refl)).
  intros c [].
Defined.

Lemma setCommonContainerConfig_validated_witness :
  exists r,
    (Part000Ext.setCommonContainerConfig true exampleJoin exampleTaskDir
       ["PATH=/bin"] ["data:srv/data"; "/etc/ssl:etc/ssl"]
       {| callsSeen := 0; refused := [8%nat] |}).1.1
    = Return r.
Proof.
  apply setCommonContainerConfig_validated. vm_compute. reflexivity.
Defined.

Lemma setCommonContainerConfig_unvalidated_panics_witness :
  (Part000Ext.setCommonContainerConfig true exampleJoin exampleTaskDir
     ["PATH=/bin"] ["data"] {| callsSeen := 0; refused := [] |}).1.1
  = Panic "index out of range".
Proof.
  refine (proj1 (setCommonContainerConfig_unvalidated_panics true exampleJoin
                   exampleTaskDir ["PATH=/bin"] "data" []
                   {| callsSeen := 0; refused := [] |} _ _ _ _));
    vm_compute; reflexivity.
Defined.

Lemma setCommonContainerConfig_calls_witness :
  (Part000Ext.setCommonContainerConfig true exampleJoin exampleTaskDir
     ["PATH=/bin"] ["data:srv/data"]
     {| callsSeen := 0; refused := [] |}).2
  = ConfigItem "lxc.network.type" "none"
    :: itemCalls "lxc.mount.entry" (standardMounts exampleTaskDir)
    ++ itemCalls "lxc.mount.entry"
         (standardMounts exampleTaskDir
          ++ volumeEntries exampleJoin exampleTaskDir ["data:srv/data"])
    ++ itemCalls "lxc.environment" ["PATH=/bin"].
Proof.
  apply setCommonContainerConfig_calls. vm_compute. reflexivity.
Defined.

Lemma setCommonContainerConfig_absolute_refused_witness :
  (Part000Ext.setCommonContainerConfig false exampleJoin exampleTaskDir
     ["PATH=/bin"] (["data:srv/data"] ++ "/etc/ssl:etc/ssl" :: ["logs:log"])
     {| callsSeen := 0; refused := [] |}).1.1
  = Return (Some ErrAbsoluteVolume).
Proof.
  refine (proj1 (setCommonContainerConfig_absolute_refused
                   exampleJoin exampleTaskDir ["PATH=/bin"]
                   ["data:srv/data"] "/etc/ssl:etc/ssl" ["logs:log"]
                   {| callsSeen := 0; refused := [] |} _ _ _ _));
    try (vm_compute; reflexivity).
  constructor; [| constructor]. split; [| vm_compute; reflexivity].
  exists "data", "srv/data". repeat split; vm_compute; congruence.
Defined.

Lemma scriptedHost_entersClone (base : string) commands starts :
  entersClone (scriptedHost cloneTask base commands starts)
    {| BaseRootFsPath := base; BaseConfigPath := "/etc/lxc/base.conf";
       CmdArgs := ["/bin/app"] |}.
Proof. eexists. repeat split; reflexivity. Defined.

Lemma Start_clone_rollback_witness :
  exists rest,
    rollbackSuffix
      (trace (Part000.Start (CS := rateAccumulator)
                (scriptedHost cloneTask "lvm:vg0/base" (fun _ _ => CmdOk)
                   false) tt))
    = ExecCommand "lvremove" ["-f"; "vg0/web-4d2f"] :: rest
    /\ forallb isRollback rest = true.
Proof.
  destruct (Start_clone_rollback (CS := rateAccumulator)
              (scriptedHost cloneTask "lvm:vg0/base" (fun _ _ => CmdOk) false)
              cloneTask _ "vg0/base" "vg0" eq_refl eq_refl
              (scriptedHost_entersClone _ _ _) eq_refl eq_refl eq_refl)
    as [[h Hh] | Hroll].
  - vm_compute in Hh. discriminate Hh.
  - exact Hroll.
Defined.

Lemma Start_template_rollback_witness :
  List.filter isRollback
    (trace (Part000.Start (CS := rateAccumulator)
              (scriptedHost (templateTask "quiet") "" (fun _ _ => CmdOk)
                 false) tt))
  = [CallDestroy].
Proof.
  destruct (Start_template_rollback (CS := rateAccumulator)
              (scriptedHost (templateTask "quiet") "" (fun _ _ => CmdOk)
                 false)
              (templateTask "quiet") eq_refl eq_refl eq_refl
              ltac:(vm_compute; tauto) eq_refl)
    as [[h Hh] | [Hd | [Hsd | [Hs _]]]].
  - vm_compute in Hh. discriminate Hh.
  - exact Hd.
  - vm_compute in Hsd. discriminate Hsd.
  - now contradiction Hs.
Defined.

Lemma Start_config_panic_no_rollback_witness :
  result (Part000.Start (CS := rateAccumulator)
            (scriptedHost (volumeTask ["data"]) "lvm:vg0/base"
               (fun _ _ => CmdOk) true) tt)
  = Panic "index out of range"
  /\ List.filter isLvCommand
       (trace (Part000.Start (CS := rateAccumulator)
                 (scriptedHost (volumeTask ["data"]) "lvm:vg0/base"
                    (fun _ _ => CmdOk) true) tt))
     = [ExecCommand "lvcreate" ["-kn"; "-n"; "web-4d2f"; "-s"; "vg0/base"]].
Proof.
  split; [| vm_compute; reflexivity].
  apply (Start_config_panic_no_rollback (CS := rateAccumulator)
           (scriptedHost (volumeTask ["data"]) "lvm:vg0/base"
              (fun _ _ => CmdOk) true)
           (volumeTask ["data"]) "index out of range" eq_refl).
  - vm_compute. reflexivity.
  - vm_compute. tauto.
Defined.


Lemma LxcGo_Start_vg_before_slash_witness :
  LxcGo.Start (CS := rateAccumulator) (fakeHost "lvm:base") tt
  = (Panic "slice bounds out of range", tt,
     [OsMkdirAll "/var/lib/lxc/web-4d2f/rootfs";
      ExecCommand "lvcreate" ["-kn"; "-n"; "web-4d2f"; "-s"; "base"]]).
Proof.
  exact (proj1 (LxcGo_Start_vg_before_slash (CS := rateAccumulator)
                  (fakeHost "lvm:base") _ "base"
                  (fakeHost_entersClone "lvm:base") eq_refl eq_refl)
           eq_refl).
Defined.

Lemma Start_failed_lvremove_keeps_config_witness :
  List.filter isOsRemove
    (trace (Part000.Start (CS := rateAccumulator)
              (scriptedHost cloneTask "lvm:vg0/base" lvremoveFails false) tt))
  = []
  /\ In (ExecCommand "lvremove" ["-f"; "vg0/web-4d2f"])
       (trace (Part000.Start (CS := rateAccumulator)
                 (scriptedHost cloneTask "lvm:vg0/base" lvremoveFails false)
                 tt)).
Proof.
  split.
  - apply (Start_failed_lvremove_keeps_config (CS := rateAccumulator)
             (scriptedHost cloneTask "lvm:vg0/base" lvremoveFails false)).
    intros args. discriminate.
  - vm_compute. tauto.
Defined.

Lemma Validate_nil_iff_witness :
  Forall validVolumeSpec ["data:srv/data"; "/etc/ssl:etc/ssl"].
Proof.
  exact (proj2 (proj1 (Validate_nil_iff
                         {| useExecuteEntry := Some (UseExecuteBool true);
                            fdValidates := false;
                            execFdValidates := true;
                            fdVolumes := None;
                            execFdVolumes :=
                              Some [IString "data:srv/data";
                                    IString "/etc/ssl:etc/ssl"] |}
                         true ["data:srv/data"; "/etc/ssl:etc/ssl"]
                         (or_intror eq_refl) eq_refl)
                  eq_refl)).
Defined.

Lemma devMapperPath_injective_witness :
  devMapperPath "vg-0" "web-4d2f" = "/dev/mapper/vg--0-web--4d2f"
  /\ ("vg-0" = "vg-0" /\ "web-4d2f" = "web-4d2f").
Proof.
  split; [reflexivity |].
  apply (devMapperPath_injective "vg-0" "vg-0" "web-4d2f" "web-4d2f"
           "w" "w");
    first [reflexivity | discriminate].
Defined.
